(** * Graph2RAG: identity resolution and per-workspace engine registry

    A shallow embedding of the authentication layer of Graph2RAG
    (credential store, session tokens, workspace middleware and the
    per-workspace engine cache), followed by the properties the design
    document states about it.

    Conventions of the embedding:
    - a Python [dict] keyed by strings is a [gmap string _];
    - a function that may raise returns a [result]; a method that also
      mutates the store returns the result paired with the new store;
    - values the code draws from its environment (clock, random salt,
      file contents, third-party library calls) are explicit arguments
      or section variables;
    - a coroutine is a small state machine, one transition per stretch
      of code between two [await]s, driven by an explicit schedule. *)

From Stdlib Require Import ZArith Lia Ascii String.
From stdpp Require Import base option list strings gmap.

Set Warnings "-register-all".
Set Default Proof Using "Type".


(** ** Python values, exceptions and results *)

(** [datetime] values, as microseconds since the epoch. *)
Definition datetime : Type := Z.
Bind Scope Z_scope with datetime.

(** The exceptions the modelled code raises or catches.  The three
    classes in the middle are the subclasses of [jwt.PyJWTError] that
    [jwt.decode] raises; [PyException] stands for every other Python
    exception ([OSError], [ValueError], [KeyError], ...). *)
Inductive exn : Type :=
| HTTPException (status_code : Z) (detail : string)
| ExpiredSignatureError
| InvalidSignatureError
| DecodeError
| PyException (cls : string).

Definition HTTP_401_UNAUTHORIZED : Z := 401.
Definition HTTP_404_NOT_FOUND : Z := 404.
Definition HTTP_409_CONFLICT : Z := 409.

(** [isinstance(e, jwt.PyJWTError)] *)
Definition is_PyJWTError (e : exn) : bool :=
  match e with
  | ExpiredSignatureError | InvalidSignatureError | DecodeError => true
  | _ => false
  end.

Inductive result (A : Type) : Type :=
| Return (a : A)
| Raise (e : exn).
Arguments Return {A} a.
Arguments Raise {A} e.

(** Sequencing: an exception skips the rest.  With these instances
    stdpp's [x ← r; k] reads as a Python block. *)
Global Instance result_ret : MRet result := fun A a => Return a.
Global Instance result_bind : MBind result := fun A B k r =>
  match r with
  | Return a => k a
  | Raise e => Raise e
  end.

(** JSON-shaped Python values, as [json.load] produces them and as the
    loader rewrites them ([PDatetime] appears once an ISO string has been
    converted). A [dict] keeps its items in order. *)
Inductive pyval : Type :=
| PNone
| PBool (b : bool)
| PInt (z : Z)
| PStr (s : string)
| PDatetime (t : datetime)
| PList (l : list pyval)
| PDict (items : list (string * pyval)).

(** Python truthiness. *)
Definition truthy (v : pyval) : bool :=
  match v with
  | PNone => false
  | PBool b => b
  | PInt z => negb (z =? 0)%Z
  | PStr s => negb (String.eqb s "")
  | PDatetime _ => true
  | PList l => match l with [] => false | _ => true end
  | PDict items => match items with [] => false | _ => true end
  end.

(** Truthiness of an optional string ([None] and [""] are falsy). *)
Definition str_truthy (o : option string) : bool :=
  match o with
  | Some s => negb (String.eqb s "")
  | None => false
  end.

(** [d.get(k)] and [d[k] = v] on the items of a [dict]. *)
Fixpoint dict_get (k : string) (items : list (string * pyval)) : option pyval :=
  match items with
  | [] => None
  | (k', v) :: rest => if String.eqb k k' then Some v else dict_get k rest
  end.

Fixpoint dict_set (k : string) (v : pyval) (items : list (string * pyval))
  : list (string * pyval) :=
  match items with
  | [] => [(k, v)]
  | (k', v') :: rest =>
      if String.eqb k k' then (k, v) :: rest else (k', v') :: dict_set k v rest
  end.

(** [s.split(sep)] for a one-character separator. *)
Fixpoint split (sep : ascii) (s : string) : list string :=
  match s with
  | EmptyString => [EmptyString]
  | String c s' =>
      if Ascii.eqb c sep then EmptyString :: split sep s'
      else match split sep s' with
           | h :: t => String c h :: t
           | [] => [String c EmptyString]
           end
  end.

(** [s.split(sep, 1)]: [None] when [sep] does not occur (the result then
    has a single element). *)
Fixpoint split_once (sep : ascii) (s : string) : option (string * string) :=
  match s with
  | EmptyString => None
  | String c s' =>
      if Ascii.eqb c sep then Some (EmptyString, s')
      else match split_once sep s' with
           | Some (h, t) => Some (String c h, t)
           | None => None
           end
  end.

(** [sep in s] for a one-character [sep]. *)
Definition contains (sep : ascii) (s : string) : bool :=
  match split_once sep s with Some _ => true | None => false end.

(** [s.startswith(p)] *)
Definition startswith (s p : string) : bool := String.prefix p s.

(** What the code prints to standard output. *)
Inductive log_line : Type :=
| Error_loading_users (e : exn)
| Error_creating_user_from_env (e : exn).

(** ** lightrag/api/user_manager.py *)

Module user_manager.

(** [class User(BaseModel)] *)
Record User : Type := mkUser {
  username : string;
  email : string;
  password_hash : string;
  salt : string;
  created_at : datetime;
  last_login : option datetime;
  is_active : bool;
  workspace : string;
  metadata : list (string * pyval)
}.

(** The keyword dictionary [kwargs] the body of [update_user] sees,
    once the call is bound.  The four keys the method looks at are
    typed as the call sites pass them; [kw_other] holds whatever else
    the caller passed ([workspace], [created_at], ...).  The keywords
    [username] and [self] name the method's own parameters and never
    get here: see [update_user_call]. *)
Record Kwargs : Type := mkKwargs {
  kw_email : option string;
  kw_is_active : option bool;
  kw_metadata : option (list (string * pyval));
  kw_password : option string;
  kw_other : list (string * pyval)
}.

Section UserManager.

(** [hashlib.sha256(s.encode()).hexdigest()] *)
Variable sha256_hexdigest : string -> string.

Definition _hash_password (password salt : string) : string :=
  sha256_hexdigest (password +:+ salt).

(** [create_user]. [token_hex] is the value of [secrets.token_hex(16)]
    and [utcnow] that of [datetime.utcnow()] drawn by this call. *)
Definition create_user (token_hex : string) (utcnow : datetime)
    (username email password : string) (users : gmap string User)
  : result User * gmap string User :=
  match users !! username with
  | Some _ =>
      (Raise (HTTPException HTTP_409_CONFLICT
                ("User " +:+ username +:+ " already exists")), users)
  | None =>
      let salt := token_hex in
      let password_hash := _hash_password password salt in
      let workspace := "user_" +:+ username in
      let user := {| username := username; email := email;
                     password_hash := password_hash; salt := salt;
                     created_at := utcnow; last_login := None;
                     is_active := true; workspace := workspace;
                     metadata := [] |} in
      (Return user, <[username := user]> users)
  end.

Definition set_last_login (user : User) (t : datetime) : User :=
  {| username := user.(username); email := user.(email);
     password_hash := user.(password_hash); salt := user.(salt);
     created_at := user.(created_at); last_login := Some t;
     is_active := user.(is_active); workspace := user.(workspace);
     metadata := user.(metadata) |}.

(** [authenticate]. The record is mutated in place, so the store
    holds the updated [last_login] afterwards. *)
Definition authenticate (utcnow : datetime) (username password : string)
    (users : gmap string User) : option User * gmap string User :=
  match users !! username with
  | None => (None, users)
  | Some user =>
      if negb user.(is_active) then (None, users)
      else
        let password_hash := _hash_password password user.(salt) in
        if negb (String.eqb password_hash user.(user_manager.password_hash))
        then (None, users)
        else
          let user := set_last_login user utcnow in
          (Some user, <[username := user]> users)
  end.

Definition get_user (username : string) (users : gmap string User)
  : option User := users !! username.

(** The loop over [allowed_fields = ['email', 'is_active', 'metadata']]
    followed by the password branch, on one record. *)
Definition apply_kwargs (token_hex : string) (kwargs : Kwargs) (user : User)
  : User :=
  let email := default user.(email) kwargs.(kw_email) in
  let is_active := default user.(is_active) kwargs.(kw_is_active) in
  let metadata := default user.(metadata) kwargs.(kw_metadata) in
  match kwargs.(kw_password) with
  | Some password =>
      let salt := token_hex in
      {| username := user.(username); email := email;
         password_hash := _hash_password password salt; salt := salt;
         created_at := user.(created_at); last_login := user.(last_login);
         is_active := is_active; workspace := user.(workspace);
         metadata := metadata |}
  | None =>
      {| username := user.(username); email := email;
         password_hash := user.(password_hash); salt := user.(salt);
         created_at := user.(created_at); last_login := user.(last_login);
         is_active := is_active; workspace := user.(workspace);
         metadata := metadata |}
  end.

(** The body of [update_user], run on the keyword dictionary of a
    call whose arguments were bound (see [update_user_call] below). *)
Definition update_user (token_hex : string) (username : string)
    (kwargs : Kwargs) (users : gmap string User)
  : option User * gmap string User :=
  match users !! username with
  | None => (None, users)
  | Some user =>
      let user := apply_kwargs token_hex kwargs user in
      (Some user, <[username := user]> users)
  end.

(** The keywords of a call, as the typed dictionary above.  A value
    of another type than the field's ([str], [bool], [dict], [str]) has
    no place in the typed record; [well_typed] says there is none. *)
Definition decode_kwargs (keywords : list (string * pyval)) : Kwargs :=
  {| kw_email :=
       match dict_get "email" keywords with
       | Some (PStr email) => Some email
       | _ => None
       end;
     kw_is_active :=
       match dict_get "is_active" keywords with
       | Some (PBool is_active) => Some is_active
       | _ => None
       end;
     kw_metadata :=
       match dict_get "metadata" keywords with
       | Some (PDict metadata) => Some metadata
       | _ => None
       end;
     kw_password :=
       match dict_get "password" keywords with
       | Some (PStr password) => Some password
       | _ => None
       end;
     kw_other :=
       List.filter
         (fun kv => negb (String.eqb kv.1 "email" || String.eqb kv.1 "is_active"
                          || String.eqb kv.1 "metadata"
                          || String.eqb kv.1 "password"))
         keywords |}.

Definition well_typed (keywords : list (string * pyval)) : bool :=
  match dict_get "email" keywords with
  | Some (PStr _) | None => true
  | _ => false
  end
  && match dict_get "is_active" keywords with
     | Some (PBool _) | None => true
     | _ => false
     end
  && match dict_get "metadata" keywords with
     | Some (PDict _) | None => true
     | _ => false
     end
  && match dict_get "password" keywords with
     | Some (PStr _) | None => true
     | _ => false
     end.

(** The call [user_manager.update_user(username, k1=v1, ...)] as Python
    performs it.  A keyword named [username] or [self] clashes with a
    parameter of the method: binding raises a [TypeError] ("got
    multiple values for argument") and the body never runs. *)
Definition update_user_call (token_hex : string) (username : string)
    (keywords : list (string * pyval)) (users : gmap string User)
  : result (option User) * gmap string User :=
  match dict_get "username" keywords, dict_get "self" keywords with
  | None, None =>
      let r := update_user token_hex username (decode_kwargs keywords) users in
      (Return r.1, r.2)
  | _, _ => (Raise (PyException "TypeError"), users)
  end.

Definition delete_user (username : string) (users : gmap string User)
  : bool * gmap string User :=
  match users !! username with
  | Some _ => (true, delete username users)
  | None => (false, users)
  end.

Definition get_user_workspace (username : string) (users : gmap string User)
  : result string :=
  match get_user username users with
  | None =>
      Raise (HTTPException HTTP_404_NOT_FOUND
               ("User " +:+ username +:+ " not found"))
  | Some user => Return user.(workspace)
  end.

(** *** Start-up: [_load_users] and [_init_from_env] *)

(** The file system and the libraries the loader and the saver call.
    [Disk] is the state of the file system; [exists] is
    [users_file.exists()], which raises when the path cannot be
    examined (permission denied on a directory, name too long);
    [read_text] is [open(users_file, 'r')]
    read to the end, [json_load] parses that text, [fromisoformat] is
    [datetime.fromisoformat] ([None] for its [ValueError]) and
    [User_init] is the validating constructor [User], called with the
    items of [user_data] as keyword arguments. *)
Variable Disk : Type.
Variable exists_ : Disk -> result bool.
Variable read_text : Disk -> result string.
Variable json_load : string -> result pyval.
Variable fromisoformat : string -> option datetime.
Variable User_init : list (string * pyval) -> result User.

(** [global_args.auth_accounts], and the salt and the clock value the
    [n]-th account of the seed list draws. *)
Variable auth_accounts : option string.
Variable token_hex_at : nat -> string.
Variable utcnow_at : nat -> datetime.

(** [data.items()] needs a [dict]. *)
Definition dict_items (data : pyval) : result (list (string * pyval)) :=
  match data with
  | PDict items => Return items
  | _ => Raise (PyException "AttributeError")
  end.

(** Each [user_data] is used as a mapping ([in], indexing, keyword unpacking); any
    other value raises a [TypeError] on the way to [User(...)]. *)
Definition as_mapping (user_data : pyval) : result (list (string * pyval)) :=
  match user_data with
  | PDict items => Return items
  | _ => Raise (PyException "TypeError")
  end.

Definition py_fromisoformat (v : pyval) : result datetime :=
  match v with
  | PStr s =>
      match fromisoformat s with
      | Some t => Return t
      | None => Raise (PyException "ValueError")
      end
  | _ => Raise (PyException "TypeError")
  end.

(** [if 'created_at' in user_data: ...] *)
Definition convert_created_at (user_data : list (string * pyval))
  : result (list (string * pyval)) :=
  match dict_get "created_at" user_data with
  | Some v =>
      t ← py_fromisoformat v;
      Return (dict_set "created_at" (PDatetime t) user_data)
  | None => Return user_data
  end.

(** [if 'last_login' in user_data and user_data['last_login']: ...] *)
Definition convert_last_login (user_data : list (string * pyval))
  : result (list (string * pyval)) :=
  match dict_get "last_login" user_data with
  | Some v =>
      if truthy v then
        t ← py_fromisoformat v;
        Return (dict_set "last_login" (PDatetime t) user_data)
      else Return user_data
  | None => Return user_data
  end.

(** The two conversions and the constructor, on one [user_data]. *)
Definition parse_user (user_data : pyval) : result User :=
  user_data ← as_mapping user_data;
  user_data ← convert_created_at user_data;
  user_data ← convert_last_login user_data;
  User_init user_data.

(** One turn of the loop: [self.users[username] = User(...)]. *)
Definition load_entry (entry : string * pyval) (users : gmap string User)
  : result unit * gmap string User :=
  match parse_user entry.2 with
  | Return user => (Return (), <[entry.1 := user]> users)
  | Raise e => (Raise e, users)
  end.

(** [for username, user_data in data.items(): ...]; the store is
    filled entry by entry, and an exception leaves it as it stood. *)
Fixpoint load_entries (entries : list (string * pyval))
    (users : gmap string User) : result unit * gmap string User :=
  match entries with
  | [] => (Return (), users)
  | entry :: rest =>
      match load_entry entry users with
      | (Return _, users) => load_entries rest users
      | (Raise e, users) => (Raise e, users)
      end
  end.

(** The body of the [try]. *)
Definition load_file (disk : Disk) (users : gmap string User)
  : result unit * gmap string User :=
  let data :=
    text ← read_text disk;
    data ← json_load text;
    dict_items data in
  match data with
  | Return entries => load_entries entries users
  | Raise e => (Raise e, users)
  end.

(** One turn of the loop of [_init_from_env], with its own [try]. *)
Definition init_account (token_hex : string) (utcnow : datetime)
    (account : string) (users : gmap string User)
  : gmap string User * list log_line :=
  match split_once ":" account with
  | None => (users, [Error_creating_user_from_env (PyException "ValueError")])
  | Some (username, password) =>
      let email :=
        if contains "@" username then username
        else username +:+ "@bosch.com" in
      let username :=
        if contains "@" username then hd EmptyString (split "@" username)
        else username in
      match create_user token_hex utcnow username email password users with
      | (Return _, users) => (users, [])
      | (Raise e, users) => (users, [Error_creating_user_from_env e])
      end
  end.

Fixpoint init_accounts (n : nat) (accounts : list string)
    (users : gmap string User) : gmap string User * list log_line :=
  match accounts with
  | [] => (users, [])
  | account :: rest =>
      let r := init_account (token_hex_at n) (utcnow_at n) account users in
      let r' := init_accounts (S n) rest r.1 in
      (r'.1, r.2 ++ r'.2)
  end.

Definition _init_from_env (users : gmap string User)
  : gmap string User * list log_line :=
  if str_truthy auth_accounts then
    init_accounts 0 (split "," (default EmptyString auth_accounts)) users
  else (users, []).

(** [_load_users]: the store after the call and what was printed, or
    the exception that leaves the method.  The existence test stands
    before the [try]: what it raises is not caught. *)
Definition _load_users (disk : Disk) (users : gmap string User)
  : result (gmap string User * list log_line) :=
  match exists_ disk with
  | Raise e => Raise e
  | Return true =>
      match load_file disk users with
      | (Return _, users) => Return (users, [])
      | (Raise e, _) => Return (∅, [Error_loading_users e])
      end
  | Return false => Return (_init_from_env users)
  end.

(** [UserManager.__init__]: [self.users = {}], then [_load_users]. *)
Definition __init__ (disk : Disk)
  : result (gmap string User * list log_line) :=
  _load_users disk ∅.

(** *** [_save_users] *)

(** [isoformat] is [datetime.isoformat], [json_dumps] is
    [json.dumps(data, indent=2)], [open_w] is
    [aiofiles.open(users_file, 'w')] and [write] is [f.write]; the
    last two change the disk whether or not they raise. *)
Variable isoformat : datetime -> string.
Variable json_dumps : pyval -> result string.
Variable open_w : Disk -> result unit * Disk.
Variable write : string -> Disk -> result unit * Disk.

(** [user.dict()] with the two timestamps replaced by ISO strings. *)
Definition user_dict (user : User) : list (string * pyval) :=
  [ ("username", PStr user.(username));
    ("email", PStr user.(email));
    ("password_hash", PStr user.(password_hash));
    ("salt", PStr user.(salt));
    ("created_at", PStr (isoformat user.(created_at)));
    ("last_login",
      match user.(last_login) with
      | Some t => PStr (isoformat t)
      | None => PNone
      end);
    ("is_active", PBool user.(is_active));
    ("workspace", PStr user.(workspace));
    ("metadata", PDict user.(metadata)) ].

Definition save_data (users : gmap string User) : pyval :=
  PDict ((fun kv => (kv.1, PDict (user_dict kv.2))) <$> map_to_list users).

(** [_save_users]: no handler anywhere; the file is opened (and so
    truncated) before the text is produced and written. *)
Definition _save_users (users : gmap string User) (disk : Disk)
  : result unit * Disk :=
  let data := save_data users in
  match open_w disk with
  | (Raise e, disk) => (Raise e, disk)
  | (Return _, disk) =>
      match json_dumps data with
      | Raise e => (Raise e, disk)
      | Return text => write text disk
      end
  end.

End UserManager.

(** The store as [create_user] fills it: every record sits under its
    own username and holds the workspace derived from that name. *)
Definition well_formed (users : gmap string User) : Prop :=
  ∀ key user, users !! key = Some user →
    user.(username) = key ∧ user.(workspace) = "user_" +:+ key.

End user_manager.

(** ** PyJWT, as the servers use it

    HS256 tokens in the symbolic model of signatures: a token records the
    payload and the key it was signed with, a signature verifies exactly
    under that key, and any other string is [Garbage]. *)

Module jwt.

(** The claims handed to [jwt.encode]; [exp] is a [datetime]. *)
Record claims : Type := mkClaims {
  c_sub : string;
  c_exp : datetime;
  c_workspace : string;
  c_email : string
}.

(** The payload inside a token and returned by [jwt.decode]; [exp] is
    a number of seconds since the epoch. *)
Record payload : Type := mkPayload {
  sub : string;
  exp : Z;
  workspace : string;
  email : string
}.

Inductive token : Type :=
| Signed (p : payload) (key : string)
| Garbage (s : string).

(** [timegm(t.utctimetuple())]: whole seconds, microseconds dropped. *)
Definition timegm (t : datetime) : Z := (t / 1000000)%Z.

(** What [encode] stores for the given claims. *)
Definition to_payload (c : claims) : payload :=
  {| sub := c.(c_sub); exp := timegm c.(c_exp);
     workspace := c.(c_workspace); email := c.(c_email) |}.

Definition encode (c : claims) (key : string) : token :=
  Signed (to_payload c) key.

(** [jwt.decode(token, key, algorithms=["HS256"])] at clock value [now]:
    the signature is checked first, then [exp <= now]. *)
Definition decode (now : datetime) (t : token) (key : string) : result payload :=
  match t with
  | Garbage _ => Raise DecodeError
  | Signed p k =>
      if negb (String.eqb k key) then Raise InvalidSignatureError
      else if (p.(exp) * 1000000 <=? now)%Z then Raise ExpiredSignatureError
      else Return p
  end.

End jwt.

(** ** integrated_auth_server.py *)

Module integrated_auth_server.

Record Account : Type := mkAccount {
  password : string;
  email : string;
  workspace : string
}.

Definition USERS : gmap string Account :=
  list_to_map
    [ ("admin", {| password := "admin123"; email := "admin@bosch.com";
                   workspace := "user_admin" |});
      ("demo", {| password := "demo123"; email := "demo@bosch.com";
                  workspace := "user_demo" |});
      ("waiyan", {| password := "password123"; email := "waiyan@bosch.com";
                    workspace := "user_waiyan" |}) ].

Record LoginRequest : Type := mkLoginRequest {
  req_username : string;
  req_password : string
}.

(** [redirect_url] is kept as its two query parameters. *)
Record LoginResponse : Type := mkLoginResponse {
  access_token : jwt.token;
  token_type : string;
  username : string;
  message : string;
  redirect_url : jwt.token * string
}.

(** [timedelta(hours=h)] *)
Definition timedelta_hours (h : Z) : Z := (h * 3600 * 1000000)%Z.

Section Server.

(** [os.getenv("TOKEN_SECRET", "bosch-graph2rag-secret-2025")] *)
Variable SECRET_KEY : string.

(** The claims [create_token] builds. *)
Definition token_claims (utcnow : datetime) (username : string)
    (account : Account) : jwt.claims :=
  let expire := (utcnow + timedelta_hours 48)%Z in
  {| jwt.c_sub := username; jwt.c_exp := expire;
     jwt.c_workspace := account.(workspace);
     jwt.c_email := account.(email) |}.

Definition create_token (utcnow : datetime) (username : string)
  : result jwt.token :=
  match USERS !! username with
  | None => Raise (PyException "KeyError")
  | Some account =>
      Return (jwt.encode (token_claims utcnow username account) SECRET_KEY)
  end.

Definition verify_token (now : datetime) (token : jwt.token)
  : result jwt.payload :=
  match jwt.decode now token SECRET_KEY with
  | Return payload => Return payload
  | Raise e =>
      if is_PyJWTError e
      then Raise (HTTPException HTTP_401_UNAUTHORIZED "Invalid token")
      else Raise e
  end.

(** [POST /auth/login] *)
Definition login (utcnow : datetime) (request : LoginRequest)
  : result LoginResponse :=
  match USERS !! request.(req_username) with
  | None =>
      Raise (HTTPException HTTP_401_UNAUTHORIZED "Invalid username or password")
  | Some account =>
      if negb (String.eqb account.(password) request.(req_password)) then
        Raise (HTTPException HTTP_401_UNAUTHORIZED "Invalid username or password")
      else
        token ← create_token utcnow request.(req_username);
        Return {| access_token := token; token_type := "bearer";
                  username := request.(req_username);
                  message := "Welcome " +:+ request.(req_username) +:+ "!";
                  redirect_url := (token, request.(req_username)) |}
  end.

End Server.

(** What [GET /auth/verify] answers. *)
Record VerifyResponse : Type := mkVerifyResponse {
  valid : bool;
  v_username : string;
  v_workspace : string;
  v_email : string
}.

(** The pages and redirects the server answers with; the dashboard
    URL is kept as its two query parameters. *)
Inductive response : Type :=
| HTMLResponse (content : string)
| RedirectLogin
| RedirectDashboard (token : jwt.token) (user : string).

(** Truthiness of the query parameter [token]: absent and empty are
    falsy, and a signed token is never the empty string. *)
Definition token_truthy (token : option jwt.token) : bool :=
  match token with
  | None => false
  | Some (jwt.Garbage s) => negb (String.eqb s "")
  | Some (jwt.Signed _ _) => true
  end.

Section Pages.

Variable SECRET_KEY : string.

(** [open("auth_injector.html", "r")] read to the end. *)
Variable read_auth_injector : result string.

(** [GET /auth/verify] *)
Definition verify_token_endpoint (now : datetime) (credentials : jwt.token)
  : result VerifyResponse :=
  payload ← verify_token SECRET_KEY now credentials;
  Return {| valid := true; v_username := payload.(jwt.sub);
            v_workspace := payload.(jwt.workspace);
            v_email := payload.(jwt.email) |}.

(** [GET /auth/logout] *)
Definition logout : string := "Please remove token from client storage".

(** [GET /dashboard] *)
Definition dashboard (token : option jwt.token) (user : option string)
  : result response :=
  if negb (token_truthy token) then Return RedirectLogin
  else
    html_content ← read_auth_injector;
    Return (HTMLResponse html_content).

(** [GET /webui]: the bare [except] turns every failure of
    [verify_token] into the redirect to the login page. *)
Definition redirect_to_main_ui (now : datetime) (token : option jwt.token)
  : response :=
  match token with
  | Some t =>
      if token_truthy token then
        match verify_token SECRET_KEY now t with
        | Return payload => RedirectDashboard t payload.(jwt.sub)
        | Raise _ => RedirectLogin
        end
      else RedirectLogin
  | None => RedirectLogin
  end.

End Pages.

End integrated_auth_server.

(** ** lightrag/api/routers/auth_routes.py *)

Module auth_routes.

Record LoginRequest : Type := mkLoginRequest {
  req_username : string;
  req_password : string
}.

Record LoginResponse (Token : Type) : Type := mkLoginResponse {
  access_token : Token;
  token_type : string;
  username : string;
  email : string;
  workspace : string
}.
Arguments mkLoginResponse {Token}.

Section Routes.

Variable sha256_hexdigest : string -> string.

(** [auth_handler.create_token(username, role, metadata)], from
    [lightrag/api/auth.py]. *)
Variable Token : Type.
Variable create_token : string -> string -> list (string * pyval) -> result Token.

(** The saver of [user_manager], on its file system. *)
Variable Disk : Type.
Variable save_users : gmap string user_manager.User -> Disk -> result unit * Disk.

(** [POST /auth/login]: the response, the store and the disk after it. *)
Definition login (utcnow : datetime) (request : LoginRequest)
    (users : gmap string user_manager.User) (disk : Disk)
  : result (LoginResponse Token) * gmap string user_manager.User * Disk :=
  match user_manager.authenticate sha256_hexdigest utcnow
          request.(req_username) request.(req_password) users with
  | (None, users) =>
      (Raise (HTTPException HTTP_401_UNAUTHORIZED "Invalid username or password"),
       users, disk)
  | (Some user, users) =>
      match create_token user.(user_manager.username) "user"
              [("email", PStr user.(user_manager.email));
               ("workspace", PStr user.(user_manager.workspace))] with
      | Raise e => (Raise e, users, disk)
      | Return token =>
          match save_users users disk with
          | (Raise e, disk) => (Raise e, users, disk)
          | (Return _, disk) =>
              (Return (mkLoginResponse token "bearer"
                         user.(user_manager.username)
                         user.(user_manager.email)
                         user.(user_manager.workspace)),
               users, disk)
          end
      end
  end.

Record RegisterRequest : Type := mkRegisterRequest {
  reg_username : string;
  reg_email : string;
  reg_password : string
}.

Record UserResponse : Type := mkUserResponse {
  ur_username : string;
  ur_email : string;
  ur_workspace : string;
  ur_is_active : bool
}.

Definition user_response (user : user_manager.User) : UserResponse :=
  {| ur_username := user.(user_manager.username);
     ur_email := user.(user_manager.email);
     ur_workspace := user.(user_manager.workspace);
     ur_is_active := user.(user_manager.is_active) |}.

(** [str(e)] *)
Variable exn_str : exn -> string.

(** The two handlers of [register]: an [HTTPException] is raised again
    as it is, anything else becomes a 400 carrying its text. *)
Definition register_handler (e : exn) : exn :=
  match e with
  | HTTPException _ _ => e
  | _ => HTTPException 400 (exn_str e)
  end.

(** [POST /auth/register] *)
Definition register (token_hex : string) (utcnow : datetime)
    (request : RegisterRequest)
    (users : gmap string user_manager.User) (disk : Disk)
  : result UserResponse * gmap string user_manager.User * Disk :=
  match user_manager.create_user sha256_hexdigest token_hex utcnow
          request.(reg_username) request.(reg_email) request.(reg_password)
          users with
  | (Raise e, users) => (Raise (register_handler e), users, disk)
  | (Return user, users) =>
      match save_users users disk with
      | (Raise e, disk) => (Raise (register_handler e), users, disk)
      | (Return _, disk) => (Return (user_response user), users, disk)
      end
  end.

(** [auth_handler.validate_token], from [lightrag/api/auth.py], and the
    [token_data["username"]] the routes read from its result. *)
Variable TokenData : Type.
Variable validate_token : Token -> result TokenData.
Variable td_username : TokenData -> string.

(** [GET /auth/me] *)
Definition get_current_user (credentials : Token)
    (users : gmap string user_manager.User) : result UserResponse :=
  token_data ← validate_token credentials;
  match user_manager.get_user (td_username token_data) users with
  | None => Raise (HTTPException HTTP_404_NOT_FOUND "User not found")
  | Some user => Return (user_response user)
  end.

(** [POST /auth/logout] *)
Definition logout (credentials : Token) : result string :=
  _ ← validate_token credentials;
  Return "Logged out successfully".

(** [PUT /auth/change-password] *)
Definition change_password (token_hex : string) (utcnow : datetime)
    (old_password new_password : string) (credentials : Token)
    (users : gmap string user_manager.User) (disk : Disk)
  : result string * gmap string user_manager.User * Disk :=
  match validate_token credentials with
  | Raise e => (Raise e, users, disk)
  | Return token_data =>
      let username := td_username token_data in
      match user_manager.authenticate sha256_hexdigest utcnow username
              old_password users with
      | (None, users) =>
          (Raise (HTTPException HTTP_401_UNAUTHORIZED "Invalid password"),
           users, disk)
      | (Some _, users) =>
          let users :=
            (user_manager.update_user sha256_hexdigest token_hex username
               (user_manager.mkKwargs None None None (Some new_password) [])
               users).2 in
          match save_users users disk with
          | (Raise e, disk) => (Raise e, users, disk)
          | (Return _, disk) =>
              (Return "Password changed successfully", users, disk)
          end
      end
  end.

End Routes.

End auth_routes.

(** ** lightrag/api/workspace_middleware.py *)

Module workspace_middleware.

Record Request : Type := mkRequest {
  path : string;                    (* request.url.path *)
  Authorization : option string;    (* request.headers.get("Authorization") *)
  X_API_Key : option string         (* request.headers.get("X-API-Key") *)
}.

(** The attributes the middleware sets on [request.state]. *)
Record RequestState : Type := mkState {
  username : string;
  workspace : pyval;
  user_authenticated : bool
}.

(** What [auth_handler.validate_token] returns, as far as the
    middleware reads it: [token_data["username"]] and
    [token_data["metadata"]]. *)
Record TokenData : Type := mkTokenData {
  td_username : string;
  td_metadata : list (string * pyval)
}.

Definition default_whitelist_paths : list string :=
  ["/health"; "/auth/"; "/docs"; "/openapi.json"; "/webui"].

(** [self.whitelist_paths = whitelist_paths or [...]] *)
Definition __init__ (whitelist_paths : option (list string)) : list string :=
  match whitelist_paths with
  | Some (wp :: rest) => wp :: rest
  | _ => default_whitelist_paths
  end.

(** [token_data["metadata"].get("workspace")] *)
Definition workspace_claim (token_data : TokenData) : pyval :=
  default PNone (dict_get "workspace" token_data.(td_metadata)).

Section Middleware.

(** [auth_handler.validate_token], from [lightrag/api/auth.py], and
    [global_args.api_key], from [lightrag/api/config.py]. *)
Variable validate_token : string -> result TokenData.
Variable api_key : option string.

(** [auth_header and auth_header.startswith("Bearer ")] *)
Definition has_bearer (auth_header : option string) : bool :=
  match auth_header with
  | Some h => negb (String.eqb h "") && startswith h "Bearer "
  | None => false
  end.

(** The body of the [try]. *)
Definition resolve_bearer (auth_header : string)
    (users : gmap string user_manager.User) : result RequestState :=
  token ← match split " " auth_header with
          | _ :: token :: _ => Return token
          | _ => Raise (PyException "IndexError")
          end;
  token_data ← validate_token token;
  let username := token_data.(td_username) in
  let workspace := workspace_claim token_data in
  workspace ← (if negb (truthy workspace)
               then w ← user_manager.get_user_workspace username users;
                    Return (PStr w)
               else Return workspace);
  Return {| username := username; workspace := workspace;
            user_authenticated := true |}.

(** [dispatch]: [Raise] is the exception leaving the middleware;
    [Return st] is [call_next(request)] reached with the attributes
    [st] on [request.state] ([None]: none were set). *)
Definition dispatch (whitelist_paths : list string)
    (users : gmap string user_manager.User) (request : Request)
  : result (option RequestState) :=
  if existsb (startswith request.(path)) whitelist_paths then Return None
  else if has_bearer request.(Authorization) then
    match resolve_bearer (default EmptyString request.(Authorization)) users with
    | Return st => Return (Some st)
    | Raise e =>
        if str_truthy api_key then
          Raise (HTTPException HTTP_401_UNAUTHORIZED "Invalid authentication")
        else
          Return (Some {| username := "anonymous"; workspace := PNone;
                          user_authenticated := false |})
    end
  else if str_truthy api_key then
    if decide (request.(X_API_Key) = api_key) then
      Return (Some {| username := "api_user"; workspace := PNone;
                      user_authenticated := true |})
    else
      Raise (HTTPException HTTP_401_UNAUTHORIZED "Authentication required")
  else
    Return (Some {| username := "anonymous"; workspace := PNone;
                    user_authenticated := false |}).

End Middleware.

(** The identity outcomes of the design document, as what [dispatch]
    leaves on the request or raises. *)
Definition Authenticated (username : string) (workspace : pyval) : RequestState :=
  {| username := username; workspace := workspace; user_authenticated := true |}.

Definition ApiKeyAuthenticated : RequestState :=
  {| username := "api_user"; workspace := PNone; user_authenticated := true |}.

Definition Anonymous : RequestState :=
  {| username := "anonymous"; workspace := PNone; user_authenticated := false |}.

Definition Rejected (detail : string) : result (option RequestState) :=
  Raise (HTTPException HTTP_401_UNAUTHORIZED detail).

(** The token of an [Authorization] header: [auth_header.split(" ")[1]]. *)
Definition bearer_token (auth_header : string) : string :=
  nth 1 (split " " auth_header) EmptyString.

(** [getattr(request.state, "workspace", None)] *)
Definition state_workspace (state : option RequestState) : pyval :=
  match state with
  | Some st => st.(workspace)
  | None => PNone
  end.

Section Directories.

(** [os.path.join] and [os.makedirs(_, exist_ok=True)] on a file
    system [FS]; [global_args.working_dir] and [global_args.input_dir]. *)
Variable FS : Type.
Variable path_join : string -> string -> string.
Variable makedirs : string -> FS -> result unit * FS.
Variable working_dir : string.
Variable input_dir : string.

(** The common body of the two functions below: [os.path.join] raises
    a [TypeError] on a workspace that is not a string. *)
Definition workspace_dir (base_dir : string) (state : option RequestState)
    (fs : FS) : result string * FS :=
  let workspace := state_workspace state in
  if truthy workspace then
    match workspace with
    | PStr workspace =>
        let user_dir := path_join base_dir workspace in
        match makedirs user_dir fs with
        | (Raise e, fs) => (Raise e, fs)
        | (Return _, fs) => (Return user_dir, fs)
        end
    | _ => (Raise (PyException "TypeError"), fs)
    end
  else (Return base_dir, fs).

Definition get_user_working_dir (state : option RequestState) (fs : FS)
  : result string * FS :=
  workspace_dir working_dir state fs.

Definition get_user_input_dir (state : option RequestState) (fs : FS)
  : result string * FS :=
  workspace_dir input_dir state fs.

End Directories.

End workspace_middleware.

(** ** lightrag_server_auth.py *)

Module lightrag_server_auth.

(** An engine object. [rag_id] is the identity of the object: the
    number of engines constructed before it. *)
Record LightRAG : Type := mkLightRAG {
  rag_id : nat;
  working_dir : string;
  workspace : string
}.

(** The module-level cache [rag_instances], with every call of the
    [LightRAG] constructor and of [os.makedirs] so far, in order. *)
Record World : Type := mkWorld {
  rag_instances : gmap string LightRAG;
  constructed : list LightRAG;
  made_dirs : list string
}.

(** A call of the coroutine [get_or_create_rag]: not yet started,
    suspended at [await rag.initialize_storages()], returned, or
    ended by an exception. *)
Inductive task : Type :=
| Pending (workspace : option string)
| Awaiting (workspace : string) (rag : LightRAG)
| Done (rag : LightRAG)
| Failed (e : exn).

Section Registry.

(** [global_args.working_dir] and [os.path.join]. *)
Variable global_working_dir : string.
Variable path_join : string -> string -> string.

(** The code from the entry of [get_or_create_rag] to its first
    suspension or its return. *)
Definition start (workspace : option string) (W : World) : World * task :=
  let workspace := default "default" workspace in
  match W.(rag_instances) !! workspace with
  | Some rag => (W, Done rag)
  | None =>
      let working_dir := path_join global_working_dir workspace in
      let rag := {| rag_id := length W.(constructed);
                    working_dir := working_dir;
                    workspace := workspace |} in
      ({| rag_instances := W.(rag_instances);
          constructed := W.(constructed) ++ [rag];
          made_dirs := W.(made_dirs) ++ [working_dir] |},
       Awaiting workspace rag)
  end.

(** The code after the [await]: [init] is how
    [rag.initialize_storages()] ended. *)
Definition resume (workspace : string) (rag : LightRAG) (init : result unit)
    (W : World) : World * task :=
  match init with
  | Raise e => (W, Failed e)
  | Return _ =>
      let W := {| rag_instances := <[workspace := rag]> W.(rag_instances);
                  constructed := W.(constructed);
                  made_dirs := W.(made_dirs) |} in
      match W.(rag_instances) !! workspace with
      | Some rag => (W, Done rag)
      | None => (W, Failed (PyException "KeyError"))
      end
  end.

(** One uninterrupted stretch of a call. *)
Definition step (init : result unit) (t : task) (W : World) : World * task :=
  match t with
  | Pending workspace => start workspace W
  | Awaiting workspace rag => resume workspace rag init W
  | Done _ | Failed _ => (W, t)
  end.

(** The event loop runs call number [i] up to its next suspension. *)
Definition run_task (ev : nat * result unit) (s : World * list task)
  : World * list task :=
  match s.2 !! ev.1 with
  | Some t => let r := step ev.2 t s.1 in (r.1, <[ev.1 := r.2]> s.2)
  | None => s
  end.

(** A schedule is the order in which the event loop resumes the
    calls, with the outcome of the awaited initialization. *)
Definition run (schedule : list (nat * result unit)) (s : World * list task)
  : World * list task :=
  foldl (fun s ev => run_task ev s) s schedule.

(** [get_or_create_rag] run alone, to completion. *)
Definition get_or_create_rag (workspace : option string) (init : result unit)
    (W : World) : World * task :=
  match start workspace W with
  | (W, Awaiting workspace rag) => resume workspace rag init W
  | r => r
  end.

End Registry.

(** Resuming call [i] with a successful initialization. *)
Definition ok (i : nat) : nat * result unit := (i, Return ()).

(** [n] calls one after the other: each runs to its end (two stretches
    at most) before the next one starts. *)
Definition serial (n : nat) : list (nat * result unit) :=
  i ← seq 0 n; [ok i; ok i].

(** [n] calls together: all of them start, then all of them resume. *)
Definition overlapped (n : nat) : list (nat * result unit) :=
  ok <$> (seq 0 n ++ seq 0 n).

(** The engines [n] successive constructor calls create for one
    workspace, the first of them being object number [first]. *)
Definition fresh_rags (working_dir workspace : string) (first n : nat)
  : list LightRAG :=
  (fun i => mkLightRAG i working_dir workspace) <$> seq first n.

(** A call for the workspace of key [key] that has not started, or
    one that has returned [rag]. *)
Definition settled (key : string) (rag : LightRAG) (t : task) : Prop :=
  match t with
  | Pending workspace => default "default" workspace = key
  | Done rag' => rag' = rag
  | _ => False
  end.

(** Single flight, as the design document asks for it, for one run:
    one more engine was constructed and every call returned that same
    object. *)
Definition single_flight (before after : World * list task) : Prop :=
  length after.1.(constructed) = S (length before.1.(constructed)) ∧
  ∃ rag, Forall (fun t => t = Done rag) after.2.

(** The whitelist [create_authenticated_app] gives the middleware. *)
Definition authenticated_whitelist_paths : list string :=
  ["/health"; "/auth/"; "/docs"; "/openapi.json"; "/webui"; "/static";
   "/favicon"].

Section Injection.

Variable global_working_dir : string.
Variable path_join : string -> string -> string.

(** The middleware [inject_workspace_rag], up to [call_next]: [None]
    when [request.state] has no [workspace] attribute, otherwise the
    call of [get_or_create_rag] whose result goes to
    [request.state.rag].  A workspace that is neither [None] nor a
    string makes the call raise a [TypeError] before it changes
    anything.  [create_authenticated_app] adds this middleware after
    [WorkspaceMiddleware], so it wraps that one and runs before its
    [dispatch]: [state] is what [request.state] holds at that point,
    not what [dispatch] sets later. *)
Definition inject_workspace_rag
    (state : option workspace_middleware.RequestState) (init : result unit)
    (W : World) : World * option task :=
  match state with
  | None => (W, None)
  | Some st =>
      match st.(workspace_middleware.workspace) with
      | PNone =>
          let r := get_or_create_rag global_working_dir path_join None init W in
          (r.1, Some r.2)
      | PStr workspace =>
          let r := get_or_create_rag global_working_dir path_join
                     (Some workspace) init W in
          (r.1, Some r.2)
      | _ => (W, Some (Failed (PyException "TypeError")))
      end
  end.

End Injection.

(** Every cached or half-built engine belongs to the workspace it is
    filed under. *)
Definition cache_consistent (W : World) : Prop :=
  ∀ key rag, W.(rag_instances) !! key = Some rag → rag.(workspace) = key.

Definition call_consistent (t : task) : Prop :=
  match t with
  | Awaiting key rag => rag.(workspace) = key
  | _ => True
  end.

(** A call that concerns the workspace of key [key] only. *)
Definition call_for (key : string) (t : task) : Prop :=
  match t with
  | Pending workspace => default "default" workspace = key
  | Awaiting key' _ => key' = key
  | Done _ | Failed _ => True
  end.

(** The number of calls that have not started yet. *)
Definition is_pending (t : task) : bool :=
  match t with Pending _ => true | _ => false end.

Definition not_started (calls : list task) : nat :=
  length (List.filter is_pending calls).

End lightrag_server_auth.

(** ** manage_users.py *)

Module manage_users.

(** What the commands print. *)
Inductive line : Type :=
| Add_new_user_heading
| Dashes
| Username_cannot_be_empty
| Using_default_email (email : string)
| Passwords_do_not_match
| User_created (username : string)
| Workspace_is (workspace : string)
| Error (e : exn)
| Cancelled
| User_deleted (username : string)
| User_not_found (username : string)
| Password_reset (username : string)
| User_status (username : string) (enabled : bool).

(** A run of a command: what it printed, the exception that ended it
    (if any), and the store and the disk it left. *)
Record run (Disk : Type) : Type := mkRun {
  printed : list line;
  raised : option exn;
  store : gmap string user_manager.User;
  disk : Disk
}.
Arguments mkRun {Disk}.
Arguments printed {Disk}.
Arguments raised {Disk}.
Arguments store {Disk}.
Arguments disk {Disk}.

(** [str.lower] on bytes; it agrees with Python on every string whose
    lower-case form is pure ASCII. *)
Definition lower_ascii (c : ascii) : ascii :=
  let n := nat_of_ascii c in
  if (65 <=? n) && (n <=? 90) then ascii_of_nat (n + 32) else c.

Fixpoint lower (s : string) : string :=
  match s with
  | EmptyString => EmptyString
  | String c s => String (lower_ascii c) (lower s)
  end.

Section Commands.

Variable sha256_hexdigest : string -> string.

(** [asyncio.run(user_manager._save_users())] *)
Variable Disk : Type.
Variable save_users : gmap string user_manager.User -> Disk -> result unit * Disk.

(** [add_user]. [username] and [email] are the stripped answers to the
    two prompts, [password] and [confirm] the two [getpass] answers. *)
Definition add_user (token_hex : string) (utcnow : datetime)
    (username email password confirm : string)
    (users : gmap string user_manager.User) (d : Disk) : run Disk :=
  let heading := [Add_new_user_heading; Dashes] in
  if String.eqb username "" then
    mkRun (heading ++ [Username_cannot_be_empty]) None users d
  else
    let defaulted := String.eqb email "" in
    let email := if defaulted then username +:+ "@bosch.com" else email in
    let heading :=
      if defaulted then heading ++ [Using_default_email email] else heading in
    if negb (String.eqb password confirm) then
      mkRun (heading ++ [Passwords_do_not_match]) None users d
    else
      match user_manager.create_user sha256_hexdigest token_hex utcnow
              username email password users with
      | (Raise e, users) => mkRun (heading ++ [Error e]) None users d
      | (Return user, users) =>
          match save_users users d with
          | (Raise e, d) => mkRun (heading ++ [Error e]) None users d
          | (Return _, d) =>
              mkRun (heading ++ [User_created username;
                                 Workspace_is user.(user_manager.workspace)])
                None users d
          end
      end.

(** [delete_user]. [confirm] is the answer to the yes/no prompt. *)
Definition delete_user (username confirm : string)
    (users : gmap string user_manager.User) (d : Disk) : run Disk :=
  if String.eqb username "" then mkRun [Username_cannot_be_empty] None users d
  else if negb (String.eqb (lower confirm) "yes") then
    mkRun [Cancelled] None users d
  else
    match user_manager.delete_user username users with
    | (true, users) =>
        match save_users users d with
        | (Raise e, d) => mkRun [] (Some e) users d
        | (Return _, d) => mkRun [User_deleted username] None users d
        end
    | (false, users) => mkRun [User_not_found username] None users d
    end.

(** [reset_password] *)
Definition reset_password (token_hex : string)
    (username password confirm : string)
    (users : gmap string user_manager.User) (d : Disk) : run Disk :=
  if String.eqb username "" then mkRun [Username_cannot_be_empty] None users d
  else
    match user_manager.get_user username users with
    | None => mkRun [User_not_found username] None users d
    | Some _ =>
        if negb (String.eqb password confirm) then
          mkRun [Passwords_do_not_match] None users d
        else
          let users :=
            (user_manager.update_user sha256_hexdigest token_hex username
               (user_manager.mkKwargs None None None (Some password) [])
               users).2 in
          match save_users users d with
          | (Raise e, d) => mkRun [] (Some e) users d
          | (Return _, d) => mkRun [Password_reset username] None users d
          end
    end.

(** [toggle_user_status]. No password is passed, so the salt
    [update_user] would draw is never used. *)
Definition toggle_user_status (username : string)
    (users : gmap string user_manager.User) (d : Disk) : run Disk :=
  if String.eqb username "" then mkRun [Username_cannot_be_empty] None users d
  else
    match user_manager.get_user username users with
    | None => mkRun [User_not_found username] None users d
    | Some user =>
        let new_status := negb user.(user_manager.is_active) in
        let users :=
          (user_manager.update_user sha256_hexdigest EmptyString username
             (user_manager.mkKwargs None (Some new_status) None None [])
             users).2 in
        match save_users users d with
        | (Raise e, d) => mkRun [] (Some e) users d
        | (Return _, d) => mkRun [User_status username new_status] None users d
        end
    end.

End Commands.

End manage_users.

(** ** Stand-ins for the environment

    Small executable file system, libraries and clock, used to run the
    definitions above on concrete inputs. *)

Module fixtures.

(** In place of SHA-256: the digest of [s] is [s] in a wrapper. *)
Definition digest (s : string) : string := "sha256(" +:+ s +:+ ")".

(** A disk holding at most the users file. *)
Record disk : Type := mkDisk {
  file : option string;
  readable : bool;
  writable : bool;
  capacity : nat
}.

(** A disk with no file to be seen and no read permission stands
    for a directory that may not be searched: the test itself raises. *)
Definition disk_exists (d : disk) : result bool :=
  match d.(file) with
  | Some _ => Return true
  | None =>
      if d.(readable) then Return false
      else Raise (PyException "PermissionError")
  end.

Definition disk_read (d : disk) : result string :=
  if d.(readable) then
    match d.(file) with
    | Some text => Return text
    | None => Raise (PyException "FileNotFoundError")
    end
  else Raise (PyException "PermissionError").

Definition disk_open_w (d : disk) : result unit * disk :=
  if d.(writable)
  then (Return (), mkDisk (Some EmptyString) d.(readable) d.(writable) d.(capacity))
  else (Raise (PyException "PermissionError"), d).

Definition disk_write (text : string) (d : disk) : result unit * disk :=
  if String.length text <=? d.(capacity)
  then (Return (), mkDisk (Some text) d.(readable) d.(writable) d.(capacity))
  else (Raise (PyException "OSError"), d).

(** A parser that knows three texts. *)
Definition parse (text : string) : result pyval :=
  if String.eqb text "{}" then Return (PDict [])
  else if String.eqb text "[]" then Return (PList [])
  else if String.eqb text "{bob: 1}" then Return (PDict [("bob", PInt 1)])
  else Raise (PyException "JSONDecodeError").

Definition parse_iso (s : string) : option datetime :=
  if String.eqb s "1970-01-01T00:00:00" then Some 0%Z else None.

Definition print_iso (t : datetime) : string := "1970-01-01T00:00:00".

Definition get_str (k : string) (items : list (string * pyval)) : result string :=
  match dict_get k items with
  | Some (PStr s) => Return s
  | _ => Raise (PyException "ValidationError")
  end.

(** A constructor that insists on the six required fields. *)
Definition make_user (items : list (string * pyval)) : result user_manager.User :=
  username ← get_str "username" items;
  email ← get_str "email" items;
  password_hash ← get_str "password_hash" items;
  salt ← get_str "salt" items;
  workspace ← get_str "workspace" items;
  match dict_get "created_at" items with
  | Some (PDatetime t) =>
      Return (user_manager.mkUser username email password_hash salt t None
                true workspace [])
  | _ => Raise (PyException "ValidationError")
  end.

(** A serializer that, like [json.dumps], rejects [datetime] values. *)
Fixpoint has_datetime (v : pyval) : bool :=
  match v with
  | PDatetime _ => true
  | PList l => existsb has_datetime l
  | PDict items => existsb (fun kv => let '(_, v) := kv in has_datetime v) items
  | _ => false
  end.

Definition dumps (v : pyval) : result string :=
  if has_datetime v then Raise (PyException "TypeError") else Return "{...}".

Definition salt_at (n : nat) : string := "5f3a".
Definition clock_at (n : nat) : datetime := 1000%Z.

Definition load (d : disk)
  : result (gmap string user_manager.User * list log_line) :=
  user_manager.__init__ digest disk disk_exists disk_read parse parse_iso
    make_user (Some "admin:admin123,bob@bosch.com:pw,broken") salt_at clock_at d.

Definition save (users : gmap string user_manager.User) (d : disk)
  : result unit * disk :=
  user_manager._save_users disk print_iso dumps disk_open_w disk_write users d.

(** The store after [create_user("alice", "alice@example.com", "secret1")]. *)
Definition alice_store : gmap string user_manager.User :=
  (user_manager.create_user digest "5f3a" 1000%Z "alice" "alice@example.com"
     "secret1" ∅).2.

Definition issue (username role : string) (metadata : list (string * pyval))
  : result string := Return ("token-of-" +:+ username).

(** A validator that knows four tokens. *)
Definition validate (token : string) : result workspace_middleware.TokenData :=
  if String.eqb token "alice-token" then
    Return (workspace_middleware.mkTokenData "alice"
              [("email", PStr "alice@example.com");
               ("workspace", PStr "user_alice")])
  else if String.eqb token "alice-old-token" then
    Return (workspace_middleware.mkTokenData "alice" [])
  else if String.eqb token "carol-old-token" then
    Return (workspace_middleware.mkTokenData "carol" [])
  else if String.eqb token "alice-team-token" then
    Return (workspace_middleware.mkTokenData "alice"
              [("workspace", PStr "team_space")])
  else Raise (HTTPException HTTP_401_UNAUTHORIZED "Invalid token").

Definition join (a b : string) : string := a +:+ "/" +:+ b.

Definition empty_world : lightrag_server_auth.World :=
  lightrag_server_auth.mkWorld ∅ [] [].

Definition run (schedule : list (nat * result unit))
    (s : lightrag_server_auth.World * list lightrag_server_auth.task)
  : lightrag_server_auth.World * list lightrag_server_auth.task :=
  lightrag_server_auth.run "./rag_storage" join schedule s.

(** A disk that accepts every save and keeps what was saved last. *)
Definition save_ok (users : gmap string user_manager.User)
    (d : option (gmap string user_manager.User))
  : result unit * option (gmap string user_manager.User) :=
  (Return (), Some users).

(** A disk that refuses every save. *)
Definition save_fails (users : gmap string user_manager.User)
    (d : option (gmap string user_manager.User))
  : result unit * option (gmap string user_manager.User) :=
  (Raise (PyException "OSError"), d).

Definition str_exn (e : exn) : string :=
  match e with
  | HTTPException _ detail => detail
  | ExpiredSignatureError => "Signature has expired"
  | InvalidSignatureError => "Signature verification failed"
  | DecodeError => "Not enough segments"
  | PyException cls => cls
  end.

(** A file system that is the list of the directories made so far. *)
Definition mkdir (dir : string) (fs : list string) : result unit * list string :=
  (Return (), fs ++ [dir]).

End fixtures.

(** * Properties *)

(** ** The credential store *)

Section user_manager_properties.

Import user_manager.

Variable sha256_hexdigest : string -> string.

Local Abbreviation create_user := (create_user sha256_hexdigest).
Local Abbreviation authenticate := (authenticate sha256_hexdigest).
Local Abbreviation update_user := (update_user sha256_hexdigest).
Local Abbreviation update_user_call := (update_user_call sha256_hexdigest).
Local Abbreviation _hash_password := (_hash_password sha256_hexdigest).

Lemma create_user_fresh token_hex utcnow username email password
    (users : gmap string User) :
  users !! username = None →
  ∃ user,
    create_user token_hex utcnow username email password users
      = (Return user, <[username := user]> users) ∧
    user.(user_manager.username) = username ∧
    user.(user_manager.email) = email ∧
    user.(salt) = token_hex ∧
    user.(password_hash) = _hash_password password token_hex ∧
    user.(is_active) = true ∧
    user.(workspace) = "user_" +:+ username.
Proof.
  intros Hfresh. unfold user_manager.create_user. rewrite Hfresh.
  eexists. split; [reflexivity|]. simpl. repeat split.
Qed.

Lemma authenticate_accepts utcnow username password user
    (users : gmap string User) :
  users !! username = Some user →
  user.(is_active) = true →
  user.(password_hash) = _hash_password password user.(salt) →
  authenticate utcnow username password users
    = (Some (set_last_login user utcnow),
       <[username := set_last_login user utcnow]> users).
Proof.
  intros Hget Hactive Hhash. unfold user_manager.authenticate.
  rewrite Hget, Hactive. simpl. rewrite <- Hhash.
  by rewrite String.eqb_refl.
Qed.

(** C2: for every username not yet in the store and every email and
    password, [create_user] succeeds and a following [authenticate]
    with the same username and password succeeds too, returning a
    record whose workspace is ["user_"] followed by the username. *)
Theorem create_then_authenticate token_hex t_create t_login
    username email password (users : gmap string User) :
  users !! username = None →
  ∃ created users1 logged_in users2,
    create_user token_hex t_create username email password users
      = (Return created, users1) ∧
    authenticate t_login username password users1
      = (Some logged_in, users2) ∧
    created.(workspace) = "user_" +:+ username ∧
    logged_in.(workspace) = "user_" +:+ username ∧
    logged_in.(user_manager.username) = username.
Proof.
  intros Hfresh.
  destruct (create_user_fresh token_hex t_create username email password
              users Hfresh)
    as (user & Hcreate & Hname & _ & Hsalt & Hhash & Hactive & Hws).
  exists user, (<[username := user]> users).
  exists (set_last_login user t_login).
  exists (<[username := set_last_login user t_login]>
            (<[username := user]> users)).
  split; [exact Hcreate|]. split.
  - apply authenticate_accepts; [apply lookup_insert_eq | exact Hactive |].
    by rewrite Hhash, Hsalt.
  - simpl. auto.
Qed.

(** C5: [create_user] with a username that is already in the store
    raises the 409 Conflict error whatever email and password are
    given, and leaves the store as it was. *)
Theorem create_existing_conflict token_hex utcnow username email password
    (users : gmap string User) :
  is_Some (users !! username) →
  create_user token_hex utcnow username email password users
    = (Raise (HTTPException 409 ("User " +:+ username +:+ " already exists")),
       users).
Proof.
  intros [existing Hget]. unfold user_manager.create_user.
  by rewrite Hget.
Qed.

(** The body of [update_user], on the keyword dictionary of a bound
    call: on an existing username it changes [email], [is_active] and
    [metadata] to the values passed (and keeps those not passed),
    replaces salt and hash exactly when a password is passed, and
    leaves username, workspace, created_at and last_login as they
    were; no other record of the store changes; on an absent username
    it returns [None] and changes nothing. *)
Lemma update_user_frame token_hex username kwargs
    (users : gmap string User) :
  match users !! username with
  | None => update_user token_hex username kwargs users = (None, users)
  | Some user =>
      ∃ user',
        update_user token_hex username kwargs users
          = (Some user', <[username := user']> users) ∧
        (* the frame *)
        user'.(user_manager.username) = user.(user_manager.username) ∧
        user'.(workspace) = user.(workspace) ∧
        user'.(created_at) = user.(created_at) ∧
        user'.(last_login) = user.(last_login) ∧
        (∀ other, other ≠ username →
           (<[username := user']> users) !! other = users !! other) ∧
        (* the whitelisted fields *)
        user'.(email) = default user.(email) kwargs.(kw_email) ∧
        user'.(is_active) = default user.(is_active) kwargs.(kw_is_active) ∧
        user'.(metadata) = default user.(metadata) kwargs.(kw_metadata) ∧
        (* the password *)
        match kwargs.(kw_password) with
        | Some password =>
            user'.(salt) = token_hex ∧
            user'.(password_hash) = _hash_password password token_hex
        | None =>
            user'.(salt) = user.(salt) ∧
            user'.(password_hash) = user.(password_hash)
        end
  end.
Proof.
  unfold user_manager.update_user.
  destruct (users !! username) as [user|] eqn:Hget; [|reflexivity].
  eexists. split; [reflexivity|].
  unfold apply_kwargs.
  destruct (kw_password kwargs) as [password|]; simpl;
    repeat split; auto; intros other Hother; by apply lookup_insert_ne.
Qed.

(** C9, as the code has it: the call
    [update_user(username, k1=v1, ...)] with a keyword named [username]
    or [self] raises a [TypeError] when the arguments are bound, for an
    existing and for an absent user alike, and changes nothing.  Every
    other call, with values of the fields' types, returns [None] and
    changes nothing when the user is absent; on an existing user it
    returns the record with [email], [is_active] and [metadata] set to
    the values passed (kept when not passed), salt and hash replaced
    exactly when a password is passed, and username, workspace,
    created_at and last_login as they were whatever other keywords
    ([workspace], [created_at], ...) are passed; no other record of the
    store changes. *)
Theorem update_user_call_frame token_hex username keywords
    (users : gmap string User) :
  (* a keyword that names a parameter of the method *)
  (is_Some (dict_get "username" keywords) ∨ is_Some (dict_get "self" keywords) →
   update_user_call token_hex username keywords users
     = (Raise (PyException "TypeError"), users)) ∧
  (* every other call *)
  (dict_get "username" keywords = None →
   dict_get "self" keywords = None →
   well_typed keywords = true →
   match users !! username with
   | None =>
       update_user_call token_hex username keywords users
         = (Return None, users)
   | Some user =>
       ∃ user',
         update_user_call token_hex username keywords users
           = (Return (Some user'), <[username := user']> users) ∧
         (* the frame *)
         user'.(user_manager.username) = user.(user_manager.username) ∧
         user'.(workspace) = user.(workspace) ∧
         user'.(created_at) = user.(created_at) ∧
         user'.(last_login) = user.(last_login) ∧
         (∀ other, other ≠ username →
            (<[username := user']> users) !! other = users !! other) ∧
         (* the whitelisted fields *)
         user'.(email)
           = match dict_get "email" keywords with
             | Some (PStr email) => email
             | _ => user.(email)
             end ∧
         user'.(is_active)
           = match dict_get "is_active" keywords with
             | Some (PBool is_active) => is_active
             | _ => user.(is_active)
             end ∧
         user'.(metadata)
           = match dict_get "metadata" keywords with
             | Some (PDict metadata) => metadata
             | _ => user.(metadata)
             end ∧
         (* the password *)
         match dict_get "password" keywords with
         | Some (PStr password) =>
             user'.(salt) = token_hex ∧
             user'.(password_hash) = _hash_password password token_hex
         | _ =>
             user'.(salt) = user.(salt) ∧
             user'.(password_hash) = user.(password_hash)
         end
   end).
Proof.
  split.
  - unfold user_manager.update_user_call.
    intros [[v Hname]|[v Hself]].
    + by rewrite Hname.
    + rewrite Hself. by destruct (dict_get "username" keywords).
  - intros Hname Hself _.
    unfold user_manager.update_user_call. rewrite Hname, Hself.
    pose proof (update_user_frame token_hex username (decode_kwargs keywords)
                  users) as Hframe.
    destruct (users !! username) as [user|] eqn:Hget.
    + destruct Hframe as (user' & Hcall & Hu & Hw & Hc & Hl & Hothers
                          & He & Ha & Hm & Hp).
      exists user'. rewrite Hcall. cbn [fst snd].
      split; [reflexivity|].
      split_and!; try done.
      * rewrite He. unfold decode_kwargs. cbn [kw_email].
        by destruct (dict_get "email" keywords) as [[]|].
      * rewrite Ha. unfold decode_kwargs. cbn [kw_is_active].
        by destruct (dict_get "is_active" keywords) as [[]|].
      * rewrite Hm. unfold decode_kwargs. cbn [kw_metadata].
        by destruct (dict_get "metadata" keywords) as [[]|].
      * revert Hp. unfold decode_kwargs. cbn [kw_password].
        by destruct (dict_get "password" keywords) as [[]|].
    + by rewrite Hframe.
Qed.

End user_manager_properties.

(** ** Loading and saving the store *)

Section persistence_properties.

Import user_manager.

Variable sha256_hexdigest : string -> string.
Variable Disk : Type.
Variable exists_ : Disk -> result bool.
Variable read_text : Disk -> result string.
Variable json_load : string -> result pyval.
Variable fromisoformat : string -> option datetime.
Variable User_init : list (string * pyval) -> result User.
Variable auth_accounts : option string.
Variable token_hex_at : nat -> string.
Variable utcnow_at : nat -> datetime.
Variable isoformat : datetime -> string.
Variable json_dumps : pyval -> result string.
Variable open_w : Disk -> result unit * Disk.
Variable write : string -> Disk -> result unit * Disk.

Local Abbreviation parse_user := (parse_user fromisoformat User_init).
Local Abbreviation load_entries := (load_entries fromisoformat User_init).
Local Abbreviation load_file :=
  (load_file Disk read_text json_load fromisoformat User_init).
Local Abbreviation _load_users :=
  (_load_users sha256_hexdigest Disk exists_ read_text json_load
     fromisoformat User_init auth_accounts token_hex_at utcnow_at).
Local Abbreviation __init__ :=
  (__init__ sha256_hexdigest Disk exists_ read_text json_load
     fromisoformat User_init auth_accounts token_hex_at utcnow_at).
Local Abbreviation _save_users :=
  (_save_users Disk isoformat json_dumps open_w write).

(** The loop stops at the first entry that cannot be turned into a
    record. *)
Lemma load_entries_raise entries entry e (users : gmap string User) :
  entry ∈ entries →
  parse_user entry.2 = Raise e →
  ∃ e', (load_entries entries users).1 = Raise e'.
Proof.
  intros Hin Hbad. revert users.
  induction entries as [|first rest IH]; intros users.
  - by apply elem_of_nil in Hin.
  - simpl. unfold load_entry.
    destruct (parse_user first.2) as [user|e1] eqn:Hfirst.
    + apply elem_of_cons in Hin as [->|Hin]; [congruence|].
      apply IH, Hin.
    + by exists e1.
Qed.

Lemma load_users_handler disk e (users : gmap string User) :
  exists_ disk = Return true →
  (load_file disk users).1 = Raise e →
  _load_users disk users = Return (∅, [Error_loading_users e]).
Proof.
  intros Hexists Hraise. unfold user_manager._load_users.
  rewrite Hexists.
  destruct (load_file disk users) as [[[]|e'] users']; simpl in Hraise;
    congruence.
Qed.

(** C8, as the code has it: an exception of the existence test
    [users_file.exists()], which stands before the [try], leaves
    [_load_users] and the constructor of the store: startup is aborted
    and nothing is printed.  Once the test has answered that the file
    exists, reading it, parsing it or turning one of its entries into a
    record may raise, and [_load_users] (and so the constructor)
    returns normally with an empty store and one printed warning.  When
    opening the file for writing, producing the text or writing it
    raises, [_save_users] raises that same exception, and it returns
    normally only when all three steps did. *)
Theorem load_and_save_failures :
  (* load: the existence test raises, outside the guarded block *)
  (∀ disk users e,
     exists_ disk = Raise e → _load_users disk users = Raise e) ∧
  (∀ disk e,
     exists_ disk = Raise e → __init__ disk = Raise e) ∧
  (* load: any exception in the guarded block *)
  (∀ disk users e,
     exists_ disk = Return true → (load_file disk users).1 = Raise e →
     _load_users disk users = Return (∅, [Error_loading_users e])) ∧
  (* load: I/O failure *)
  (∀ disk e,
     exists_ disk = Return true → read_text disk = Raise e →
     __init__ disk = Return (∅, [Error_loading_users e])) ∧
  (* load: parse failure *)
  (∀ disk text e,
     exists_ disk = Return true → read_text disk = Return text →
     json_load text = Raise e →
     __init__ disk = Return (∅, [Error_loading_users e])) ∧
  (* load: an entry that cannot be deserialized *)
  (∀ disk text entries entry e,
     exists_ disk = Return true → read_text disk = Return text →
     json_load text = Return (PDict entries) →
     entry ∈ entries → parse_user entry.2 = Raise e →
     ∃ e', __init__ disk = Return (∅, [Error_loading_users e'])) ∧
  (* save: each failing step raises out of [_save_users] *)
  (∀ users disk disk' e,
     open_w disk = (Raise e, disk') →
     _save_users users disk = (Raise e, disk')) ∧
  (∀ users disk disk' e,
     open_w disk = (Return (), disk') →
     json_dumps (save_data isoformat users) = Raise e →
     _save_users users disk = (Raise e, disk')) ∧
  (∀ users disk disk' disk'' text e,
     open_w disk = (Return (), disk') →
     json_dumps (save_data isoformat users) = Return text →
     write text disk' = (Raise e, disk'') →
     _save_users users disk = (Raise e, disk'')) ∧
  (* save: a normal return means every step succeeded *)
  (∀ users disk disk'',
     _save_users users disk = (Return (), disk'') →
     ∃ disk' text,
       open_w disk = (Return (), disk') ∧
       json_dumps (save_data isoformat users) = Return text ∧
       write text disk' = (Return (), disk'')).
Proof.
  repeat apply conj.
  - intros disk users e Hexists. unfold user_manager._load_users.
    by rewrite Hexists.
  - intros disk e Hexists.
    unfold user_manager.__init__, user_manager._load_users.
    by rewrite Hexists.
  - intros disk users e. apply load_users_handler.
  - intros disk e Hexists Hread. apply load_users_handler; [done|].
    unfold user_manager.load_file. by rewrite Hread.
  - intros disk text e Hexists Hread Hparse.
    apply load_users_handler; [done|].
    unfold user_manager.load_file. rewrite Hread. simpl.
    by rewrite Hparse.
  - intros disk text entries entry e Hexists Hread Hparse Hin Hbad.
    destruct (load_entries_raise entries entry e ∅ Hin Hbad) as [e' He'].
    exists e'. apply load_users_handler; [done|].
    unfold user_manager.load_file. rewrite Hread. simpl.
    rewrite Hparse. simpl. exact He'.
  - intros users disk disk' e Hopen. unfold user_manager._save_users.
    by rewrite Hopen.
  - intros users disk disk' e Hopen Hdumps.
    unfold user_manager._save_users. rewrite Hopen.
    destruct (json_dumps _); congruence.
  - intros users disk disk' disk'' text e Hopen Hdumps Hwrite.
    unfold user_manager._save_users. rewrite Hopen, Hdumps.
    exact Hwrite.
  - intros users disk disk''. unfold user_manager._save_users.
    destruct (open_w disk) as [[[]|e] disk'] eqn:Hopen; [|congruence].
    destruct (json_dumps (save_data isoformat users)) as [text|e] eqn:Hdumps;
      [|congruence].
    intros Hwrite. by exists disk', text.
Qed.

End persistence_properties.

(** ** Failed logins *)

Section login_properties.

Variable sha256_hexdigest : string -> string.
Variable Token : Type.
Variable create_token : string -> string -> list (string * pyval) -> result Token.
Variable Disk : Type.
Variable save_users : gmap string user_manager.User -> Disk -> result unit * Disk.
Variable SECRET_KEY : string.

Local Abbreviation authenticate := (user_manager.authenticate sha256_hexdigest).
Local Abbreviation _hash_password := (user_manager._hash_password sha256_hexdigest).
Local Abbreviation routes_login :=
  (auth_routes.login sha256_hexdigest Token create_token Disk save_users).

Lemma authenticate_rejects utcnow username password
    (users : gmap string user_manager.User) :
  (users !! username = None ∨
   ∃ user, users !! username = Some user ∧
     (user.(user_manager.is_active) = false ∨
      _hash_password password user.(user_manager.salt)
        ≠ user.(user_manager.password_hash))) →
  authenticate utcnow username password users = (None, users).
Proof.
  unfold user_manager.authenticate.
  intros [Hunknown | (user & Hget & [Hinactive | Hmismatch])].
  - by rewrite Hunknown.
  - by rewrite Hget, Hinactive.
  - rewrite Hget. destruct (user_manager.is_active user); [simpl|done].
    apply String.eqb_neq in Hmismatch. by rewrite Hmismatch.
Qed.


End login_properties.

(** ** Session tokens *)

Section token_properties.

Import integrated_auth_server.

Lemma timegm_floor (t : datetime) :
  (t - 1000000 < jwt.timegm t * 1000000 ≤ t)%Z.
Proof. unfold jwt.timegm. Z.div_mod_to_equations. lia. Qed.

Lemma verify_own_token SECRET_KEY now (c : jwt.claims) :
  verify_token SECRET_KEY now (jwt.encode c SECRET_KEY)
    = if (jwt.timegm c.(jwt.c_exp) * 1000000 <=? now)%Z
      then Raise (HTTPException 401 "Invalid token")
      else Return (jwt.to_payload c).
Proof.
  unfold verify_token, jwt.decode, jwt.encode.
  rewrite String.eqb_refl. simpl.
  by destruct (_ <=? _)%Z.
Qed.

Lemma verify_foreign_token SECRET_KEY other now (c : jwt.claims) :
  other ≠ SECRET_KEY →
  verify_token other now (jwt.encode c SECRET_KEY)
    = Raise (HTTPException 401 "Invalid token").
Proof.
  intros Hne. unfold verify_token, jwt.decode, jwt.encode.
  assert (String.eqb SECRET_KEY other = false) as ->
    by (apply String.eqb_neq; congruence).
  reflexivity.
Qed.

(** C3, as the code has it: [create_token] for a known user yields a
    token that [verify_token] accepts at the time of issue and at any
    time before the encoded expiry, returning the issued claims (the
    expiry as whole seconds); from the expiry on, and under any other
    secret, [verify_token] raises one and the same error, 401 with
    detail "Invalid token". *)
Theorem token_roundtrip SECRET_KEY utcnow username account :
  USERS !! username = Some account →
  let issued := token_claims utcnow username account in
  let expiry := (jwt.timegm issued.(jwt.c_exp) * 1000000)%Z in
  ∃ token,
    create_token SECRET_KEY utcnow username = Return token ∧
    issued.(jwt.c_exp) = (utcnow + 48 * 3600 * 1000000)%Z ∧
    verify_token SECRET_KEY utcnow token = Return (jwt.to_payload issued) ∧
    (∀ now, (now < expiry)%Z →
       verify_token SECRET_KEY now token = Return (jwt.to_payload issued)) ∧
    (∀ now, (expiry ≤ now)%Z →
       verify_token SECRET_KEY now token
         = Raise (HTTPException 401 "Invalid token")) ∧
    (∀ other now, other ≠ SECRET_KEY →
       verify_token other now token
         = Raise (HTTPException 401 "Invalid token")).
Proof.
  intros Hget issued expiry.
  exists (jwt.encode issued SECRET_KEY).
  assert (∀ now, (now < expiry)%Z →
            verify_token SECRET_KEY now (jwt.encode issued SECRET_KEY)
              = Return (jwt.to_payload issued)) as Hvalid.
  { intros now Hnow. rewrite verify_own_token.
    fold expiry. by destruct (Z.leb_spec expiry now); [lia|]. }
  repeat apply conj.
  - unfold create_token. by rewrite Hget.
  - reflexivity.
  - apply Hvalid. subst expiry issued. simpl.
    pose proof (timegm_floor (utcnow + timedelta_hours 48)%Z).
    unfold timedelta_hours in *. lia.
  - exact Hvalid.
  - intros now Hnow. rewrite verify_own_token. fold expiry.
    by destruct (Z.leb_spec expiry now); [|lia].
  - intros other now Hne. by apply verify_foreign_token.
Qed.

End token_properties.

(** ** The workspace middleware *)

Lemma split_nonempty sep s : split sep s ≠ [].
Proof.
  destruct s as [|c s]; simpl; [done|].
  destruct (Ascii.eqb c sep); [done|].
  by destruct (split sep s).
Qed.

Lemma split_bearer auth_header :
  startswith auth_header "Bearer " = true →
  ∃ token rest, split " " auth_header = "Bearer" :: token :: rest.
Proof.
  unfold startswith. intros Hprefix.
  do 7 (destruct auth_header as [|? auth_header]; [discriminate|];
        simpl in Hprefix;
        match type of Hprefix with
        | (if ?d then _ else _) = true =>
            destruct d as [<-|]; [|discriminate]
        end).
  simpl. destruct (split " " auth_header) as [|token rest] eqn:Hsplit.
  - by apply split_nonempty in Hsplit.
  - by exists token, rest.
Qed.

Section middleware_properties.

Import workspace_middleware.

Variable validate_token : string -> result TokenData.
Variable api_key : option string.

Local Abbreviation resolve_bearer := (resolve_bearer validate_token).
Local Abbreviation dispatch := (dispatch validate_token api_key).

Lemma has_bearer_prefix auth_header :
  startswith auth_header "Bearer " = true →
  has_bearer (Some auth_header) = true.
Proof.
  intros Hprefix. unfold has_bearer. rewrite Hprefix.
  destruct auth_header; [discriminate|done].
Qed.

(** The body of the [try], once the header is known to start with
    [Bearer ]. *)
Lemma resolve_bearer_eq auth_header (users : gmap string user_manager.User) :
  startswith auth_header "Bearer " = true →
  resolve_bearer auth_header users =
    match validate_token (bearer_token auth_header) with
    | Raise e => Raise e
    | Return token_data =>
        if truthy (workspace_claim token_data)
        then Return (Authenticated token_data.(td_username)
                       (workspace_claim token_data))
        else match users !! token_data.(td_username) with
             | Some user =>
                 Return (Authenticated token_data.(td_username)
                           (PStr user.(user_manager.workspace)))
             | None =>
                 Raise (HTTPException 404
                          ("User " +:+ token_data.(td_username) +:+ " not found"))
             end
    end.
Proof.
  intros Hprefix.
  destruct (split_bearer auth_header Hprefix) as (token & rest & Hsplit).
  unfold workspace_middleware.resolve_bearer, bearer_token.
  rewrite Hsplit. simpl.
  destruct (validate_token token) as [token_data|e]; [simpl|done].
  destruct (truthy (workspace_claim token_data)); [done|simpl].
  unfold user_manager.get_user_workspace, user_manager.get_user.
  by destruct (users !! td_username token_data).
Qed.

(** Whatever the request, the only exception [dispatch] raises is a
    401. *)
Lemma dispatch_raises_only_401 whitelist_paths
    (users : gmap string user_manager.User) request e :
  dispatch whitelist_paths users request = Raise e →
  ∃ detail, e = HTTPException 401 detail.
Proof.
  unfold workspace_middleware.dispatch.
  repeat match goal with
         | |- context [if ?b then _ else _] => destruct b
         | |- context [match ?r with Return _ => _ | Raise _ => _ end] =>
             destruct r
         end; intros Heq; try discriminate; injection Heq as <-; eauto.
Qed.

Lemma has_bearer_other auth_header :
  startswith auth_header "Bearer " = false →
  has_bearer (Some auth_header) = false.
Proof.
  intros Hprefix. unfold has_bearer. rewrite Hprefix. apply andb_false_r.
Qed.

Lemma whitelisted_existsb (whitelist_paths : list string) path wp :
  wp ∈ whitelist_paths → startswith path wp = true →
  existsb (startswith path) whitelist_paths = true.
Proof.
  intros Hin Hprefix. apply existsb_exists. exists wp.
  split; [by apply list_elem_of_In|done].
Qed.

Lemma not_whitelisted_existsb (whitelist_paths : list string) path :
  (∀ wp, wp ∈ whitelist_paths → startswith path wp = false) →
  existsb (startswith path) whitelist_paths = false.
Proof.
  intros Hout. apply not_true_is_false. intros Hex.
  apply existsb_exists in Hex as (wp & Hin & Hprefix).
  apply list_elem_of_In in Hin. rewrite (Hout wp Hin) in Hprefix.
  discriminate.
Qed.

(** C4: [dispatch] classifies a request in this order.  A path that
    starts with one of the whitelisted prefixes is passed on with
    nothing set on the request, whatever its headers.  Otherwise, with
    an [Authorization] header that starts with [Bearer ], the token is
    validated: on success the request is Authenticated with the
    username of the claims and with the workspace their metadata
    carries under the key [workspace]; only when the metadata has no
    such key, or an empty value under it, is the workspace the one the
    store holds for that user; on failure the request is Rejected with
    401 when an API key is configured (enforcement on) and Anonymous
    when none is.  Otherwise, with no [Authorization] header or one
    that does not start with [Bearer ], and with enforcement on, an
    [X-API-Key] header equal to the configured key gives
    ApiKeyAuthenticated with no workspace and anything else is
    Rejected with 401; with enforcement off the request is Anonymous. *)
Theorem dispatch_priority_order whitelist_paths
    (users : gmap string user_manager.User) request :
  (∀ wp,
     wp ∈ whitelist_paths → startswith request.(path) wp = true →
     dispatch whitelist_paths users request = Return None) ∧
  ((∀ wp, wp ∈ whitelist_paths → startswith request.(path) wp = false) →
     (∀ auth_header,
        request.(Authorization) = Some auth_header →
        startswith auth_header "Bearer " = true →
        let token := bearer_token auth_header in
        (∀ token_data workspace,
           validate_token token = Return token_data →
           dict_get "workspace" token_data.(td_metadata) = Some workspace →
           truthy workspace = true →
           dispatch whitelist_paths users request
             = Return (Some (Authenticated token_data.(td_username)
                               workspace))) ∧
        (∀ token_data user,
           validate_token token = Return token_data →
           dict_get "workspace" token_data.(td_metadata) = None ∨
           (∃ workspace,
              dict_get "workspace" token_data.(td_metadata) = Some workspace ∧
              truthy workspace = false) →
           users !! token_data.(td_username) = Some user →
           dispatch whitelist_paths users request
             = Return (Some (Authenticated token_data.(td_username)
                               (PStr user.(user_manager.workspace))))) ∧
        (∀ e,
           validate_token token = Raise e →
           dispatch whitelist_paths users request
             = if str_truthy api_key then Rejected "Invalid authentication"
               else Return (Some Anonymous))) ∧
     (request.(Authorization) = None ∨
      (∃ auth_header,
         request.(Authorization) = Some auth_header ∧
         startswith auth_header "Bearer " = false) →
        (∀ key,
           api_key = Some key → key ≠ EmptyString →
           request.(X_API_Key) = Some key →
           dispatch whitelist_paths users request
             = Return (Some ApiKeyAuthenticated)) ∧
        (str_truthy api_key = true →
           request.(X_API_Key) ≠ api_key →
           dispatch whitelist_paths users request
             = Rejected "Authentication required") ∧
        (str_truthy api_key = false →
           dispatch whitelist_paths users request
             = Return (Some Anonymous)))).
Proof.
  unfold workspace_middleware.dispatch. split.
  - intros wp Hin Hprefix.
    by rewrite (whitelisted_existsb _ _ _ Hin Hprefix).
  - intros Hout. rewrite (not_whitelisted_existsb _ _ Hout). split.
    + intros auth_header Hheader Hprefix. simpl.
      rewrite Hheader, (has_bearer_prefix _ Hprefix). simpl.
      rewrite (resolve_bearer_eq _ users Hprefix).
      unfold workspace_claim. repeat apply conj.
      * intros token_data workspace -> -> Htruthy. simpl.
        by rewrite Htruthy.
      * intros token_data user -> [->|(workspace & -> & Hfalsy)] ->; simpl;
          [done|by rewrite Hfalsy].
      * by intros e ->.
    + intros Hno.
      assert (has_bearer request.(Authorization) = false) as ->.
      { destruct Hno as [->|(auth_header & -> & Hprefix)]; [done|].
        by apply has_bearer_other. }
      repeat apply conj.
      * intros key -> Hkey ->. simpl.
        apply String.eqb_neq in Hkey. rewrite Hkey. simpl.
        by rewrite decide_True.
      * intros -> Hne. by rewrite decide_False.
      * by intros ->.
Qed.

(** C10: a request outside the whitelist whose [Bearer] token
    validates, whose claims carry no workspace and whose user is no
    longer in the store makes the workspace lookup raise the 404
    "not found" error; [dispatch] catches it like a token failure:
    it raises 401 when an API key is configured and otherwise passes
    the request on as Anonymous with no workspace.  No 404 leaves
    [dispatch]. *)
Theorem deleted_user_is_token_failure whitelist_paths
    (users : gmap string user_manager.User) request auth_header token_data :
  existsb (startswith request.(path)) whitelist_paths = false →
  request.(Authorization) = Some auth_header →
  startswith auth_header "Bearer " = true →
  validate_token (bearer_token auth_header) = Return token_data →
  truthy (workspace_claim token_data) = false →
  users !! token_data.(td_username) = None →
  user_manager.get_user_workspace token_data.(td_username) users
    = Raise (HTTPException 404
               ("User " +:+ token_data.(td_username) +:+ " not found")) ∧
  dispatch whitelist_paths users request
    = (if str_truthy api_key
       then Raise (HTTPException 401 "Invalid authentication")
       else Return (Some Anonymous)) ∧
  ∀ detail,
    dispatch whitelist_paths users request ≠ Raise (HTTPException 404 detail).
Proof.
  intros Hpath Hheader Hprefix Hvalid Hclaim Hgone. repeat apply conj.
  - unfold user_manager.get_user_workspace, user_manager.get_user.
    by rewrite Hgone.
  - unfold workspace_middleware.dispatch.
    rewrite Hpath, Hheader, (has_bearer_prefix _ Hprefix). simpl.
    by rewrite (resolve_bearer_eq _ users Hprefix), Hvalid, Hclaim, Hgone.
  - intros detail Hraise.
    apply dispatch_raises_only_401 in Hraise as [detail' Heq].
    discriminate Heq.
Qed.

End middleware_properties.

(** ** The per-workspace engine cache *)

Section registry_properties.

Import lightrag_server_auth.

Variable global_working_dir : string.
Variable path_join : string -> string -> string.

Local Abbreviation start := (start global_working_dir path_join).
Local Abbreviation step := (step global_working_dir path_join).
Local Abbreviation run_task := (run_task global_working_dir path_join).
Local Abbreviation run := (run global_working_dir path_join).
Local Abbreviation get_or_create_rag :=
  (get_or_create_rag global_working_dir path_join).

Lemma run_app s1 s2 st : run (s1 ++ s2) st = run s2 (run s1 st).
Proof. apply foldl_app. Qed.

Lemma run_cons ev s st : run (ev :: s) st = run s (run_task ev st).
Proof. reflexivity. Qed.

Lemma run_nil st : run [] st = st.
Proof. reflexivity. Qed.

Lemma run_task_middle i init pre t suf W :
  i = length pre →
  run_task (i, init) (W, pre ++ t :: suf)
    = ((step init t W).1, pre ++ (step init t W).2 :: suf).
Proof.
  intros ->. unfold lightrag_server_auth.run_task. simpl.
  rewrite list_lookup_middle by done.
  rewrite insert_app_r_alt by done.
  by rewrite Nat.sub_diag.
Qed.

Lemma run_task_ok_middle i pre t suf W :
  i = length pre →
  run_task (ok i) (W, pre ++ t :: suf)
    = ((step (Return ()) t W).1, pre ++ (step (Return ()) t W).2 :: suf).
Proof. apply run_task_middle. Qed.

Lemma start_hit workspace W rag :
  W.(rag_instances) !! default "default" workspace = Some rag →
  start workspace W = (W, Done rag).
Proof. intros Hhit. unfold lightrag_server_auth.start. by rewrite Hhit. Qed.

Lemma start_miss workspace W :
  W.(rag_instances) !! default "default" workspace = None →
  let key := default "default" workspace in
  let dir := path_join global_working_dir key in
  let rag := mkLightRAG (length W.(constructed)) dir key in
  start workspace W
    = (mkWorld W.(rag_instances) (W.(constructed) ++ [rag])
         (W.(made_dirs) ++ [dir]),
       Awaiting key rag).
Proof. intros Hmiss. unfold lightrag_server_auth.start. by rewrite Hmiss. Qed.

Lemma resume_ok key rag W :
  resume key rag (Return ()) W
    = (mkWorld (<[key := rag]> W.(rag_instances)) W.(constructed)
         W.(made_dirs),
       Done rag).
Proof. unfold resume. simpl. by rewrite lookup_insert_eq. Qed.

(** Calls that find their instance in the cache, one after the other. *)
Lemma run_serial_hits workspace W rag n : ∀ k pre,
  W.(rag_instances) !! default "default" workspace = Some rag →
  k = length pre →
  run (seq k n ≫= λ i, [ok i; ok i]) (W, pre ++ replicate n (Pending workspace))
    = (W, pre ++ replicate n (Done rag)).
Proof.
  induction n as [|n IH]; intros k pre Hhit Hk; [done|].
  cbn [seq replicate]. rewrite bind_cons, run_app.
  rewrite !run_cons, run_nil.
  rewrite (run_task_ok_middle _ pre _ _ _ Hk).
  cbn [lightrag_server_auth.step].
  rewrite (start_hit _ _ _ Hhit). cbn [fst snd].
  rewrite (run_task_ok_middle _ pre _ _ _ Hk).
  cbn [lightrag_server_auth.step fst snd].
  rewrite !(cons_middle _ pre).
  rewrite !app_assoc. apply IH; [done|].
  rewrite length_app. simpl. lia.
Qed.

(** Calls that miss the cache and all reach the [await] before any of
    them goes on. *)
Lemma run_starts workspace n : ∀ k pre W,
  W.(rag_instances) !! default "default" workspace = None →
  k = length pre →
  let key := default "default" workspace in
  let dir := path_join global_working_dir key in
  let rags := fresh_rags dir key (length W.(constructed)) n in
  run (ok <$> seq k n) (W, pre ++ replicate n (Pending workspace))
    = (mkWorld W.(rag_instances) (W.(constructed) ++ rags)
         (W.(made_dirs) ++ replicate n dir),
       pre ++ (Awaiting key <$> rags)).
Proof.
  induction n as [|n IH]; intros k pre W Hmiss Hk.
  - simpl. rewrite !app_nil_r. by destruct W.
  - cbn zeta. cbn [seq replicate]. rewrite fmap_cons, run_cons.
    rewrite (run_task_ok_middle _ pre _ _ _ Hk).
    cbn [lightrag_server_auth.step].
    rewrite (start_miss _ _ Hmiss). cbn [fst snd].
    rewrite (cons_middle _ pre), app_assoc.
    rewrite IH; [|done|rewrite length_app; simpl; lia].
    cbn [rag_instances constructed made_dirs].
    rewrite length_app. cbn [length]. rewrite Nat.add_1_r.
    unfold fresh_rags. cbn [seq fmap list_fmap].
    by rewrite <- !app_assoc.
Qed.

(** The suspended calls resume: each one stores its own engine in the
    cache and returns it. *)
Lemma run_resumes key rags : ∀ k pre W,
  k = length pre →
  run (ok <$> seq k (length rags)) (W, pre ++ (Awaiting key <$> rags))
    = (mkWorld (foldl (λ m rag, <[key := rag]> m) W.(rag_instances) rags)
         W.(constructed) W.(made_dirs),
       pre ++ (Done <$> rags)).
Proof.
  induction rags as [|rag rags IH]; intros k pre W Hk.
  - simpl. by destruct W.
  - cbn [length seq]. rewrite !fmap_cons, run_cons.
    rewrite (run_task_ok_middle _ pre _ _ _ Hk).
    cbn [lightrag_server_auth.step]. rewrite resume_ok. cbn [fst snd].
    rewrite (cons_middle _ pre), app_assoc.
    rewrite IH; [|rewrite length_app; simpl; lia].
    by rewrite <- app_assoc.
Qed.

Lemma fresh_rags_length dir key first n :
  length (fresh_rags dir key first n) = n.
Proof. unfold fresh_rags. by rewrite length_fmap, length_seq. Qed.

Lemma fresh_rags_NoDup dir key first n : NoDup (fresh_rags dir key first n).
Proof.
  unfold fresh_rags. apply NoDup_fmap_2_strong; [|apply NoDup_seq].
  intros i j _ _ Heq. by injection Heq.
Qed.

(** Once the instance of a workspace is cached, calls for that
    workspace change nothing and return it, in whatever order the
    event loop runs them. *)
Lemma run_settled key rag W schedule : ∀ calls,
  W.(rag_instances) !! key = Some rag →
  Forall (settled key rag) calls →
  ∃ calls',
    run schedule (W, calls) = (W, calls') ∧
    length calls' = length calls ∧
    (∀ i, calls !! i = Some (Done rag) → calls' !! i = Some (Done rag)) ∧
    (∀ i, i ∈ schedule.*1 → i < length calls →
       calls' !! i = Some (Done rag)).
Proof.
  induction schedule as [|[i init] schedule IH]; intros calls Hhit Hcalls.
  - exists calls. split_and!; [done..|].
    intros i Hin. by apply elem_of_nil in Hin.
  - rewrite run_cons.
    assert (∃ calls1,
              run_task (i, init) (W, calls) = (W, calls1) ∧
              Forall (settled key rag) calls1 ∧
              length calls1 = length calls ∧
              (∀ j, calls !! j = Some (Done rag) →
                 calls1 !! j = Some (Done rag)) ∧
              (i < length calls → calls1 !! i = Some (Done rag)))
      as (calls1 & -> & Hcalls1 & Hlen1 & Hkeep1 & Hran1).
    { unfold lightrag_server_auth.run_task. simpl.
      destruct (calls !! i) as [t|] eqn:Hget.
      - assert (step init t W = (W, Done rag)) as ->.
        { pose proof (Forall_lookup_1 _ _ _ _ Hcalls Hget) as Ht.
          destruct t as [workspace| | |]; simpl in Ht; try done.
          + simpl. apply start_hit. by rewrite Ht.
          + by subst. }
        simpl. exists (<[i := Done rag]> calls).
        split_and!.
        + done.
        + by apply Forall_insert.
        + apply length_insert.
        + intros j Hj. destruct (decide (i = j)) as [->|Hne].
          * apply list_lookup_insert_eq. by eapply lookup_lt_Some.
          * by rewrite list_lookup_insert_ne.
        + intros Hlt. by apply list_lookup_insert_eq.
      - exists calls. split_and!; [done..|].
        intros Hlt. apply lookup_ge_None in Hget. lia. }
    destruct (IH calls1 Hhit Hcalls1) as (calls' & Hrun & Hlen & Hkeep & Hran).
    exists calls'. split_and!; [done|congruence|auto|].
    intros j Hin Hlt. rewrite fmap_cons in Hin.
    apply elem_of_cons in Hin as [->|Hin]; simpl.
    + apply Hkeep, Hran1, Hlt.
    + apply Hran; [done|]. by rewrite Hlen1.
Qed.

Lemma run_task_ok_head t suf W :
  run_task (ok 0) (W, t :: suf)
    = ((step (Return ()) t W).1, (step (Return ()) t W).2 :: suf).
Proof. exact (run_task_ok_middle 0 [] t suf W eq_refl). Qed.

Lemma run_starts_all workspace n W :
  W.(rag_instances) !! default "default" workspace = None →
  let key := default "default" workspace in
  let dir := path_join global_working_dir key in
  let rags := fresh_rags dir key (length W.(constructed)) n in
  run (ok <$> seq 0 n) (W, replicate n (Pending workspace))
    = (mkWorld W.(rag_instances) (W.(constructed) ++ rags)
         (W.(made_dirs) ++ replicate n dir),
       Awaiting key <$> rags).
Proof. intros Hmiss. exact (run_starts workspace n 0 [] W Hmiss eq_refl). Qed.

Lemma run_resumes_all key rags W :
  run (ok <$> seq 0 (length rags)) (W, Awaiting key <$> rags)
    = (mkWorld (foldl (λ m rag, <[key := rag]> m) W.(rag_instances) rags)
         W.(constructed) W.(made_dirs),
       Done <$> rags).
Proof. exact (run_resumes key rags 0 [] W eq_refl). Qed.

Lemma lookup_foldl_insert key (rags : list LightRAG) :
  ∀ m : gmap string LightRAG,
    foldl (λ m rag, <[key := rag]> m) m rags !! key
      = from_option Some (m !! key) (last rags).
Proof.
  induction rags as [|rag rags IH] using rev_ind; intros m; [done|].
  rewrite foldl_app, last_snoc. simpl. apply lookup_insert_eq.
Qed.

(** C6, as the code has it: when the cache holds an instance for the
    workspace, the call returns that instance in its first stretch,
    before any [await], and constructs nothing (the cache, the list of
    constructed engines and the directories are as before); a call
    without a workspace is the call for ["default"]; and once the
    default instance is cached, every such call the event loop runs
    returns that one instance, whatever the schedule.  (Before the
    default instance is cached, overlapping calls without a workspace
    each construct their own, as calls for any other workspace do.) *)
Theorem cached_instance_reused :
  (∀ workspace W rag init,
     W.(rag_instances) !! default "default" workspace = Some rag →
     start workspace W = (W, Done rag) ∧
     get_or_create_rag workspace init W = (W, Done rag)) ∧
  (∀ W init,
     start None W = start (Some "default") W ∧
     get_or_create_rag None init W
       = get_or_create_rag (Some "default") init W) ∧
  (∀ W rag schedule calls,
     W.(rag_instances) !! "default" = Some rag →
     Forall (λ t, t = Pending None ∨ t = Pending (Some "default")) calls →
     ∃ calls',
       run schedule (W, calls) = (W, calls') ∧
       ∀ i, i ∈ schedule.*1 → i < length calls →
            calls' !! i = Some (Done rag)).
Proof.
  split_and!.
  - intros workspace W rag init Hhit.
    unfold lightrag_server_auth.get_or_create_rag.
    by rewrite (start_hit _ _ _ Hhit).
  - done.
  - intros W rag schedule calls Hhit Hcalls.
    destruct (run_settled "default" rag W schedule calls Hhit)
      as (calls' & Hrun & _ & _ & Hran).
    + eapply Forall_impl; [exact Hcalls|].
      by intros t [-> | ->].
    + by exists calls'.
Qed.

(** C1, as the code has it: [n] calls for a workspace that has no
    instance yet.  Run one after the other, they construct one engine
    and all return it (single flight holds).  Run together, so that
    each reaches the [await] before any of them resumes, every call
    constructs its own engine: [n] engines are constructed, call [i]
    returns the [i]-th of them, they are pairwise different, the cache
    ends up with the last one, and for [n] of two or more single
    flight fails. *)
Theorem cold_start_constructions workspace W n :
  W.(rag_instances) !! default "default" workspace = None →
  0 < n →
  let key := default "default" workspace in
  let calls := replicate n (Pending workspace) in
  let rags :=
    fresh_rags (path_join global_working_dir key) key
      (length W.(constructed)) n in
  (∃ W' rag,
     run (serial n) (W, calls) = (W', replicate n (Done rag)) ∧
     W'.(constructed) = W.(constructed) ++ [rag] ∧
     W'.(rag_instances) !! key = Some rag ∧
     single_flight (W, calls) (run (serial n) (W, calls))) ∧
  (∃ W',
     run (overlapped n) (W, calls) = (W', Done <$> rags) ∧
     W'.(constructed) = W.(constructed) ++ rags ∧
     length rags = n ∧ NoDup rags ∧
     W'.(rag_instances) !! key = last rags ∧
     (1 < n → ¬ single_flight (W, calls) (run (overlapped n) (W, calls)))).
Proof.
  intros Hmiss Hn key calls rags. split.
  - destruct n as [|n]; [lia|].
    set (rag := mkLightRAG (length W.(constructed))
                  (path_join global_working_dir key) key).
    set (W' := mkWorld (<[key := rag]> W.(rag_instances))
                 (W.(constructed) ++ [rag])
                 (W.(made_dirs) ++ [path_join global_working_dir key])).
    assert (run (serial (S n)) (W, calls) = (W', replicate (S n) (Done rag)))
      as Hrun.
    { unfold serial, calls. cbn [seq replicate].
      rewrite bind_cons, run_app, !run_cons, run_nil.
      rewrite run_task_ok_head.
      cbn [lightrag_server_auth.step].
      rewrite (start_miss _ _ Hmiss). cbn [fst snd].
      rewrite run_task_ok_head.
      cbn [lightrag_server_auth.step]. rewrite resume_ok.
      cbn [fst snd rag_instances constructed made_dirs].
      fold key rag W'.
      apply (run_serial_hits workspace W' rag n 1 [Done rag]); [|done].
      apply lookup_insert_eq. }
    exists W', rag. split_and!; [done|done|apply lookup_insert_eq|].
    rewrite Hrun. split; cbn [fst snd].
    + simpl. rewrite length_app. simpl. lia.
    + exists rag. by apply Forall_replicate.
  - set (W1 := mkWorld W.(rag_instances) (W.(constructed) ++ rags)
                 (W.(made_dirs)
                    ++ replicate n (path_join global_working_dir key))).
    set (W' := mkWorld (foldl (λ m rag, <[key := rag]> m)
                          W.(rag_instances) rags)
                 (W.(constructed) ++ rags)
                 (W.(made_dirs)
                    ++ replicate n (path_join global_working_dir key))).
    assert (length rags = n) as Hlen by apply fresh_rags_length.
    assert (run (overlapped n) (W, calls) = (W', Done <$> rags)) as Hrun.
    { unfold overlapped, calls. rewrite fmap_app, run_app.
      rewrite (run_starts_all workspace n W Hmiss).
      fold key rags W1.
      rewrite <- Hlen at 1.
      by rewrite (run_resumes_all key rags W1). }
    exists W'. split_and!; [done|done|done|apply fresh_rags_NoDup| |].
    + simpl. rewrite lookup_foldl_insert.
      destruct (last rags); [done|exact Hmiss].
    + intros Hmany [Hone _]. rewrite Hrun in Hone. simpl in Hone.
      rewrite length_app in Hone. lia.
Qed.

End registry_properties.

(** * Concrete runs *)

(** ** The credential store *)

Example create_alice :
  user_manager.create_user fixtures.digest "5f3a" 1000 "alice"
    "alice@example.com" "secret1" ∅
  = (Return (user_manager.mkUser "alice" "alice@example.com"
               "sha256(secret15f3a)" "5f3a" 1000 None true "user_alice" []),
     fixtures.alice_store).
Proof. reflexivity. Qed.

Example wrong_password_rejected :
  user_manager.authenticate fixtures.digest 2000 "alice" "secret2"
    fixtures.alice_store
  = (None, fixtures.alice_store).
Proof. reflexivity. Qed.

Example deleted_user_rejected :
  user_manager.authenticate fixtures.digest 2000 "alice" "secret1"
    (user_manager.delete_user "alice" fixtures.alice_store).2
  = (None, ∅).
Proof. vm_compute. reflexivity. Qed.

Lemma create_then_authenticate_witness :
  (∅ : gmap string user_manager.User) !! "alice" = None ∧
  ∃ created users1 logged_in users2,
    user_manager.create_user fixtures.digest "5f3a" 1000 "alice"
      "alice@example.com" "secret1" ∅ = (Return created, users1) ∧
    user_manager.authenticate fixtures.digest 2000 "alice" "secret1" users1
      = (Some logged_in, users2) ∧
    created.(user_manager.workspace) = "user_alice" ∧
    logged_in.(user_manager.workspace) = "user_alice" ∧
    logged_in.(user_manager.username) = "alice".
Proof.
  split; [reflexivity|].
  apply (create_then_authenticate fixtures.digest "5f3a" 1000 2000 "alice"
           "alice@example.com" "secret1" ∅).
  reflexivity.
Defined.

Lemma create_existing_conflict_witness :
  is_Some (fixtures.alice_store !! "alice") ∧
  user_manager.create_user fixtures.digest "9c41" 3000 "alice"
    "someone@else.org" "hunter2" fixtures.alice_store
  = (Raise (HTTPException 409 "User alice already exists"),
     fixtures.alice_store).
Proof.
  assert (is_Some (fixtures.alice_store !! "alice")) as Hin
    by (vm_compute; eauto).
  split; [exact Hin|].
  exact (create_existing_conflict fixtures.digest "9c41" 3000 "alice"
           "someone@else.org" "hunter2" fixtures.alice_store Hin).
Defined.

Example update_ignores_other_keys :
  user_manager.update_user_call fixtures.digest "77aa" "alice"
    [("email", PStr "a@b.c"); ("is_active", PBool false);
     ("workspace", PStr "user_admin"); ("created_at", PDatetime 0)]
    fixtures.alice_store
  = (Return
       (Some (user_manager.mkUser "alice" "a@b.c" "sha256(secret15f3a)" "5f3a"
                1000 None false "user_alice" [])),
     <["alice" := user_manager.mkUser "alice" "a@b.c" "sha256(secret15f3a)"
                    "5f3a" 1000 None false "user_alice" []]>
       fixtures.alice_store).
Proof. reflexivity. Qed.

(** [update_user("ghost", username="mallory")] on a store without
    ghost does not return [None]: binding the arguments raises.  The
    same keyword next to a whitelisted one, on an existing user, leaves
    the e-mail address as it was. *)
Lemma update_with_username_keyword_raises :
  fixtures.alice_store !! "ghost" = None ∧
  user_manager.update_user_call fixtures.digest "77aa" "ghost"
    [("username", PStr "mallory")] fixtures.alice_store
  = (Raise (PyException "TypeError"), fixtures.alice_store) ∧
  (user_manager.update_user_call fixtures.digest "77aa" "ghost"
     [("username", PStr "mallory")] fixtures.alice_store).1
  ≠ Return None ∧
  user_manager.update_user_call fixtures.digest "77aa" "alice"
    [("email", PStr "a@b.c"); ("username", PStr "mallory")]
    fixtures.alice_store
  = (Raise (PyException "TypeError"), fixtures.alice_store).
Proof.
  split_and!; [vm_compute; reflexivity|reflexivity|discriminate|reflexivity].
Qed.

Lemma update_user_call_frame_witness :
  (* a keyword named username *)
  user_manager.update_user_call fixtures.digest "77aa" "alice"
    [("email", PStr "a@b.c"); ("username", PStr "mallory")]
    fixtures.alice_store
  = (Raise (PyException "TypeError"), fixtures.alice_store) ∧
  (* an absent user *)
  user_manager.update_user_call fixtures.digest "77aa" "ghost"
    [("email", PStr "a@b.c"); ("workspace", PStr "user_admin")]
    fixtures.alice_store
  = (Return None, fixtures.alice_store) ∧
  (* an existing user *)
  ∃ user',
    user_manager.update_user_call fixtures.digest "77aa" "alice"
      [("email", PStr "a@b.c"); ("password", PStr "secret2");
       ("workspace", PStr "user_admin"); ("created_at", PDatetime 0)]
      fixtures.alice_store
    = (Return (Some user'), <["alice" := user']> fixtures.alice_store) ∧
    user'.(user_manager.username) = "alice" ∧
    user'.(user_manager.workspace) = "user_alice" ∧
    user'.(user_manager.created_at) = 1000%Z ∧
    user'.(user_manager.email) = "a@b.c" ∧
    user'.(user_manager.salt) = "77aa" ∧
    user'.(user_manager.password_hash) = "sha256(secret277aa)".
Proof.
  split_and!.
  - apply (update_user_call_frame fixtures.digest "77aa" "alice"
             [("email", PStr "a@b.c"); ("username", PStr "mallory")]
             fixtures.alice_store).
    left. by eexists.
  - pose proof (proj2 (update_user_call_frame fixtures.digest "77aa" "ghost"
                         [("email", PStr "a@b.c");
                          ("workspace", PStr "user_admin")]
                         fixtures.alice_store)
                  eq_refl eq_refl eq_refl) as Habsent.
    assert (fixtures.alice_store !! "ghost" = None) as Hget
      by (vm_compute; reflexivity).
    rewrite Hget in Habsent. exact Habsent.
  - pose proof (proj2 (update_user_call_frame fixtures.digest "77aa" "alice"
                         [("email", PStr "a@b.c"); ("password", PStr "secret2");
                          ("workspace", PStr "user_admin");
                          ("created_at", PDatetime 0)]
                         fixtures.alice_store)
                  eq_refl eq_refl eq_refl) as Hpresent.
    assert (fixtures.alice_store !! "alice"
            = Some (user_manager.mkUser "alice" "alice@example.com"
                      "sha256(secret15f3a)" "5f3a" 1000 None true
                      "user_alice" [])) as Hget
      by (vm_compute; reflexivity).
    rewrite Hget in Hpresent.
    destruct Hpresent as (user' & Hcall & Hu & Hw & Hc & _ & _ & He & _ & _
                          & Hs & Hh).
    exists user'. split_and!; done.
Defined.

(** ** Loading and saving *)

Example load_seeds_when_no_file :
  ∃ users,
    fixtures.load (fixtures.mkDisk None true true 100)
      = Return (users,
                [Error_creating_user_from_env (PyException "ValueError")]) ∧
    dom users = {["admin"; "bob"]}.
Proof. eexists. split; [vm_compute; reflexivity|]. vm_compute. reflexivity. Qed.

(** The users file sits in a directory that may not be searched: the
    existence test raises, and so does the constructor of the store,
    where an unreadable file in a directory that may be searched only
    costs the stored users. *)
Lemma unsearchable_directory_aborts_startup :
  fixtures.load (fixtures.mkDisk None false true 100)
    = Raise (PyException "PermissionError") ∧
  fixtures.load (fixtures.mkDisk (Some "{}") false true 100)
    = Return (∅, [Error_loading_users (PyException "PermissionError")]).
Proof. split; reflexivity. Qed.

Lemma load_and_save_failures_witness :
  (* a directory that may not be searched *)
  fixtures.load (fixtures.mkDisk None false true 100)
    = Raise (PyException "PermissionError") ∧
  (* an unreadable file, a file that is not JSON, an entry that is not a record *)
  fixtures.load (fixtures.mkDisk (Some "{}") false true 100)
    = Return (∅, [Error_loading_users (PyException "PermissionError")]) ∧
  fixtures.load (fixtures.mkDisk (Some "{oops") true true 100)
    = Return (∅, [Error_loading_users (PyException "JSONDecodeError")]) ∧
  (∃ e, fixtures.load (fixtures.mkDisk (Some "{bob: 1}") true true 100)
          = Return (∅, [Error_loading_users e])) ∧
  (* a read-only disk, a full disk *)
  fixtures.save fixtures.alice_store (fixtures.mkDisk (Some "{}") true false 100)
    = (Raise (PyException "PermissionError"),
       fixtures.mkDisk (Some "{}") true false 100) ∧
  fixtures.save fixtures.alice_store (fixtures.mkDisk (Some "{}") true true 2)
    = (Raise (PyException "OSError"),
       fixtures.mkDisk (Some EmptyString) true true 2).
Proof.
  destruct (load_and_save_failures fixtures.digest fixtures.disk
              fixtures.disk_exists fixtures.disk_read fixtures.parse
              fixtures.parse_iso fixtures.make_user
              (Some "admin:admin123,bob@bosch.com:pw,broken")
              fixtures.salt_at fixtures.clock_at fixtures.print_iso
              fixtures.dumps fixtures.disk_open_w fixtures.disk_write)
    as (_ & Habort & _ & Hio & Hparse & Hentry & Hopen & _ & Hwrite & _).
  split_and!.
  - apply Habort; reflexivity.
  - apply Hio; reflexivity.
  - apply (Hparse _ "{oops"); reflexivity.
  - apply (Hentry _ "{bob: 1}" [("bob", PInt 1)] ("bob", PInt 1)
             (PyException "TypeError")); try reflexivity.
    apply list_elem_of_here.
  - apply Hopen. reflexivity.
  - apply (Hwrite _ _ (fixtures.mkDisk (Some EmptyString) true true 2) _ "{...}");
      reflexivity.
Defined.

(** ** Failed logins *)


(** ** Session tokens *)

Lemma token_roundtrip_witness :
  integrated_auth_server.USERS !! "admin"
    = Some (integrated_auth_server.mkAccount "admin123" "admin@bosch.com"
              "user_admin") ∧
  ∃ token,
    integrated_auth_server.create_token "bosch-graph2rag-secret-2025"
      1500000 "admin" = Return token ∧
    integrated_auth_server.verify_token "bosch-graph2rag-secret-2025"
      1500000 token
      = Return (jwt.mkPayload "admin" 172801 "user_admin" "admin@bosch.com") ∧
    integrated_auth_server.verify_token "bosch-graph2rag-secret-2025"
      172800999999 token
      = Return (jwt.mkPayload "admin" 172801 "user_admin" "admin@bosch.com") ∧
    integrated_auth_server.verify_token "bosch-graph2rag-secret-2025"
      172801000000 token
      = Raise (HTTPException 401 "Invalid token") ∧
    integrated_auth_server.verify_token "another-secret" 1500000 token
      = Raise (HTTPException 401 "Invalid token").
Proof.
  assert (integrated_auth_server.USERS !! "admin"
            = Some (integrated_auth_server.mkAccount "admin123"
                      "admin@bosch.com" "user_admin")) as Hadmin
    by reflexivity.
  split; [exact Hadmin|].
  destruct (token_roundtrip "bosch-graph2rag-secret-2025" 1500000 "admin" _
              Hadmin)
    as (token & Hissue & _ & Hnow & Hbefore & Hafter & Hforged).
  exists token. split_and!.
  - exact Hissue.
  - exact Hnow.
  - apply Hbefore. vm_compute. reflexivity.
  - apply Hafter. vm_compute. discriminate.
  - apply Hforged. discriminate.
Defined.

(** C3, as stated, fails: an expired token and a token signed with
    another secret are refused with the very same error, 401 "Invalid
    token"; no two different errors tell the two cases apart. *)
Lemma expired_and_forged_same_error :
  let secret := "bosch-graph2rag-secret-2025" in
  let account :=
    integrated_auth_server.mkAccount "admin123" "admin@bosch.com" "user_admin" in
  let token :=
    jwt.encode (integrated_auth_server.token_claims 0 "admin" account) secret in
  let expired := integrated_auth_server.verify_token secret 172800000001 token in
  let forged := integrated_auth_server.verify_token "another-secret" 0 token in
  integrated_auth_server.create_token secret 0 "admin" = Return token ∧
  jwt.decode 172800000001 token secret = Raise ExpiredSignatureError ∧
  jwt.decode 0 token "another-secret" = Raise InvalidSignatureError ∧
  expired = Raise (HTTPException 401 "Invalid token") ∧
  forged = Raise (HTTPException 401 "Invalid token") ∧
  ¬ ∃ e_expired e_invalid,
      e_expired ≠ e_invalid ∧
      expired = Raise e_expired ∧ forged = Raise e_invalid.
Proof.
  cbv zeta. split_and!; try reflexivity.
  intros (e_expired & e_invalid & Hne & Hexpired & Hforged).
  vm_compute in Hexpired, Hforged. congruence.
Qed.

(** ** The workspace middleware *)

Example whitelist_defaults :
  workspace_middleware.__init__ None = workspace_middleware.default_whitelist_paths ∧
  workspace_middleware.__init__ (Some []) = workspace_middleware.default_whitelist_paths ∧
  workspace_middleware.__init__ (Some ["/health"]) = ["/health"].
Proof. repeat split. Qed.

Example bearer_token_examples :
  workspace_middleware.bearer_token "Bearer abc" = "abc" ∧
  workspace_middleware.bearer_token "Bearer " = "" ∧
  workspace_middleware.bearer_token "Bearer  abc" = "" ∧
  workspace_middleware.bearer_token "Bearer a b" = "a".
Proof. repeat split. Qed.

Lemma dispatch_priority_order_witness :
  let dispatch key :=
    workspace_middleware.dispatch fixtures.validate key
      workspace_middleware.default_whitelist_paths fixtures.alice_store in
  let request := workspace_middleware.mkRequest in
  (* 1: a whitelisted path, even with a bad token *)
  dispatch (Some "static-key") (request "/auth/login" (Some "Bearer junk") None)
    = Return None ∧
  (* 2: a token whose workspace is the store's, a token whose workspace
     is another one, a token without one, a bad token *)
  dispatch (Some "static-key")
      (request "/documents" (Some "Bearer alice-token") None)
    = Return (Some (workspace_middleware.Authenticated "alice"
                      (PStr "user_alice"))) ∧
  dispatch (Some "static-key")
      (request "/documents" (Some "Bearer alice-team-token") None)
    = Return (Some (workspace_middleware.Authenticated "alice"
                      (PStr "team_space"))) ∧
  dispatch (Some "static-key")
      (request "/documents" (Some "Bearer alice-old-token") None)
    = Return (Some (workspace_middleware.Authenticated "alice"
                      (PStr "user_alice"))) ∧
  dispatch (Some "static-key")
      (request "/documents" (Some "Bearer junk") (Some "static-key"))
    = workspace_middleware.Rejected "Invalid authentication" ∧
  dispatch None (request "/documents" (Some "Bearer junk") None)
    = Return (Some workspace_middleware.Anonymous) ∧
  (* 3, 4, 5: no token *)
  dispatch (Some "static-key") (request "/documents" None (Some "static-key"))
    = Return (Some workspace_middleware.ApiKeyAuthenticated) ∧
  dispatch (Some "static-key")
      (request "/documents" (Some "Basic YWxpY2U6cHc=") (Some "static-key"))
    = Return (Some workspace_middleware.ApiKeyAuthenticated) ∧
  dispatch (Some "static-key") (request "/documents" None (Some "guess"))
    = workspace_middleware.Rejected "Authentication required" ∧
  dispatch None (request "/documents" None (Some "guess"))
    = Return (Some workspace_middleware.Anonymous).
Proof.
  cbv zeta.
  pose proof (λ key, dispatch_priority_order fixtures.validate key
                workspace_middleware.default_whitelist_paths
                fixtures.alice_store) as H.
  assert (∀ wp, wp ∈ workspace_middleware.default_whitelist_paths →
                startswith "/documents" wp = false) as Hout.
  { intros wp Hin. unfold workspace_middleware.default_whitelist_paths in Hin.
    repeat (apply elem_of_cons in Hin as [->|Hin]; [reflexivity|]).
    by apply elem_of_nil in Hin. }
  split_and!.
  - destruct (H (Some "static-key")
                (workspace_middleware.mkRequest "/auth/login"
                   (Some "Bearer junk") None)) as [H1 _].
    apply (H1 "/auth/"); [|reflexivity].
    apply list_elem_of_further, list_elem_of_here.
  - destruct (H (Some "static-key")
                (workspace_middleware.mkRequest "/documents"
                   (Some "Bearer alice-token") None)) as [_ H2].
    destruct (H2 Hout) as [Hbearer _].
    destruct (Hbearer "Bearer alice-token" eq_refl eq_refl) as (Hclaim & _ & _).
    apply (Hclaim (workspace_middleware.mkTokenData "alice"
                     [("email", PStr "alice@example.com");
                      ("workspace", PStr "user_alice")])); reflexivity.
  - destruct (H (Some "static-key")
                (workspace_middleware.mkRequest "/documents"
                   (Some "Bearer alice-team-token") None)) as [_ H2].
    destruct (H2 Hout) as [Hbearer _].
    destruct (Hbearer "Bearer alice-team-token" eq_refl eq_refl)
      as (Hclaim & _ & _).
    apply (Hclaim (workspace_middleware.mkTokenData "alice"
                     [("workspace", PStr "team_space")])); reflexivity.
  - destruct (H (Some "static-key")
                (workspace_middleware.mkRequest "/documents"
                   (Some "Bearer alice-old-token") None)) as [_ H2].
    destruct (H2 Hout) as [Hbearer _].
    destruct (Hbearer "Bearer alice-old-token" eq_refl eq_refl)
      as (_ & Hstore & _).
    apply (Hstore (workspace_middleware.mkTokenData "alice" [])
             (user_manager.mkUser "alice" "alice@example.com"
                "sha256(secret15f3a)" "5f3a" 1000 None true "user_alice" []));
      [reflexivity|by left|reflexivity].
  - destruct (H (Some "static-key")
                (workspace_middleware.mkRequest "/documents"
                   (Some "Bearer junk") (Some "static-key"))) as [_ H2].
    destruct (H2 Hout) as [Hbearer _].
    destruct (Hbearer "Bearer junk" eq_refl eq_refl) as (_ & _ & Hfail).
    apply (Hfail (HTTPException 401 "Invalid token")). reflexivity.
  - destruct (H None
                (workspace_middleware.mkRequest "/documents"
                   (Some "Bearer junk") None)) as [_ H2].
    destruct (H2 Hout) as [Hbearer _].
    destruct (Hbearer "Bearer junk" eq_refl eq_refl) as (_ & _ & Hfail).
    apply (Hfail (HTTPException 401 "Invalid token")). reflexivity.
  - destruct (H (Some "static-key")
                (workspace_middleware.mkRequest "/documents" None
                   (Some "static-key"))) as [_ H2].
    destruct (H2 Hout) as [_ Hnone].
    destruct (Hnone (or_introl eq_refl)) as (Hkey & _ & _).
    apply (Hkey "static-key"); [reflexivity|discriminate|reflexivity].
  - destruct (H (Some "static-key")
                (workspace_middleware.mkRequest "/documents"
                   (Some "Basic YWxpY2U6cHc=") (Some "static-key")))
      as [_ H2].
    destruct (H2 Hout) as [_ Hnone].
    destruct Hnone as (Hkey & _ & _).
    { right. exists "Basic YWxpY2U6cHc=". by split. }
    apply (Hkey "static-key"); [reflexivity|discriminate|reflexivity].
  - destruct (H (Some "static-key")
                (workspace_middleware.mkRequest "/documents" None
                   (Some "guess"))) as [_ H2].
    destruct (H2 Hout) as [_ Hnone].
    destruct (Hnone (or_introl eq_refl)) as (_ & Hreject & _).
    apply Hreject; [reflexivity|discriminate].
  - destruct (H None
                (workspace_middleware.mkRequest "/documents" None
                   (Some "guess"))) as [_ H2].
    destruct (H2 Hout) as [_ Hnone].
    destruct (Hnone (or_introl eq_refl)) as (_ & _ & Hanon).
    apply Hanon. reflexivity.
Defined.

Lemma deleted_user_is_token_failure_witness :
  let users := (user_manager.delete_user "carol"
                  (user_manager.create_user fixtures.digest "01ab" 500 "carol"
                     "carol@example.com" "pw" fixtures.alice_store).2).2 in
  let request :=
    workspace_middleware.mkRequest "/documents" (Some "Bearer carol-old-token")
      None in
  users !! "carol" = None ∧
  user_manager.get_user_workspace "carol" users
    = Raise (HTTPException 404 "User carol not found") ∧
  workspace_middleware.dispatch fixtures.validate (Some "static-key")
    workspace_middleware.default_whitelist_paths users request
    = Raise (HTTPException 401 "Invalid authentication") ∧
  workspace_middleware.dispatch fixtures.validate None
    workspace_middleware.default_whitelist_paths users request
    = Return (Some workspace_middleware.Anonymous).
Proof.
  cbv zeta.
  set (users := (user_manager.delete_user "carol" _).2).
  assert (users !! "carol" = None) as Hgone by (vm_compute; reflexivity).
  split; [exact Hgone|].
  pose proof (λ key,
    deleted_user_is_token_failure fixtures.validate key
      workspace_middleware.default_whitelist_paths users
      (workspace_middleware.mkRequest "/documents"
         (Some "Bearer carol-old-token") None)
      "Bearer carol-old-token"
      (workspace_middleware.mkTokenData "carol" [])
      eq_refl eq_refl eq_refl eq_refl eq_refl Hgone) as H.
  split_and!.
  - apply (H None).
  - apply (H (Some "static-key")).
  - apply (H None).
Defined.

(** ** The per-workspace engine cache *)

Example two_calls_interleaved :
  fixtures.run (lightrag_server_auth.overlapped 2)
    (fixtures.empty_world,
     replicate 2 (lightrag_server_auth.Pending (Some "tenantA")))
  = (lightrag_server_auth.mkWorld
       {["tenantA" :=
           lightrag_server_auth.mkLightRAG 1 "./rag_storage/tenantA" "tenantA"]}
       [lightrag_server_auth.mkLightRAG 0 "./rag_storage/tenantA" "tenantA";
        lightrag_server_auth.mkLightRAG 1 "./rag_storage/tenantA" "tenantA"]
       ["./rag_storage/tenantA"; "./rag_storage/tenantA"],
     [lightrag_server_auth.Done
        (lightrag_server_auth.mkLightRAG 0 "./rag_storage/tenantA" "tenantA");
      lightrag_server_auth.Done
        (lightrag_server_auth.mkLightRAG 1 "./rag_storage/tenantA" "tenantA")]).
Proof. vm_compute. reflexivity. Qed.

Example failed_initialization_publishes_nothing :
  fixtures.run [(0, Return ()); (0, Raise (PyException "OSError"))]
    (fixtures.empty_world, [lightrag_server_auth.Pending (Some "tenantA")])
  = (lightrag_server_auth.mkWorld ∅
       [lightrag_server_auth.mkLightRAG 0 "./rag_storage/tenantA" "tenantA"]
       ["./rag_storage/tenantA"],
     [lightrag_server_auth.Failed (PyException "OSError")]).
Proof. vm_compute. reflexivity. Qed.

(** C1, as stated, fails: 50 calls for ["tenantA"] that all reach the
    [await] before any of them resumes construct 50 engines, and the
    first and the last caller hold different objects. *)
Lemma fifty_calls_fifty_engines :
  let calls := replicate 50 (lightrag_server_auth.Pending (Some "tenantA")) in
  let before := (fixtures.empty_world, calls) in
  let after := fixtures.run (lightrag_server_auth.overlapped 50) before in
  fixtures.empty_world.(lightrag_server_auth.rag_instances) !! "tenantA" = None ∧
  length after.1.(lightrag_server_auth.constructed) = 50 ∧
  after.2 !! 0
    = Some (lightrag_server_auth.Done
              (lightrag_server_auth.mkLightRAG 0 "./rag_storage/tenantA"
                 "tenantA")) ∧
  after.2 !! 49
    = Some (lightrag_server_auth.Done
              (lightrag_server_auth.mkLightRAG 49 "./rag_storage/tenantA"
                 "tenantA")) ∧
  ¬ lightrag_server_auth.single_flight before after.
Proof.
  cbv zeta. split_and!; try (vm_compute; reflexivity).
  intros [Hone _]. vm_compute in Hone. discriminate Hone.
Qed.

Lemma cold_start_constructions_witness :
  let calls := replicate 50 (lightrag_server_auth.Pending (Some "tenantA")) in
  fixtures.empty_world.(lightrag_server_auth.rag_instances) !! "tenantA" = None ∧
  lightrag_server_auth.single_flight (fixtures.empty_world, calls)
    (fixtures.run (lightrag_server_auth.serial 50) (fixtures.empty_world, calls)) ∧
  ¬ lightrag_server_auth.single_flight (fixtures.empty_world, calls)
      (fixtures.run (lightrag_server_auth.overlapped 50)
         (fixtures.empty_world, calls)).
Proof.
  cbv zeta.
  assert (fixtures.empty_world.(lightrag_server_auth.rag_instances)
            !! default "default" (Some "tenantA") = None) as Hmiss
    by reflexivity.
  split; [exact Hmiss|].
  destruct (cold_start_constructions "./rag_storage" fixtures.join
              (Some "tenantA") fixtures.empty_world 50 Hmiss)
    as [(W' & rag & _ & _ & _ & Hserial)
        (W'' & _ & _ & _ & _ & _ & Hoverlapped)]; [lia|].
  split; [exact Hserial|].
  apply Hoverlapped. lia.
Defined.

(** C6, as stated, fails in its last clause: on a cache with no
    default instance, two calls without a workspace that both reach
    the [await] before either resumes construct two engines for
    ["default"], and each caller holds its own. *)
Lemma default_calls_two_engines :
  let calls := [lightrag_server_auth.Pending None;
                lightrag_server_auth.Pending None] in
  let after :=
    fixtures.run (lightrag_server_auth.overlapped 2)
      (fixtures.empty_world, calls) in
  fixtures.empty_world.(lightrag_server_auth.rag_instances) !! "default" = None ∧
  after.2
    = [lightrag_server_auth.Done
         (lightrag_server_auth.mkLightRAG 0 "./rag_storage/default" "default");
       lightrag_server_auth.Done
         (lightrag_server_auth.mkLightRAG 1 "./rag_storage/default" "default")] ∧
  length after.1.(lightrag_server_auth.constructed) = 2 ∧
  ¬ (∃ rag, after.2 !! 0 = Some (lightrag_server_auth.Done rag) ∧
            after.2 !! 1 = Some (lightrag_server_auth.Done rag)).
Proof.
  cbv zeta. split_and!; try (vm_compute; reflexivity).
  intros (rag & Hfirst & Hsecond). vm_compute in Hfirst, Hsecond.
  congruence.
Qed.

Lemma cached_instance_reused_witness :
  let rag := lightrag_server_auth.mkLightRAG 0 "./rag_storage/default" "default" in
  let W := lightrag_server_auth.mkWorld {["default" := rag]} [rag]
             ["./rag_storage/default"] in
  W.(lightrag_server_auth.rag_instances) !! "default" = Some rag ∧
  lightrag_server_auth.start "./rag_storage" fixtures.join None W
    = (W, lightrag_server_auth.Done rag) ∧
  lightrag_server_auth.get_or_create_rag "./rag_storage" fixtures.join
    (Some "default") (Return ()) W
    = (W, lightrag_server_auth.Done rag) ∧
  ∃ calls',
    fixtures.run [(1, Return ()); (0, Return ()); (1, Return ())]
      (W, [lightrag_server_auth.Pending None;
           lightrag_server_auth.Pending (Some "default")])
    = (W, calls') ∧
    calls' !! 0 = Some (lightrag_server_auth.Done rag) ∧
    calls' !! 1 = Some (lightrag_server_auth.Done rag).
Proof.
  cbv zeta.
  set (rag := lightrag_server_auth.mkLightRAG 0 "./rag_storage/default" "default").
  set (W := lightrag_server_auth.mkWorld {["default" := rag]} [rag]
              ["./rag_storage/default"]).
  assert (W.(lightrag_server_auth.rag_instances) !! "default" = Some rag)
    as Hhit by reflexivity.
  destruct (cached_instance_reused "./rag_storage" fixtures.join)
    as (Hreuse & _ & Hshared).
  split; [exact Hhit|]. split_and!.
  - apply (Hreuse None W rag (Return ())). exact Hhit.
  - apply (Hreuse (Some "default") W rag (Return ())). exact Hhit.
  - assert (Forall (λ t, t = lightrag_server_auth.Pending None
                         ∨ t = lightrag_server_auth.Pending (Some "default"))
              [lightrag_server_auth.Pending None;
               lightrag_server_auth.Pending (Some "default")]) as Hcalls
      by (repeat constructor; auto).
    destruct (Hshared W rag [(1, Return ()); (0, Return ()); (1, Return ())]
                _ Hhit Hcalls)
      as (calls' & Hrun & Hran).
    exists calls'. split; [exact Hrun|].
    split; apply Hran; simpl; try lia.
    + apply list_elem_of_further, list_elem_of_here.
    + apply list_elem_of_here.
Defined.

(** * Further properties *)

(** ** Operations on the credential store *)

Section store_operations.

Import user_manager.

Variable sha256_hexdigest : string -> string.

Local Abbreviation create_user := (create_user sha256_hexdigest).
Local Abbreviation authenticate := (authenticate sha256_hexdigest).
Local Abbreviation update_user := (update_user sha256_hexdigest).
Local Abbreviation _hash_password := (_hash_password sha256_hexdigest).

Lemma well_formed_insert key user (users : gmap string User) :
  well_formed users →
  user.(username) = key → user.(workspace) = "user_" +:+ key →
  well_formed (<[key := user]> users).
Proof.
  intros Hwf Hname Hws key' user' Hget.
  destruct (decide (key = key')) as [<-|Hne].
  - rewrite lookup_insert_eq in Hget. by injection Hget as <-.
  - rewrite lookup_insert_ne in Hget by done. by apply Hwf.
Qed.

(** X1: once a user is deleted, [authenticate] for that name returns
    [None] for every password, the right one included, and changes
    nothing. *)
Theorem deleted_user_cannot_authenticate utcnow username password
    (users : gmap string User) :
  let users' := (delete_user username users).2 in
  authenticate utcnow username password users' = (None, users').
Proof.
  unfold delete_user, user_manager.authenticate.
  destruct (users !! username) as [user|] eqn:Hget; simpl.
  - by rewrite lookup_delete_eq.
  - by rewrite Hget.
Qed.

(** [delete_user] answers whether the name was present, removes
    that record and no other, and a second call for the same name
    answers [False] and changes nothing. *)
Theorem delete_user_removes_one username (users : gmap string User) :
  let r := delete_user username users in
  r.1 = bool_decide (is_Some (users !! username)) ∧
  r.2 !! username = None ∧
  (∀ other, other ≠ username → r.2 !! other = users !! other) ∧
  delete_user username r.2 = (false, r.2).
Proof.
  unfold delete_user.
  destruct (users !! username) as [user|] eqn:Hget; simpl.
  - split_and!.
    + done.
    + apply lookup_delete_eq.
    + intros other Hne. by apply lookup_delete_ne.
    + by rewrite lookup_delete_eq.
  - split_and!.
    + done.
    + done.
    + done.
    + by rewrite Hget.
Qed.

(** X2: [authenticate] succeeds only for a stored, active record whose
    hash is the hash of the given password with the stored salt; it
    then returns that record with [last_login] set to the current time,
    stores it under the same name, and leaves every other record as it
    was. *)
Theorem authenticate_success_frame utcnow username password
    (users users' : gmap string User) logged_in :
  authenticate utcnow username password users = (Some logged_in, users') →
  ∃ user,
    users !! username = Some user ∧
    user.(is_active) = true ∧
    user.(password_hash) = _hash_password password user.(salt) ∧
    logged_in = set_last_login user utcnow ∧
    users' = <[username := logged_in]> users ∧
    (∀ other, other ≠ username → users' !! other = users !! other).
Proof.
  unfold user_manager.authenticate.
  destruct (users !! username) as [user|] eqn:Hget; [|discriminate].
  destruct (is_active user) eqn:Hactive; [simpl|discriminate].
  destruct (String.eqb _ _) eqn:Hhash; [simpl|discriminate].
  intros [= <- <-]. exists user. split_and!; try done.
  - symmetry. by apply String.eqb_eq.
  - intros other Hne. by apply lookup_insert_ne.
Qed.

(** X3: the four in-memory operations keep the store well formed:
    every record stays under its own username with the workspace
    ["user_" + username], so no operation moves a user to another
    workspace. *)
Theorem well_formed_preserved (users : gmap string User) :
  well_formed users →
  (∀ token_hex utcnow username email password,
     well_formed (create_user token_hex utcnow username email password users).2) ∧
  (∀ utcnow username password,
     well_formed (authenticate utcnow username password users).2) ∧
  (∀ token_hex username kwargs,
     well_formed (update_user token_hex username kwargs users).2) ∧
  (∀ username, well_formed (delete_user username users).2).
Proof.
  intros Hwf. split_and!.
  - intros token_hex utcnow username email password.
    unfold user_manager.create_user.
    destruct (users !! username); [done|]. simpl.
    by apply well_formed_insert.
  - intros utcnow username password. unfold user_manager.authenticate.
    destruct (users !! username) as [user|] eqn:Hget; [|done].
    destruct (negb (is_active user)); [done|].
    destruct (negb (String.eqb _ _)); [done|]. simpl.
    destruct (Hwf _ _ Hget). by apply well_formed_insert.
  - intros token_hex username kwargs. unfold user_manager.update_user.
    destruct (users !! username) as [user|] eqn:Hget; [|done]. simpl.
    destruct (Hwf _ _ Hget).
    apply well_formed_insert; [done| |];
      unfold apply_kwargs; by destruct (kw_password kwargs).
  - intros username. unfold delete_user.
    destruct (users !! username) eqn:Hget; [simpl|done].
    intros key user Hkey. apply lookup_delete_Some in Hkey as [_ Hkey].
    by apply Hwf.
Qed.

(** X4: after [update_user] with a password, [authenticate] with that
    password succeeds whenever the account is active after the update,
    and every password whose hash under the new salt differs is
    refused. *)
Theorem password_change_takes_effect token_hex utcnow username new_password
    kwargs user (users : gmap string User) :
  users !! username = Some user →
  kwargs.(kw_password) = Some new_password →
  let users' := (update_user token_hex username kwargs users).2 in
  (default user.(is_active) kwargs.(kw_is_active) = true →
   ∃ logged_in users'',
     authenticate utcnow username new_password users'
       = (Some logged_in, users'')) ∧
  (∀ old_password,
     _hash_password old_password token_hex
       ≠ _hash_password new_password token_hex →
     authenticate utcnow username old_password users' = (None, users')).
Proof.
  intros Hget Hpw. unfold user_manager.update_user. rewrite Hget. simpl.
  unfold user_manager.authenticate. rewrite lookup_insert_eq.
  unfold apply_kwargs. rewrite Hpw. simpl. split.
  - intros ->. simpl. rewrite String.eqb_refl. simpl. eauto.
  - intros old_password Hdiff.
    destruct (default _ _); [simpl|done].
    apply String.eqb_neq in Hdiff. by rewrite Hdiff.
Qed.

(** X5: after [update_user] with [is_active=False], [authenticate] for
    that name returns [None] whatever the password. *)
Theorem deactivated_user_cannot_authenticate token_hex utcnow username
    password kwargs (users : gmap string User) :
  kwargs.(kw_is_active) = Some false →
  let users' := (update_user token_hex username kwargs users).2 in
  authenticate utcnow username password users' = (None, users').
Proof.
  intros Hoff. unfold user_manager.update_user.
  destruct (users !! username) as [user|] eqn:Hget; simpl.
  - unfold user_manager.authenticate. rewrite lookup_insert_eq.
    unfold apply_kwargs. rewrite Hoff.
    by destruct (kw_password kwargs).
  - unfold user_manager.authenticate. by rewrite Hget.
Qed.

(** X6: a deleted name can be registered again at once, and the new
    account gets the workspace the deleted one had. *)
Theorem deleted_name_registers_again token_hex utcnow username email password
    (users : gmap string User) :
  ∃ user,
    create_user token_hex utcnow username email password
        (delete_user username users).2
      = (Return user, <[username := user]> (delete username users)) ∧
    user.(workspace) = "user_" +:+ username ∧
    (∀ old, well_formed users → users !! username = Some old →
       user.(workspace) = old.(workspace)).
Proof.
  assert ((delete_user username users).2 = delete username users) as ->.
  { unfold delete_user.
    destruct (users !! username) eqn:Hget; [done|].
    simpl. symmetry. by apply delete_id. }
  destruct (create_user_fresh sha256_hexdigest token_hex utcnow username email
              password (delete username users))
    as (user & Hcreate & _ & _ & _ & _ & _ & Hws);
    [apply lookup_delete_eq|].
  exists user. split_and!; [done|done|].
  intros old Hwf Hold. destruct (Hwf _ _ Hold) as [_ ->]. exact Hws.
Qed.

End store_operations.

(** ** The seed list *)

Lemma split_once_app sep (u p : string) :
  contains sep u = false →
  split_once sep (u +:+ String sep p) = Some (u, p).
Proof.
  unfold contains. induction u as [|c u IH]; simpl.
  - by rewrite Ascii.eqb_refl.
  - destruct (Ascii.eqb c sep); [done|].
    destruct (split_once sep u) as [[? ?]|] eqn:Hu; [done|].
    intros _. by rewrite IH.
Qed.

Lemma split_app_hd sep (u rest : string) :
  contains sep u = false →
  split sep (u +:+ String sep rest) = u :: split sep rest.
Proof.
  unfold contains. induction u as [|c u IH]; simpl.
  - by rewrite Ascii.eqb_refl.
  - destruct (Ascii.eqb c sep); [done|].
    destruct (split_once sep u) as [[? ?]|] eqn:Hu; [done|].
    intros _. by rewrite IH.
Qed.

Lemma contains_app sep (u p : string) :
  contains sep (u +:+ String sep p) = true.
Proof.
  unfold contains. induction u as [|c u IH]; simpl.
  - by rewrite Ascii.eqb_refl.
  - destruct (Ascii.eqb c sep); [done|].
    by destruct (split_once sep (u +:+ String sep p)) as [[? ?]|].
Qed.

Section seed_properties.

Import user_manager.

Variable sha256_hexdigest : string -> string.
Variable auth_accounts : option string.
Variable token_hex_at : nat -> string.
Variable utcnow_at : nat -> datetime.

Local Abbreviation init_account := (init_account sha256_hexdigest).
Local Abbreviation init_accounts :=
  (init_accounts sha256_hexdigest token_hex_at utcnow_at).
Local Abbreviation _init_from_env :=
  (_init_from_env sha256_hexdigest auth_accounts token_hex_at utcnow_at).
Local Abbreviation authenticate := (authenticate sha256_hexdigest).

Lemma init_account_keeps token_hex utcnow account (users : gmap string User) :
  (∀ key user, users !! key = Some user →
     (init_account token_hex utcnow account users).1 !! key = Some user) ∧
  (well_formed users →
     well_formed (init_account token_hex utcnow account users).1).
Proof.
  unfold user_manager.init_account.
  destruct (split_once ":" account) as [[name password]|]; [|done].
  set (username := if contains "@" name then _ else _).
  set (email := if contains "@" name then _ else _).
  unfold create_user.
  destruct (users !! username) as [existing|] eqn:Hget; simpl; [done|].
  split.
  - intros key user Hkey. rewrite lookup_insert_ne; [done|congruence].
  - intros Hwf. by apply well_formed_insert.
Qed.

Lemma init_accounts_keeps accounts : ∀ n (users : gmap string User),
  (∀ key user, users !! key = Some user →
     (init_accounts n accounts users).1 !! key = Some user) ∧
  (well_formed users → well_formed (init_accounts n accounts users).1).
Proof.
  induction accounts as [|account accounts IH]; intros n users; [done|].
  simpl.
  destruct (init_account_keeps (token_hex_at n) (utcnow_at n) account users)
    as [Hkeep1 Hwf1].
  destruct (IH (S n)
              (init_account (token_hex_at n) (utcnow_at n) account users).1)
    as [Hkeep Hwf].
  split; auto.
Qed.

(** X7: seeding from the environment never replaces or removes a user
    that is already in the store, keeps the store well formed, and
    does nothing at all when no seed list is configured. *)
Theorem init_from_env_keeps_existing (users : gmap string User) :
  (∀ key user, users !! key = Some user →
     (_init_from_env users).1 !! key = Some user) ∧
  (well_formed users → well_formed (_init_from_env users).1) ∧
  (str_truthy auth_accounts = false → _init_from_env users = (users, [])).
Proof.
  unfold user_manager._init_from_env.
  destruct (str_truthy auth_accounts); [|done].
  destruct (init_accounts_keeps
              (split "," (default EmptyString auth_accounts)) 0 users).
  split_and!; done.
Qed.

(** X8: a seed entry [name:password] whose name holds neither a colon
    nor an at sign, and is not taken, creates the user [name] with the
    e-mail [name@bosch.com] and the workspace [user_name]; the password
    is everything after the first colon, colons included, and
    [authenticate] accepts it. *)
Theorem init_account_plain token_hex utcnow t_login name password
    (users : gmap string User) :
  contains ":" name = false →
  contains "@" name = false →
  users !! name = None →
  ∃ user,
    init_account token_hex utcnow (name +:+ ":" +:+ password) users
      = (<[name := user]> users, []) ∧
    user.(username) = name ∧
    user.(email) = name +:+ "@bosch.com" ∧
    user.(workspace) = "user_" +:+ name ∧
    authenticate t_login name password (<[name := user]> users)
      = (Some (set_last_login user t_login),
         <[name := set_last_login user t_login]> (<[name := user]> users)).
Proof.
  intros Hcolon Hat Hfresh. unfold user_manager.init_account.
  change (name +:+ ":" +:+ password) with (name +:+ String ":" password).
  rewrite (split_once_app _ _ _ Hcolon), Hat.
  destruct (create_user_fresh sha256_hexdigest token_hex utcnow name
              (name +:+ "@bosch.com") password users Hfresh)
    as (user & -> & Hname & Hemail & Hsalt & Hhash & Hactive & Hws).
  exists user. split_and!; try done.
  apply authenticate_accepts; [apply lookup_insert_eq|done|].
  by rewrite Hhash, Hsalt.
Qed.

(** X9: a seed entry [local@domain:password] creates the user [local]
    (the part before the first at sign) with the whole address as
    e-mail and the workspace [user_local]. *)
Theorem init_account_email token_hex utcnow local domain password
    (users : gmap string User) :
  contains ":" (local +:+ "@" +:+ domain) = false →
  contains "@" local = false →
  users !! local = None →
  ∃ user,
    init_account token_hex utcnow
        ((local +:+ "@" +:+ domain) +:+ ":" +:+ password) users
      = (<[local := user]> users, []) ∧
    user.(username) = local ∧
    user.(email) = local +:+ "@" +:+ domain ∧
    user.(workspace) = "user_" +:+ local.
Proof.
  intros Hcolon Hat Hfresh. unfold user_manager.init_account.
  change ((local +:+ "@" +:+ domain) +:+ ":" +:+ password)
    with ((local +:+ "@" +:+ domain) +:+ String ":" password).
  rewrite (split_once_app _ _ _ Hcolon).
  change (local +:+ "@" +:+ domain) with (local +:+ String "@" domain).
  rewrite contains_app, (split_app_hd _ _ _ Hat). simpl.
  destruct (create_user_fresh sha256_hexdigest token_hex utcnow local
              (local +:+ String "@" domain) password users Hfresh)
    as (user & -> & Hname & Hemail & _ & _ & _ & Hws).
  exists user. split_and!; done.
Qed.

(** X10: a seed entry without a colon, and an entry whose user name is
    already taken, change nothing in the store; each is reported on
    standard output (a [ValueError], the 409 of [create_user]) and the
    loop goes on. *)
Theorem init_account_skips_bad_entries token_hex utcnow
    (users : gmap string User) :
  (∀ account,
     contains ":" account = false →
     init_account token_hex utcnow account users
       = (users, [Error_creating_user_from_env (PyException "ValueError")])) ∧
  (∀ name password,
     contains ":" name = false → contains "@" name = false →
     is_Some (users !! name) →
     init_account token_hex utcnow (name +:+ ":" +:+ password) users
       = (users,
          [Error_creating_user_from_env
             (HTTPException 409 ("User " +:+ name +:+ " already exists"))])).
Proof.
  split.
  - intros account Hcolon. unfold user_manager.init_account.
    unfold contains in Hcolon.
    by destruct (split_once ":" account) as [[? ?]|].
  - intros name password Hcolon Hat [existing Hget].
    unfold user_manager.init_account.
    change (name +:+ ":" +:+ password) with (name +:+ String ":" password).
    rewrite (split_once_app _ _ _ Hcolon), Hat.
    unfold create_user. by rewrite Hget.
Qed.

End seed_properties.

(** ** The authentication routes *)

Section routes_properties.

Variable sha256_hexdigest : string -> string.
Variable Token : Type.
Variable create_token : string -> string -> list (string * pyval) -> result Token.
Variable Disk : Type.
Variable save_users : gmap string user_manager.User -> Disk -> result unit * Disk.
Variable exn_str : exn -> string.
Variable TokenData : Type.
Variable validate_token : Token -> result TokenData.
Variable td_username : TokenData -> string.

Local Abbreviation authenticate := (user_manager.authenticate sha256_hexdigest).
Local Abbreviation update_user := (user_manager.update_user sha256_hexdigest).
Local Abbreviation _hash_password :=
  (user_manager._hash_password sha256_hexdigest).
Local Abbreviation login :=
  (auth_routes.login sha256_hexdigest Token create_token Disk save_users).
Local Abbreviation register :=
  (auth_routes.register sha256_hexdigest Disk save_users exn_str).
Local Abbreviation get_current_user :=
  (auth_routes.get_current_user Token TokenData validate_token td_username).
Local Abbreviation change_password :=
  (auth_routes.change_password sha256_hexdigest Token Disk save_users
     TokenData validate_token td_username).

(** X11: [change-password] with a valid token but an old password that
    [authenticate] refuses (wrong hash, inactive account, or a user
    deleted since the token was issued) raises 401 "Invalid password"
    and leaves the store and the disk as they were. *)
Theorem change_password_wrong_old_password token_hex utcnow old_password
    new_password credentials token_data
    (users : gmap string user_manager.User) disk :
  validate_token credentials = Return token_data →
  (users !! td_username token_data = None ∨
   ∃ user, users !! td_username token_data = Some user ∧
     (user.(user_manager.is_active) = false ∨
      _hash_password old_password user.(user_manager.salt)
        ≠ user.(user_manager.password_hash))) →
  change_password token_hex utcnow old_password new_password credentials
      users disk
    = (Raise (HTTPException 401 "Invalid password"), users, disk).
Proof.
  intros Hvalid Hfail. unfold auth_routes.change_password.
  rewrite Hvalid.
  by rewrite (authenticate_rejects sha256_hexdigest utcnow _ old_password
                users Hfail).
Qed.

(** X12: [change-password] with a valid token and the right old
    password replaces salt and hash in memory before it saves: the
    store it leaves holds the hash of the new password under the fresh
    salt and accepts the new password, whether the save succeeded or
    raised; a failing save is raised to the caller with the in-memory
    change already made. *)
Theorem change_password_takes_effect token_hex utcnow t_login old_password
    new_password credentials token_data user
    (users : gmap string user_manager.User) disk :
  validate_token credentials = Return token_data →
  users !! td_username token_data = Some user →
  user.(user_manager.is_active) = true →
  user.(user_manager.password_hash)
    = _hash_password old_password user.(user_manager.salt) →
  ∃ changed users',
    users' !! td_username token_data = Some changed ∧
    changed.(user_manager.salt) = token_hex ∧
    changed.(user_manager.password_hash)
      = _hash_password new_password token_hex ∧
    changed.(user_manager.last_login) = Some utcnow ∧
    change_password token_hex utcnow old_password new_password credentials
        users disk
      = (match (save_users users' disk).1 with
         | Return _ => Return "Password changed successfully"
         | Raise e => Raise e
         end, users', (save_users users' disk).2) ∧
    (authenticate t_login (td_username token_data) new_password users').1
      = Some (user_manager.set_last_login changed t_login).
Proof.
  intros Hvalid Hget Hactive Hhash. unfold auth_routes.change_password.
  rewrite Hvalid.
  rewrite (authenticate_accepts sha256_hexdigest utcnow _ old_password user
             users Hget Hactive Hhash).
  unfold user_manager.update_user. rewrite lookup_insert_eq.
  set (changed :=
         user_manager.apply_kwargs sha256_hexdigest token_hex
           (user_manager.mkKwargs None None None (Some new_password) [])
           (user_manager.set_last_login user utcnow)).
  cbn [snd].
  set (users' := <[td_username token_data := changed]> _).
  exists changed, users'. split_and!.
  - apply lookup_insert_eq.
  - done.
  - done.
  - done.
  - by destruct (save_users users' disk) as [[[]|e] disk'].
  - unfold users'.
    rewrite (authenticate_accepts sha256_hexdigest t_login _ new_password
               changed); [done|apply lookup_insert_eq|exact Hactive|done].
Qed.

(** [register] with a user name that is taken raises the 409 of
    [create_user] unchanged (it is not turned into a 400), and neither
    the store nor the disk is touched. *)
Theorem register_duplicate_conflict token_hex utcnow request
    (users : gmap string user_manager.User) disk :
  is_Some (users !! request.(auth_routes.reg_username)) →
  register token_hex utcnow request users disk
    = (Raise (HTTPException 409
                ("User " +:+ request.(auth_routes.reg_username)
                   +:+ " already exists")),
       users, disk).
Proof.
  intros [existing Hget]. unfold auth_routes.register.
  unfold user_manager.create_user. by rewrite Hget.
Qed.

(** X13: with a disk that accepts every save and a token issuer that
    does not fail, [register] for a free user name followed by [login]
    with the same name and password succeeds, and both answers carry
    the workspace ["user_" + username]. *)
Theorem register_then_login token_hex t_register t_login username email
    password (users : gmap string user_manager.User) disk :
  (∀ users d, (save_users users d).1 = Return ()) →
  (∀ name role metadata, ∃ token, create_token name role metadata = Return token) →
  users !! username = None →
  ∃ registered users1 disk1 logged_in users2 disk2,
    register token_hex t_register
        (auth_routes.mkRegisterRequest username email password) users disk
      = (Return registered, users1, disk1) ∧
    registered.(auth_routes.ur_workspace) = "user_" +:+ username ∧
    registered.(auth_routes.ur_is_active) = true ∧
    login t_login (auth_routes.mkLoginRequest username password) users1 disk1
      = (Return logged_in, users2, disk2) ∧
    auth_routes.username Token logged_in = username ∧
    auth_routes.email Token logged_in = email ∧
    auth_routes.workspace Token logged_in = "user_" +:+ username.
Proof.
  intros Hsave Hissue Hfresh.
  destruct (create_user_fresh sha256_hexdigest token_hex t_register username
              email password users Hfresh)
    as (user & Hcreate & Hname & Hemail & Hsalt & Hhash & Hactive & Hws).
  unfold auth_routes.register, auth_routes.login. simpl.
  rewrite Hcreate.
  pose proof (Hsave (<[username := user]> users) disk) as Hsave1.
  destruct (save_users (<[username := user]> users) disk) as [r1 disk1].
  simpl in Hsave1. subst r1.
  exists (auth_routes.user_response user), (<[username := user]> users), disk1.
  rewrite (authenticate_accepts sha256_hexdigest t_login username password
             user (<[username := user]> users));
    [|apply lookup_insert_eq|done|by rewrite Hhash, Hsalt].
  simpl. rewrite Hname, Hemail, Hws.
  destruct (Hissue username "user"
              [("email", PStr email);
               ("workspace", PStr ("user_" +:+ username))]) as [token ->].
  set (users2 := <[username := user_manager.set_last_login user t_login]> _).
  pose proof (Hsave users2 disk1) as Hsave2.
  destruct (save_users users2 disk1) as [r2 disk2].
  simpl in Hsave2. subst r2.
  eexists _, _, _. split_and!; try reflexivity; done.
Qed.

(** X14: when the save inside [register] raises, the caller gets an
    error (a 400 carrying the text of the exception, unless it was an
    [HTTPException]), but the new user stays in the in-memory store
    and can authenticate. *)
Theorem register_unsaved_user_stays token_hex utcnow t_login username email
    password (users : gmap string user_manager.User) disk :
  users !! username = None →
  ∃ user,
    let users1 := <[username := user]> users in
    ∀ e disk1,
      save_users users1 disk = (Raise e, disk1) →
      register token_hex utcnow
          (auth_routes.mkRegisterRequest username email password) users disk
        = (Raise (auth_routes.register_handler exn_str e), users1, disk1) ∧
      (∀ cls, e = PyException cls →
         auth_routes.register_handler exn_str e
           = HTTPException 400 (exn_str e)) ∧
      (authenticate t_login username password users1).1
        = Some (user_manager.set_last_login user t_login).
Proof.
  intros Hfresh.
  destruct (create_user_fresh sha256_hexdigest token_hex utcnow username
              email password users Hfresh)
    as (user & Hcreate & Hname & Hemail & Hsalt & Hhash & Hactive & Hws).
  exists user. intros users1 e disk1 Hsave. split_and!.
  - unfold auth_routes.register. simpl. rewrite Hcreate.
    fold users1. by rewrite Hsave.
  - by intros cls ->.
  - unfold users1.
    rewrite (authenticate_accepts sha256_hexdigest t_login username password
               user); [done|apply lookup_insert_eq|done|].
    by rewrite Hhash, Hsalt.
Qed.

(** X15: [GET /auth/me] answers from the store as it is now, not from
    the token: after the user is deleted it raises 404 "User not
    found", and after [update_user] changed the e-mail or the active
    flag it shows the new values, with the user name and workspace of
    the stored record. *)
Theorem get_current_user_reads_store credentials token_data
    (users : gmap string user_manager.User) :
  validate_token credentials = Return token_data →
  let username := td_username token_data in
  get_current_user credentials
      (user_manager.delete_user username users).2
    = Raise (HTTPException 404 "User not found") ∧
  (∀ token_hex kwargs user,
     users !! username = Some user →
     get_current_user credentials
         (update_user token_hex username kwargs users).2
       = Return {| auth_routes.ur_username := user.(user_manager.username);
                   auth_routes.ur_email :=
                     default user.(user_manager.email)
                       kwargs.(user_manager.kw_email);
                   auth_routes.ur_workspace := user.(user_manager.workspace);
                   auth_routes.ur_is_active :=
                     default user.(user_manager.is_active)
                       kwargs.(user_manager.kw_is_active) |}).
Proof.
  intros Hvalid username. unfold auth_routes.get_current_user.
  rewrite Hvalid. simpl. fold username. unfold user_manager.get_user. split.
  - unfold user_manager.delete_user.
    destruct (users !! username) eqn:Hget; simpl.
    + by rewrite lookup_delete_eq.
    + by rewrite Hget.
  - intros token_hex kwargs user Hget.
    unfold user_manager.update_user. rewrite Hget. simpl.
    rewrite lookup_insert_eq. unfold auth_routes.user_response.
    unfold user_manager.apply_kwargs.
    by destruct (user_manager.kw_password kwargs).
Qed.

End routes_properties.

(** ** More on the workspace middleware *)

Lemma startswith_app (p s : string) : startswith (p +:+ s) p = true.
Proof.
  unfold startswith. induction p as [|c p IH]; simpl.
  - by destruct s.
  - by destruct (ascii_dec c c).
Qed.

Lemma split_no_sep sep (s : string) :
  contains sep s = false → split sep s = [s].
Proof.
  unfold contains. induction s as [|c s IH]; simpl; [done|].
  destruct (Ascii.eqb c sep); [done|].
  destruct (split_once sep s) as [[? ?]|]; [done|].
  intros _. by rewrite IH.
Qed.

Section middleware_extras.

Import workspace_middleware.

Variable validate_token : string -> result TokenData.
Variable api_key : option string.

Local Abbreviation dispatch := (dispatch validate_token api_key).

Lemma has_bearer_startswith auth_header :
  has_bearer auth_header = true →
  ∃ h, auth_header = Some h ∧ startswith h "Bearer " = true.
Proof.
  destruct auth_header as [h|]; [|done]. simpl.
  intros [_ Hprefix]%andb_prop. by exists h.
Qed.

(** X16: the whitelist is matched by prefix only: a path that begins
    with a whitelisted entry, whatever follows it, is passed on with no
    identity set and without looking at any header. *)
Theorem whitelisted_prefix_bypasses whitelist_paths
    (users : gmap string user_manager.User) entry rest authorization key :
  entry ∈ whitelist_paths →
  dispatch whitelist_paths users
      (mkRequest (entry +:+ rest) authorization key)
    = Return None.
Proof.
  intros Hin. unfold workspace_middleware.dispatch. simpl.
  assert (existsb (startswith (entry +:+ rest)) whitelist_paths = true) as ->;
    [|done].
  apply existsb_exists. exists entry. split.
  - by apply list_elem_of_In.
  - apply startswith_app.
Qed.

(** X17: when the request carries a [Bearer] header the [X-API-Key]
    header is never looked at; in particular, with a key configured, a
    token that fails validation is rejected with 401 even if the
    request also presents the right API key. *)
Theorem bearer_ignores_api_key whitelist_paths
    (users : gmap string user_manager.User) path authorization :
  has_bearer authorization = true →
  (∀ key1 key2,
     dispatch whitelist_paths users (mkRequest path authorization key1)
       = dispatch whitelist_paths users (mkRequest path authorization key2)) ∧
  (∀ auth_header e,
     authorization = Some auth_header →
     validate_token (bearer_token auth_header) = Raise e →
     existsb (startswith path) whitelist_paths = false →
     str_truthy api_key = true →
     dispatch whitelist_paths users (mkRequest path authorization api_key)
       = Rejected "Invalid authentication").
Proof.
  intros Hbearer. split.
  - intros key1 key2. unfold workspace_middleware.dispatch.
    cbn [workspace_middleware.path workspace_middleware.Authorization
         workspace_middleware.X_API_Key]. by rewrite Hbearer.
  - intros auth_header e -> Hinvalid Hpath Hkey.
    destruct (has_bearer_startswith _ Hbearer) as (h & [= <-] & Hprefix).
    unfold workspace_middleware.dispatch.
    cbn [workspace_middleware.path workspace_middleware.Authorization
         workspace_middleware.X_API_Key].
    rewrite Hpath, Hbearer, Hkey. simpl.
    by rewrite (resolve_bearer_eq validate_token _ users Hprefix), Hinvalid.
Qed.

(** X18: with no API key configured [dispatch] never raises: every
    request is passed on to the handler, as an authenticated user, as
    anonymous, or (on a whitelisted path) with nothing set. *)
Theorem no_key_no_rejection whitelist_paths
    (users : gmap string user_manager.User) request :
  str_truthy api_key = false →
  ∃ state, dispatch whitelist_paths users request = Return state.
Proof.
  intros Hoff. unfold workspace_middleware.dispatch. rewrite Hoff.
  destruct (existsb _ _); [eauto|].
  destruct (has_bearer _); [|eauto].
  destruct (resolve_bearer _ _ _); eauto.
Qed.

(** X19: on a well-formed store, a request that [dispatch] lets
    through on a [Bearer] token as an authenticated user always has a
    truthy workspace on [request.state]: neither [None] nor the empty
    string. *)
Theorem bearer_identity_has_workspace whitelist_paths
    (users : gmap string user_manager.User) request st :
  user_manager.well_formed users →
  has_bearer request.(Authorization) = true →
  dispatch whitelist_paths users request = Return (Some st) →
  st.(user_authenticated) = true →
  truthy st.(workspace) = true.
Proof.
  intros Hwf Hbearer Hdispatch Hauth.
  destruct (has_bearer_startswith _ Hbearer) as (h & Hheader & Hprefix).
  revert Hdispatch. unfold workspace_middleware.dispatch.
  destruct (existsb _ _); [discriminate|].
  rewrite Hbearer, Hheader. simpl.
  rewrite (resolve_bearer_eq validate_token _ users Hprefix).
  destruct (validate_token _) as [token_data|e].
  - destruct (truthy (workspace_claim token_data)) eqn:Hclaim.
    + by intros [= <-].
    + destruct (users !! td_username token_data) as [user|] eqn:Hget.
      * intros [= <-]. simpl. by destruct (Hwf _ _ Hget) as [_ ->].
      * destruct (str_truthy api_key); [discriminate|].
        intros [= <-]. discriminate Hauth.
  - destruct (str_truthy api_key); [discriminate|].
    intros [= <-]. discriminate Hauth.
Qed.

(** The token handed to the validator is the header after
    ["Bearer "] up to its first space: a token without spaces is passed
    whole, and anything after a space is dropped. *)
Theorem bearer_token_of_header (token : string) :
  contains " " token = false →
  bearer_token ("Bearer " +:+ token) = token ∧
  ∀ rest, bearer_token ("Bearer " +:+ token +:+ " " +:+ rest) = token.
Proof.
  intros Hclean. unfold bearer_token. split.
  - change ("Bearer " +:+ token) with ("Bearer" +:+ String " " token).
    rewrite split_app_hd by done. by rewrite split_no_sep.
  - intros rest.
    change ("Bearer " +:+ token +:+ " " +:+ rest)
      with ("Bearer" +:+ String " " (token +:+ String " " rest)).
    rewrite split_app_hd by done. by rewrite split_app_hd.
Qed.

Section directories.

Variable FS : Type.
Variable path_join : string -> string -> string.
Variable makedirs : string -> FS -> result unit * FS.
Variable working_dir : string.
Variable input_dir : string.

Local Abbreviation get_user_working_dir :=
  (get_user_working_dir FS path_join makedirs working_dir).
Local Abbreviation get_user_input_dir :=
  (get_user_input_dir FS path_join makedirs input_dir).

(** X20: every request that [dispatch] lets through without a
    [Bearer] header (whitelisted path, API key, anonymous) works in
    the base directories themselves: [get_user_working_dir] and
    [get_user_input_dir] return [working_dir] and [input_dir] and
    create nothing; an authenticated user with workspace [w] gets
    [join(base, w)], created on the way. *)
Theorem unscoped_requests_share_base_dirs whitelist_paths
    (users : gmap string user_manager.User) request state fs :
  dispatch whitelist_paths users request = Return state →
  (has_bearer request.(Authorization) = false →
   get_user_working_dir state fs = (Return working_dir, fs) ∧
   get_user_input_dir state fs = (Return input_dir, fs)) ∧
  (∀ username w fs',
     state = Some (Authenticated username (PStr w)) → w ≠ EmptyString →
     makedirs (path_join working_dir w) fs = (Return (), fs') →
     get_user_working_dir state fs = (Return (path_join working_dir w), fs')).
Proof.
  intros Hdispatch. split.
  - intros Hnone. revert Hdispatch. unfold workspace_middleware.dispatch.
    rewrite Hnone.
    destruct (existsb _ _); [by intros [= <-]|].
    destruct (str_truthy api_key); [|by intros [= <-]].
    destruct (decide _); [by intros [= <-]|discriminate].
  - intros username w fs' -> Hw Hmk.
    unfold workspace_middleware.get_user_working_dir, workspace_dir. simpl.
    apply String.eqb_neq in Hw. rewrite Hw. simpl. by rewrite Hmk.
Qed.

End directories.

End middleware_extras.

(** ** The integrated server *)

Section integrated_properties.

Import integrated_auth_server.

Variable SECRET_KEY : string.
Variable read_auth_injector : result string.

Local Abbreviation create_token := (create_token SECRET_KEY).
Local Abbreviation verify_token := (verify_token SECRET_KEY).
Local Abbreviation login := (login SECRET_KEY).
Local Abbreviation verify_token_endpoint := (verify_token_endpoint SECRET_KEY).
Local Abbreviation redirect_to_main_ui := (redirect_to_main_ui SECRET_KEY).
Local Abbreviation dashboard := (dashboard read_auth_injector).

Lemma verify_fresh_token utcnow username account :
  verify_token utcnow
      (jwt.encode (token_claims utcnow username account) SECRET_KEY)
    = Return (jwt.to_payload (token_claims utcnow username account)).
Proof.
  rewrite verify_own_token.
  pose proof (timegm_floor (utcnow + timedelta_hours 48)%Z) as Hfloor.
  unfold timedelta_hours in Hfloor. simpl jwt.c_exp.
  unfold timedelta_hours.
  by destruct (Z.leb_spec (jwt.timegm (utcnow + 48 * 3600 * 1000000) * 1000000)
                 utcnow); [lia|].
Qed.

(** X21: a login with the password stored for the user succeeds, and
    the token it returns is accepted at once by [GET /auth/verify],
    which reports the user name, workspace and e-mail of that account,
    and by [GET /webui], which redirects to the dashboard of that
    user. *)
Theorem login_then_verify utcnow username account :
  USERS !! username = Some account →
  ∃ response,
    login utcnow (mkLoginRequest username account.(password))
      = Return response ∧
    response.(integrated_auth_server.username) = username ∧
    response.(token_type) = "bearer" ∧
    verify_token_endpoint utcnow response.(access_token)
      = Return {| valid := true; v_username := username;
                  v_workspace := account.(workspace);
                  v_email := account.(email) |} ∧
    redirect_to_main_ui utcnow (Some response.(access_token))
      = RedirectDashboard response.(access_token) username.
Proof.
  intros Hget. unfold integrated_auth_server.login. simpl.
  rewrite Hget, String.eqb_refl. simpl.
  unfold integrated_auth_server.create_token. rewrite Hget. simpl.
  eexists. split; [reflexivity|]. simpl. split_and!; try done.
  - unfold integrated_auth_server.verify_token_endpoint.
    by rewrite verify_fresh_token.
  - unfold integrated_auth_server.redirect_to_main_ui. simpl.
    by rewrite verify_fresh_token.
Qed.

(** X22: a token is accepted for at least 48 hours less one second
    after it was issued and never from 48 hours on: the expiry is the
    issue time plus 48 hours, cut down to whole seconds. *)
Theorem token_lifetime utcnow username token :
  create_token utcnow username = Return token →
  (∀ now, (now ≤ utcnow + 48 * 3600 * 1000000 - 1000000)%Z →
     ∃ payload, verify_token now token = Return payload) ∧
  (∀ now, (utcnow + 48 * 3600 * 1000000 ≤ now)%Z →
     verify_token now token = Raise (HTTPException 401 "Invalid token")).
Proof.
  unfold integrated_auth_server.create_token.
  destruct (USERS !! username) as [account|]; [|discriminate].
  intros [= <-].
  pose proof (timegm_floor (utcnow + timedelta_hours 48)%Z) as Hfloor.
  unfold timedelta_hours in Hfloor.
  split; intros now Hnow; rewrite verify_own_token; simpl jwt.c_exp;
    unfold timedelta_hours;
    destruct (Z.leb_spec
                (jwt.timegm (utcnow + 48 * 3600 * 1000000) * 1000000) now);
    try lia; eauto.
Qed.

(** [verify_token] returns a payload exactly for a token signed
    with the server's secret whose expiry lies in the future, and the
    payload is the one inside the token; for every other token,
    malformed ones included, it raises 401 "Invalid token" and nothing
    else. *)
Theorem verify_token_accepts_exactly now token :
  (∀ payload,
     verify_token now token = Return payload ↔
     token = jwt.Signed payload SECRET_KEY ∧ (now < payload.(jwt.exp) * 1000000)%Z) ∧
  ((∃ payload, verify_token now token = Return payload) ∨
   verify_token now token = Raise (HTTPException 401 "Invalid token")).
Proof.
  unfold integrated_auth_server.verify_token, jwt.decode. split.
  - intros payload. destruct token as [p key|s]; simpl; [|split; [done|by intros [? _]]].
    destruct (String.eqb_spec key SECRET_KEY) as [->|Hne]; simpl.
    + destruct (Z.leb_spec (jwt.exp p * 1000000) now); simpl.
      * split; [done|]. intros [[= ->] ?]. lia.
      * split; [by intros [= ->]|by intros [[= ->] _]].
    + split; [done|]. intros [[= _ ?] _]. done.
  - destruct token as [p key|s]; simpl; [|by right].
    destruct (String.eqb key SECRET_KEY); simpl; [|by right].
    destruct (_ <=? _)%Z; simpl; eauto.
Qed.

(** X23: [GET /webui] sends a caller whose token does not verify back
    to the login page, but [GET /dashboard] never verifies its token:
    any non-empty token, forged or expired, gets the dashboard page
    (or the error of reading its file). *)
Theorem dashboard_skips_verification now token user e :
  token_truthy (Some token) = true →
  verify_token now token = Raise e →
  redirect_to_main_ui now (Some token) = RedirectLogin ∧
  dashboard (Some token) user
    = match read_auth_injector with
      | Return html_content => Return (HTMLResponse html_content)
      | Raise e => Raise e
      end.
Proof.
  intros Htruthy Hinvalid. split.
  - unfold integrated_auth_server.redirect_to_main_ui.
    by rewrite Htruthy, Hinvalid.
  - unfold integrated_auth_server.dashboard. rewrite Htruthy. simpl.
    by destruct read_auth_injector.
Qed.

End integrated_properties.

(** ** More on the engine cache *)

Section registry_extras.

Import lightrag_server_auth.

Variable global_working_dir : string.
Variable path_join : string -> string -> string.

Local Abbreviation start := (start global_working_dir path_join).
Local Abbreviation step := (step global_working_dir path_join).
Local Abbreviation run_task := (run_task global_working_dir path_join).
Local Abbreviation run := (run global_working_dir path_join).
Local Abbreviation get_or_create_rag :=
  (get_or_create_rag global_working_dir path_join).

(** A property of the cache and the calls that every stretch of every
    call keeps is kept by every schedule. *)
Lemma run_invariant (P : World → list task → Prop) :
  (∀ init t W calls i,
     P W calls → calls !! i = Some t →
     P (step init t W).1 (<[i := (step init t W).2]> calls)) →
  ∀ schedule W calls,
    P W calls →
    P (run schedule (W, calls)).1 (run schedule (W, calls)).2.
Proof.
  intros Hstep schedule.
  induction schedule as [|[i init] schedule IH]; intros W calls HP; [done|].
  rewrite (run_cons global_working_dir path_join).
  assert (run_task (i, init) (W, calls)
          = match calls !! i with
            | Some t => ((step init t W).1, <[i := (step init t W).2]> calls)
            | None => (W, calls)
            end) as -> by reflexivity.
  destruct (calls !! i) as [t|] eqn:Hget.
  - apply IH. by apply Hstep.
  - by apply IH.
Qed.

(** X24: when the initialization of a new engine raises, the call ends
    with that exception and the cache gets no entry for the workspace,
    so the next call for it constructs a fresh engine and, if its
    initialization succeeds, caches and returns that one. *)
Theorem failed_initialization_can_be_retried workspace e W :
  W.(rag_instances) !! default "default" workspace = None →
  let key := default "default" workspace in
  let failed := get_or_create_rag workspace (Raise e) W in
  failed.2 = Failed e ∧
  failed.1.(rag_instances) = W.(rag_instances) ∧
  length failed.1.(constructed) = S (length W.(constructed)) ∧
  ∃ W' rag,
    get_or_create_rag workspace (Return ()) failed.1 = (W', Done rag) ∧
    rag.(rag_id) = S (length W.(constructed)) ∧
    W'.(rag_instances) !! key = Some rag ∧
    length W'.(constructed) = S (S (length W.(constructed))).
Proof.
  intros Hmiss key failed.
  set (rag := mkLightRAG (length W.(constructed))
                (path_join global_working_dir key) key).
  set (W1 := mkWorld W.(rag_instances) (W.(constructed) ++ [rag])
               (W.(made_dirs) ++ [path_join global_working_dir key])).
  assert (failed = (W1, Failed e)) as ->.
  { unfold failed, lightrag_server_auth.get_or_create_rag.
    by rewrite (start_miss global_working_dir path_join _ _ Hmiss). }
  cbn [fst snd].
  split_and!; [done|done|simpl; by rewrite length_app, Nat.add_1_r|].
  unfold lightrag_server_auth.get_or_create_rag.
  rewrite (start_miss global_working_dir path_join workspace W1 Hmiss).
  rewrite resume_ok. eexists _, _. split; [reflexivity|]. simpl.
  split_and!.
  - by rewrite length_app, Nat.add_1_r.
  - apply lookup_insert_eq.
  - by rewrite !length_app, !Nat.add_1_r.
Qed.

Lemma step_call_for key init t W :
  call_for key t →
  call_for key (step init t W).2 ∧
  ∀ other, other ≠ key →
    (step init t W).1.(rag_instances) !! other = W.(rag_instances) !! other.
Proof.
  destruct t as [workspace|key' rag|rag|e]; simpl; intros Hfor; try done.
  - unfold lightrag_server_auth.start.
    by destruct (rag_instances W !! default "default" workspace).
  - subst key'. unfold resume. destruct init as [[]|e]; [|done].
    cbn [rag_instances]. rewrite lookup_insert_eq. split; [done|].
    intros other Hne. simpl. by rewrite lookup_insert_ne.
Qed.

(** X25: calls for one workspace never touch the cache entry of
    another: whatever the schedule, including failed initializations,
    after any number of calls for [key] every other key of the cache
    holds what it held before. *)
Theorem other_workspaces_untouched key schedule W calls :
  Forall (call_for key) calls →
  ∀ other, other ≠ key →
    (run schedule (W, calls)).1.(rag_instances) !! other
      = W.(rag_instances) !! other.
Proof.
  intros Hcalls.
  apply (run_invariant
           (λ W' calls',
              Forall (call_for key) calls' ∧
              ∀ other, other ≠ key →
                W'.(rag_instances) !! other = W.(rag_instances) !! other));
    [|done].
  intros init t W' calls' i [Hfor Hsame] Hget.
  destruct (step_call_for key init t W' (Forall_lookup_1 _ _ _ _ Hfor Hget))
    as [Hfor' Hstep].
  split.
  - by apply Forall_insert.
  - intros other Hne. rewrite Hstep by done. by apply Hsame.
Qed.

Lemma step_consistent init t W :
  cache_consistent W → call_consistent t →
  cache_consistent (step init t W).1 ∧ call_consistent (step init t W).2.
Proof.
  intros Hcache Hcall.
  destruct t as [workspace|key rag|rag|e]; simpl; try done.
  - unfold lightrag_server_auth.start.
    by destruct (rag_instances W !! default "default" workspace).
  - simpl in Hcall. unfold resume. destruct init as [[]|e]; [|done].
    cbn [rag_instances]. rewrite lookup_insert_eq. split; [|done].
    intros key' rag' Hget. simpl in Hget.
    destruct (decide (key = key')) as [<-|Hne].
    + rewrite lookup_insert_eq in Hget. by injection Hget as <-.
    + rewrite lookup_insert_ne in Hget by done. by apply Hcache.
Qed.

(** X26: every engine is cached under the workspace it was built for:
    under every schedule the cache stays consistent, and a call for a
    workspace never returns an engine of another one. *)
Theorem cache_stays_consistent W :
  cache_consistent W →
  (∀ schedule calls,
     Forall call_consistent calls →
     cache_consistent (run schedule (W, calls)).1) ∧
  (∀ workspace init W' rag,
     get_or_create_rag workspace init W = (W', Done rag) →
     rag.(lightrag_server_auth.workspace) = default "default" workspace ∧
     cache_consistent W').
Proof.
  intros Hcache. split.
  - intros schedule calls Hcalls.
    apply (run_invariant
             (λ W' calls', cache_consistent W' ∧ Forall call_consistent calls'));
      [|done].
    intros init t W' calls' i [Hcache' Hcalls'] Hget.
    destruct (step_consistent init t W' Hcache'
                (Forall_lookup_1 _ _ _ _ Hcalls' Hget)).
    split; [done|]. by apply Forall_insert.
  - intros workspace init W' rag.
    unfold lightrag_server_auth.get_or_create_rag,
      lightrag_server_auth.start.
    destruct (rag_instances W !! default "default" workspace) as [cached|]
      eqn:Hget.
    + intros [= <- <-]. split; [by apply Hcache|done].
    + unfold resume. destruct init as [[]|e]; [|discriminate].
      cbn [rag_instances]. rewrite lookup_insert_eq.
      intros [= <- <-]. split; [done|].
      intros key' rag' Hget'. simpl in Hget'.
      destruct (decide (default "default" workspace = key')) as [<-|Hne].
      * rewrite lookup_insert_eq in Hget'. by injection Hget' as <-.
      * rewrite lookup_insert_ne in Hget' by done. by apply Hcache.
Qed.

Lemma not_started_insert calls : ∀ i t t',
  calls !! i = Some t →
  not_started (<[i := t']> calls) + (if is_pending t then 1 else 0)
    = not_started calls + (if is_pending t' then 1 else 0).
Proof.
  unfold not_started.
  induction calls as [|c calls IH]; intros i t t' Hget; [done|].
  destruct i as [|i]; simpl in *.
  - injection Hget as ->. destruct (is_pending t), (is_pending t'); simpl; lia.
  - specialize (IH i t t' Hget).
    destruct (is_pending c); simpl; lia.
Qed.

Lemma step_constructs init t W :
  is_pending (step init t W).2 = false ∧
  (is_pending t = false →
   length (step init t W).1.(constructed) = length W.(constructed)) ∧
  length (step init t W).1.(constructed) ≤ S (length W.(constructed)).
Proof.
  destruct t as [workspace|key rag|rag|e]; simpl.
  - unfold lightrag_server_auth.start.
    destruct (rag_instances W !! default "default" workspace); simpl;
      rewrite ?length_app; simpl; split_and!; try done; lia.
  - unfold resume. destruct init as [[]|e]; simpl;
      rewrite ?lookup_insert_eq; simpl; split_and!; try done; lia.
  - split_and!; try done; lia.
  - split_and!; try done; lia.
Qed.

(** X27: under every schedule each call constructs at most one engine,
    and only when it starts: the number of engines constructed plus
    the number of calls not yet started never grows, so [n] calls
    construct at most [n] engines however they are interleaved. *)
Theorem constructions_bounded schedule W calls :
  let after := run schedule (W, calls) in
  length after.1.(constructed) + not_started after.2
    ≤ length W.(constructed) + not_started calls ∧
  length after.1.(constructed) ≤ length W.(constructed) + length calls.
Proof.
  cbv zeta.
  assert (length (run schedule (W, calls)).1.(constructed)
            + not_started (run schedule (W, calls)).2
          ≤ length W.(constructed) + not_started calls) as Hbound.
  { apply (run_invariant
             (λ W' calls',
                length W'.(constructed) + not_started calls'
                  ≤ length W.(constructed) + not_started calls)); [|done].
    intros init t W' calls' i Hle Hget.
    pose proof (not_started_insert calls' i t (step init t W').2 Hget) as Hins.
    destruct (step_constructs init t W') as (Hdone & Hsame & Hone).
    rewrite Hdone in Hins.
    destruct (is_pending t); [lia|]. specialize (Hsame eq_refl). lia. }
  split; [exact Hbound|].
  assert (not_started calls ≤ length calls)
    by (unfold not_started; apply List.filter_length_le).
  lia.
Qed.

End registry_extras.

(** ** The command-line tool *)

Section cli_properties.

Import manage_users.

Variable sha256_hexdigest : string -> string.
Variable Disk : Type.
Variable save_users : gmap string user_manager.User -> Disk -> result unit * Disk.

Local Abbreviation authenticate := (user_manager.authenticate sha256_hexdigest).
Local Abbreviation _hash_password :=
  (user_manager._hash_password sha256_hexdigest).
Local Abbreviation toggle_user_status :=
  (toggle_user_status sha256_hexdigest Disk save_users).
Local Abbreviation reset_password :=
  (reset_password sha256_hexdigest Disk save_users).

Lemma toggle_once username user (users : gmap string user_manager.User) d :
  (∀ users d, (save_users users d).1 = Return ()) →
  username ≠ EmptyString →
  users !! username = Some user →
  let toggled :=
    user_manager.apply_kwargs sha256_hexdigest EmptyString
      (user_manager.mkKwargs None (Some (negb user.(user_manager.is_active)))
         None None []) user in
  toggle_user_status username users d
    = mkRun [User_status username (negb user.(user_manager.is_active))] None
        (<[username := toggled]> users)
        (save_users (<[username := toggled]> users) d).2.
Proof.
  intros Hsave Hname Hget toggled.
  unfold manage_users.toggle_user_status.
  apply String.eqb_neq in Hname. rewrite Hname.
  unfold user_manager.get_user, user_manager.update_user.
  rewrite Hget. cbn [snd]. fold toggled.
  pose proof (Hsave (<[username := toggled]> users) d) as Hok.
  destruct (save_users (<[username := toggled]> users) d) as [r d'].
  simpl in Hok. by subst r.
Qed.

(** X29: on a disk that accepts the saves, [toggle_user_status] flips
    the active flag and nothing else; while the account is disabled
    [authenticate] refuses every password; a second toggle gives back
    exactly the store there was before the first. *)
Theorem toggle_twice_restores username user
    (users : gmap string user_manager.User) d :
  (∀ users d, (save_users users d).1 = Return ()) →
  username ≠ EmptyString →
  users !! username = Some user →
  let once := toggle_user_status username users d in
  let twice := toggle_user_status username once.(store) once.(disk) in
  once.(raised) = None ∧
  once.(printed) = [User_status username (negb user.(user_manager.is_active))] ∧
  (user.(user_manager.is_active) = true →
   ∀ utcnow password,
     authenticate utcnow username password once.(store)
       = (None, once.(store))) ∧
  twice.(store) = users ∧
  twice.(printed) = [User_status username user.(user_manager.is_active)].
Proof.
  intros Hsave Hname Hget once twice. subst twice once.
  rewrite (toggle_once username user users d Hsave Hname Hget).
  cbn [store disk raised printed].
  set (toggled := user_manager.apply_kwargs _ _ _ user).
  rewrite (toggle_once username toggled _ _ Hsave Hname
             (lookup_insert_eq _ _ _)).
  cbn [store disk raised printed].
  split_and!; try done.
  - intros Hactive utcnow password. unfold user_manager.authenticate.
    rewrite lookup_insert_eq. unfold toggled. simpl. by rewrite Hactive.
  - rewrite insert_insert_eq. apply insert_id. rewrite Hget. f_equal.
    unfold toggled. destruct user as [? ? ? ? ? ? active ? ?]. simpl.
    by rewrite negb_involutive.
  - unfold toggled. simpl. by rewrite negb_involutive.
Qed.

(** X30: [reset_password] changes nothing unless the two password
    entries agree; when they do, the new password is in force in
    memory before the save is attempted, so an active account accepts
    it whether or not the save succeeded. *)
Theorem cli_reset_password_takes_effect token_hex utcnow username password
    user (users : gmap string user_manager.User) d :
  username ≠ EmptyString →
  users !! username = Some user →
  (∀ confirm, confirm ≠ password →
     reset_password token_hex username password confirm users d
       = mkRun [Passwords_do_not_match] None users d) ∧
  (user.(user_manager.is_active) = true →
   ∃ logged_in users',
     authenticate utcnow username password
         (reset_password token_hex username password password users d).(store)
       = (Some logged_in, users')).
Proof.
  intros Hname Hget. apply String.eqb_neq in Hname.
  unfold manage_users.reset_password. rewrite Hname.
  unfold user_manager.get_user. rewrite Hget. split.
  - intros confirm Hne.
    assert (String.eqb password confirm = false) as ->; [|done].
    apply String.eqb_neq. congruence.
  - intros Hactive. rewrite String.eqb_refl. cbn [negb].
    unfold user_manager.update_user. rewrite Hget. cbn [snd].
    set (changed := user_manager.apply_kwargs _ _ _ user).
    assert (authenticate utcnow username password
              (<[username := changed]> users)
            = (Some (user_manager.set_last_login changed utcnow),
               <[username := user_manager.set_last_login changed utcnow]>
                 (<[username := changed]> users))) as Hlogin.
    { apply authenticate_accepts;
        [apply lookup_insert_eq|exact Hactive|done]. }
    destruct (save_users (<[username := changed]> users) d) as [[[]|e] d'];
      cbn [store]; rewrite Hlogin; eauto.
Qed.

End cli_properties.

(** * More concrete runs *)

(** ** The credential store *)

Lemma well_formed_empty : user_manager.well_formed ∅.
Proof. intros key user Hget. by rewrite lookup_empty in Hget. Qed.

Lemma alice_store_well_formed : user_manager.well_formed fixtures.alice_store.
Proof.
  unfold fixtures.alice_store. simpl.
  by apply well_formed_insert; [apply well_formed_empty|..].
Qed.

Lemma alice_lookup :
  fixtures.alice_store !! "alice"
  = Some (user_manager.mkUser "alice" "alice@example.com"
            "sha256(secret15f3a)" "5f3a" 1000 None true "user_alice" []).
Proof. vm_compute. reflexivity. Qed.

Lemma deleted_user_cannot_authenticate_witness :
  user_manager.authenticate fixtures.digest 2000 "alice" "secret1"
    (user_manager.delete_user "alice" fixtures.alice_store).2
  = (None, (user_manager.delete_user "alice" fixtures.alice_store).2).
Proof.
  exact (deleted_user_cannot_authenticate fixtures.digest 2000 "alice"
           "secret1" fixtures.alice_store).
Defined.

Lemma authenticate_success_frame_witness :
  ∃ user,
    fixtures.alice_store !! "alice" = Some user ∧
    user.(user_manager.is_active) = true ∧
    user.(user_manager.password_hash) = "sha256(secret15f3a)".
Proof.
  destruct (authenticate_success_frame fixtures.digest 2000 "alice" "secret1"
              fixtures.alice_store _ _ eq_refl)
    as (user & Hget & Hactive & Hhash & _).
  exists user. split_and!; [exact Hget|exact Hactive|].
  rewrite Hhash. rewrite alice_lookup in Hget.
  by injection Hget as <-.
Defined.

Lemma well_formed_preserved_witness :
  user_manager.well_formed fixtures.alice_store ∧
  user_manager.well_formed
    (user_manager.update_user fixtures.digest "77aa" "alice"
       (user_manager.mkKwargs (Some "a@b.c") None None (Some "new")
          [("workspace", PStr "user_admin")])
       fixtures.alice_store).2.
Proof.
  split; [exact alice_store_well_formed|].
  apply (well_formed_preserved fixtures.digest fixtures.alice_store
           alice_store_well_formed).
Defined.

Lemma password_change_takes_effect_witness :
  (∃ logged_in users'',
     user_manager.authenticate fixtures.digest 3000 "alice" "secret2"
       (user_manager.update_user fixtures.digest "77aa" "alice"
          (user_manager.mkKwargs None None None (Some "secret2") [])
          fixtures.alice_store).2
     = (Some logged_in, users'')) ∧
  (user_manager.authenticate fixtures.digest 3000 "alice" "secret1"
     (user_manager.update_user fixtures.digest "77aa" "alice"
        (user_manager.mkKwargs None None None (Some "secret2") [])
        fixtures.alice_store).2).1 = None.
Proof.
  destruct (password_change_takes_effect fixtures.digest "77aa" 3000 "alice"
              "secret2"
              (user_manager.mkKwargs None None None (Some "secret2") [])
              (user_manager.mkUser "alice" "alice@example.com"
                 "sha256(secret15f3a)" "5f3a" 1000 None true "user_alice" [])
              fixtures.alice_store eq_refl eq_refl)
    as [Hnew Hold].
  split.
  - apply Hnew. reflexivity.
  - rewrite (Hold "secret1"); [reflexivity|discriminate].
Defined.

Lemma deactivated_user_cannot_authenticate_witness :
  (user_manager.authenticate fixtures.digest 3000 "alice" "secret1"
     (user_manager.update_user fixtures.digest "77aa" "alice"
        (user_manager.mkKwargs None (Some false) None None [])
        fixtures.alice_store).2).1 = None.
Proof.
  by rewrite (deactivated_user_cannot_authenticate fixtures.digest "77aa" 3000
                "alice" "secret1"
                (user_manager.mkKwargs None (Some false) None None [])
                fixtures.alice_store eq_refl).
Defined.

Lemma deleted_name_registers_again_witness :
  ∃ user,
    (user_manager.create_user fixtures.digest "9c41" 3000 "alice"
       "mallory@example.com" "hunter2"
       (user_manager.delete_user "alice" fixtures.alice_store).2).1
      = Return user ∧
    user.(user_manager.workspace) = "user_alice".
Proof.
  destruct (deleted_name_registers_again fixtures.digest "9c41" 3000 "alice"
              "mallory@example.com" "hunter2" fixtures.alice_store)
    as (user & Hcreate & Hws & Hsame).
  exists user. split; [by rewrite Hcreate|].
  rewrite (Hsame _ alice_store_well_formed alice_lookup).
  reflexivity.
Defined.

(** ** The seed list *)

Example seed_list_run :
  (user_manager._init_from_env fixtures.digest
     (Some "admin:pa:ss,bob@bosch.com:pw,broken,admin:again")
     fixtures.salt_at fixtures.clock_at ∅).2
  = [Error_creating_user_from_env (PyException "ValueError");
     Error_creating_user_from_env
       (HTTPException 409 "User admin already exists")].
Proof. vm_compute. reflexivity. Qed.

Lemma init_from_env_keeps_existing_witness :
  (user_manager._init_from_env fixtures.digest (Some "alice:other,bob:pw")
     fixtures.salt_at fixtures.clock_at fixtures.alice_store).1 !! "alice"
  = fixtures.alice_store !! "alice" ∧
  user_manager.well_formed
    (user_manager._init_from_env fixtures.digest (Some "alice:other,bob:pw")
       fixtures.salt_at fixtures.clock_at fixtures.alice_store).1.
Proof.
  destruct (init_from_env_keeps_existing fixtures.digest
              (Some "alice:other,bob:pw") fixtures.salt_at fixtures.clock_at
              fixtures.alice_store) as (Hkeep & Hwf & _).
  split.
  - rewrite (Hkeep "alice" _ alice_lookup).
    symmetry. apply alice_lookup.
  - apply Hwf, alice_store_well_formed.
Defined.

Lemma init_account_plain_witness :
  ∃ user,
    user_manager.init_account fixtures.digest "01ab" 500 "admin:pa:ss" ∅
      = (<["admin" := user]> ∅, []) ∧
    user.(user_manager.email) = "admin@bosch.com" ∧
    (user_manager.authenticate fixtures.digest 600 "admin" "pa:ss"
       (<["admin" := user]> ∅)).1
      = Some (user_manager.set_last_login user 600).
Proof.
  destruct (init_account_plain fixtures.digest "01ab" 500 600 "admin" "pa:ss"
              ∅ eq_refl eq_refl (lookup_empty _))
    as (user & Hinit & _ & Hemail & _ & Hlogin).
  exists user. split_and!; [exact Hinit|exact Hemail|by rewrite Hlogin].
Defined.

Lemma init_account_email_witness :
  ∃ user,
    user_manager.init_account fixtures.digest "01ab" 500 "bob@bosch.com:pw" ∅
      = (<["bob" := user]> ∅, []) ∧
    user.(user_manager.email) = "bob@bosch.com" ∧
    user.(user_manager.workspace) = "user_bob".
Proof.
  destruct (init_account_email fixtures.digest "01ab" 500 "bob" "bosch.com"
              "pw" ∅ eq_refl eq_refl (lookup_empty _))
    as (user & Hinit & _ & Hemail & Hws).
  exists user. split_and!; [exact Hinit|exact Hemail|exact Hws].
Defined.

Lemma init_account_skips_bad_entries_witness :
  user_manager.init_account fixtures.digest "01ab" 500 "broken"
    fixtures.alice_store
  = (fixtures.alice_store,
     [Error_creating_user_from_env (PyException "ValueError")]) ∧
  user_manager.init_account fixtures.digest "01ab" 500 "alice:other"
    fixtures.alice_store
  = (fixtures.alice_store,
     [Error_creating_user_from_env
        (HTTPException 409 "User alice already exists")]).
Proof.
  destruct (init_account_skips_bad_entries fixtures.digest "01ab" 500
              fixtures.alice_store) as [Hbroken Htaken].
  split.
  - apply Hbroken. reflexivity.
  - apply (Htaken "alice" "other"); [reflexivity|reflexivity|].
    rewrite alice_lookup. eauto.
Defined.

(** ** The authentication routes *)

Lemma change_password_wrong_old_password_witness :
  auth_routes.change_password fixtures.digest string
    (option (gmap string user_manager.User)) fixtures.save_ok
    workspace_middleware.TokenData fixtures.validate
    workspace_middleware.td_username "77aa" 3000 "guess" "secret2"
    "alice-token" fixtures.alice_store None
  = (Raise (HTTPException 401 "Invalid password"), fixtures.alice_store, None).
Proof.
  apply (change_password_wrong_old_password fixtures.digest string
           (option (gmap string user_manager.User)) fixtures.save_ok
           workspace_middleware.TokenData fixtures.validate
           workspace_middleware.td_username "77aa" 3000 "guess" "secret2"
           "alice-token" _ fixtures.alice_store None eq_refl).
  right. eexists. split; [exact alice_lookup|]. right. discriminate.
Defined.

Lemma change_password_takes_effect_witness :
  ∃ changed users',
    auth_routes.change_password fixtures.digest string
      (option (gmap string user_manager.User)) fixtures.save_fails
      workspace_middleware.TokenData fixtures.validate
      workspace_middleware.td_username "77aa" 3000 "secret1" "secret2"
      "alice-token" fixtures.alice_store None
    = (Raise (PyException "OSError"), users', None) ∧
    users' !! "alice" = Some changed ∧
    changed.(user_manager.password_hash) = "sha256(secret277aa)" ∧
    (user_manager.authenticate fixtures.digest 4000 "alice" "secret2" users').1
      = Some (user_manager.set_last_login changed 4000).
Proof.
  destruct (change_password_takes_effect fixtures.digest string
              (option (gmap string user_manager.User)) fixtures.save_fails
              workspace_middleware.TokenData fixtures.validate
              workspace_middleware.td_username "77aa" 3000 4000 "secret1"
              "secret2" "alice-token" _ _ fixtures.alice_store None eq_refl
              alice_lookup eq_refl eq_refl)
    as (changed & users' & Hget & _ & Hhash & _ & Hrun & Hlogin).
  exists changed, users'. split_and!.
  - exact Hrun.
  - exact Hget.
  - exact Hhash.
  - exact Hlogin.
Defined.

Lemma register_then_login_witness :
  ∃ logged_in users2 disk2,
    auth_routes.login fixtures.digest string fixtures.issue
      (option (gmap string user_manager.User)) fixtures.save_ok 2000
      (auth_routes.mkLoginRequest "alice" "secret1") fixtures.alice_store
      (Some fixtures.alice_store)
    = (Return logged_in, users2, disk2) ∧
    auth_routes.workspace string logged_in = "user_alice".
Proof.
  destruct (register_then_login fixtures.digest string fixtures.issue
              (option (gmap string user_manager.User)) fixtures.save_ok
              fixtures.str_exn "5f3a" 1000 2000 "alice" "alice@example.com"
              "secret1" ∅ None)
    as (registered & users1 & disk1 & logged_in & users2 & disk2
        & Hregister & _ & _ & Hlogin & _ & _ & Hws).
  - reflexivity.
  - intros name role metadata. by eexists.
  - apply lookup_empty.
  - injection Hregister as _ <- <-.
    exists logged_in, users2, disk2. split; [exact Hlogin|exact Hws].
Defined.

Lemma register_unsaved_user_stays_witness :
  ∃ user,
    auth_routes.register fixtures.digest
      (option (gmap string user_manager.User)) fixtures.save_fails
      fixtures.str_exn "5f3a" 1000
      (auth_routes.mkRegisterRequest "alice" "alice@example.com" "secret1")
      ∅ None
    = (Raise (HTTPException 400 "OSError"), <["alice" := user]> ∅, None) ∧
    (user_manager.authenticate fixtures.digest 2000 "alice" "secret1"
       (<["alice" := user]> ∅)).1
      = Some (user_manager.set_last_login user 2000).
Proof.
  destruct (register_unsaved_user_stays fixtures.digest
              (option (gmap string user_manager.User)) fixtures.save_fails
              fixtures.str_exn "5f3a" 1000 2000 "alice" "alice@example.com"
              "secret1" ∅ None (lookup_empty _)) as [user Huser].
  exists user.
  destruct (Huser (PyException "OSError") None eq_refl)
    as (Hregister & _ & Hlogin).
  split; [exact Hregister|exact Hlogin].
Defined.

Lemma get_current_user_reads_store_witness :
  auth_routes.get_current_user string workspace_middleware.TokenData
    fixtures.validate workspace_middleware.td_username "alice-token"
    (user_manager.delete_user "alice" fixtures.alice_store).2
  = Raise (HTTPException 404 "User not found") ∧
  auth_routes.get_current_user string workspace_middleware.TokenData
    fixtures.validate workspace_middleware.td_username "alice-token"
    (user_manager.update_user fixtures.digest "77aa" "alice"
       (user_manager.mkKwargs (Some "new@example.com") None None None [])
       fixtures.alice_store).2
  = Return (auth_routes.mkUserResponse "alice" "new@example.com" "user_alice"
              true).
Proof.
  destruct (get_current_user_reads_store fixtures.digest string
              workspace_middleware.TokenData fixtures.validate
              workspace_middleware.td_username "alice-token" _
              fixtures.alice_store eq_refl) as [Hdeleted Hupdated].
  split; [exact Hdeleted|].
  exact (Hupdated "77aa"
           (user_manager.mkKwargs (Some "new@example.com") None None None [])
           _ alice_lookup).
Defined.

(** ** The workspace middleware *)

Lemma whitelisted_prefix_bypasses_witness :
  workspace_middleware.dispatch fixtures.validate (Some "static-key")
    lightrag_server_auth.authenticated_whitelist_paths fixtures.alice_store
    (workspace_middleware.mkRequest "/docs-internal/secrets" None None)
  = Return None.
Proof.
  apply (whitelisted_prefix_bypasses fixtures.validate (Some "static-key")
           lightrag_server_auth.authenticated_whitelist_paths
           fixtures.alice_store "/docs" "-internal/secrets" None None).
  unfold lightrag_server_auth.authenticated_whitelist_paths.
  do 2 apply list_elem_of_further. apply list_elem_of_here.
Defined.

Lemma bearer_ignores_api_key_witness :
  workspace_middleware.dispatch fixtures.validate (Some "static-key")
    workspace_middleware.default_whitelist_paths fixtures.alice_store
    (workspace_middleware.mkRequest "/documents" (Some "Bearer junk")
       (Some "static-key"))
  = Raise (HTTPException 401 "Invalid authentication").
Proof.
  destruct (bearer_ignores_api_key fixtures.validate (Some "static-key")
              workspace_middleware.default_whitelist_paths
              fixtures.alice_store "/documents" (Some "Bearer junk") eq_refl)
    as [_ Hreject].
  exact (Hreject "Bearer junk" (HTTPException 401 "Invalid token") eq_refl
           eq_refl eq_refl eq_refl).
Defined.

Lemma no_key_no_rejection_witness :
  ∃ state,
    workspace_middleware.dispatch fixtures.validate None
      workspace_middleware.default_whitelist_paths fixtures.alice_store
      (workspace_middleware.mkRequest "/documents" (Some "Bearer junk") None)
    = Return state.
Proof.
  exact (no_key_no_rejection fixtures.validate None
           workspace_middleware.default_whitelist_paths fixtures.alice_store
           (workspace_middleware.mkRequest "/documents" (Some "Bearer junk")
              None) eq_refl).
Defined.

Lemma bearer_identity_has_workspace_witness :
  truthy (PStr "user_alice") = true.
Proof.
  exact (bearer_identity_has_workspace fixtures.validate (Some "static-key")
           workspace_middleware.default_whitelist_paths fixtures.alice_store
           (workspace_middleware.mkRequest "/documents"
              (Some "Bearer alice-old-token") None)
           (workspace_middleware.Authenticated "alice" (PStr "user_alice"))
           alice_store_well_formed eq_refl eq_refl eq_refl).
Defined.

Lemma unscoped_requests_share_base_dirs_witness :
  workspace_middleware.get_user_working_dir (list string) fixtures.join
    fixtures.mkdir "./rag_storage"
    (Some workspace_middleware.ApiKeyAuthenticated) []
  = (Return "./rag_storage", []) ∧
  workspace_middleware.get_user_input_dir (list string) fixtures.join
    fixtures.mkdir "./inputs"
    (Some workspace_middleware.ApiKeyAuthenticated) []
  = (Return "./inputs", []).
Proof.
  destruct (unscoped_requests_share_base_dirs fixtures.validate
              (Some "static-key") (list string) fixtures.join fixtures.mkdir
              "./rag_storage" "./inputs"
              workspace_middleware.default_whitelist_paths
              fixtures.alice_store
              (workspace_middleware.mkRequest "/documents" None
                 (Some "static-key"))
              (Some workspace_middleware.ApiKeyAuthenticated) [] eq_refl)
    as [Hbase _].
  exact (Hbase eq_refl).
Defined.

(** ** The integrated server *)

Lemma login_then_verify_witness :
  ∃ response,
    integrated_auth_server.login "bosch-graph2rag-secret-2025" 1500000
      (integrated_auth_server.mkLoginRequest "demo" "demo123")
    = Return response ∧
    integrated_auth_server.verify_token_endpoint "bosch-graph2rag-secret-2025"
      1500000 response.(integrated_auth_server.access_token)
    = Return (integrated_auth_server.mkVerifyResponse true "demo" "user_demo"
                "demo@bosch.com").
Proof.
  destruct (login_then_verify "bosch-graph2rag-secret-2025" 1500000 "demo"
              (integrated_auth_server.mkAccount "demo123" "demo@bosch.com"
                 "user_demo") eq_refl)
    as (response & Hlogin & _ & _ & Hverify & _).
  exists response. split; [exact Hlogin|exact Hverify].
Defined.

Lemma token_lifetime_witness :
  (∃ payload,
     integrated_auth_server.verify_token "bosch-graph2rag-secret-2025"
       172800500000
       (jwt.Signed (jwt.mkPayload "demo" 172801 "user_demo" "demo@bosch.com")
          "bosch-graph2rag-secret-2025")
     = Return payload) ∧
  integrated_auth_server.verify_token "bosch-graph2rag-secret-2025"
    172801500000
    (jwt.Signed (jwt.mkPayload "demo" 172801 "user_demo" "demo@bosch.com")
       "bosch-graph2rag-secret-2025")
  = Raise (HTTPException 401 "Invalid token").
Proof.
  destruct (token_lifetime "bosch-graph2rag-secret-2025" 1500000 "demo"
              (jwt.Signed
                 (jwt.mkPayload "demo" 172801 "user_demo" "demo@bosch.com")
                 "bosch-graph2rag-secret-2025") eq_refl)
    as [Hvalid Hexpired].
  split.
  - apply Hvalid. vm_compute. discriminate.
  - apply Hexpired. vm_compute. discriminate.
Defined.

Lemma dashboard_skips_verification_witness :
  let forged :=
    jwt.Signed (jwt.mkPayload "admin" 999999999 "user_admin" "admin@bosch.com")
      "attacker-key" in
  integrated_auth_server.redirect_to_main_ui "bosch-graph2rag-secret-2025" 0
    (Some forged)
  = integrated_auth_server.RedirectLogin ∧
  integrated_auth_server.dashboard (Return "<html>") (Some forged) (Some "admin")
  = Return (integrated_auth_server.HTMLResponse "<html>").
Proof.
  exact (dashboard_skips_verification "bosch-graph2rag-secret-2025"
           (Return "<html>") 0
           (jwt.Signed
              (jwt.mkPayload "admin" 999999999 "user_admin" "admin@bosch.com")
              "attacker-key")
           (Some "admin") (HTTPException 401 "Invalid token") eq_refl eq_refl).
Defined.

(** ** The engine cache *)

Lemma failed_initialization_can_be_retried_witness :
  (lightrag_server_auth.get_or_create_rag "./rag_storage" fixtures.join
     (Some "tenantA") (Raise (PyException "OSError")) fixtures.empty_world).2
  = lightrag_server_auth.Failed (PyException "OSError") ∧
  ∃ W' rag,
    lightrag_server_auth.get_or_create_rag "./rag_storage" fixtures.join
      (Some "tenantA") (Return ())
      (lightrag_server_auth.get_or_create_rag "./rag_storage" fixtures.join
         (Some "tenantA") (Raise (PyException "OSError"))
         fixtures.empty_world).1
    = (W', lightrag_server_auth.Done rag) ∧
    rag.(lightrag_server_auth.rag_id) = 1.
Proof.
  destruct (failed_initialization_can_be_retried "./rag_storage" fixtures.join
              (Some "tenantA") (PyException "OSError") fixtures.empty_world
              (lookup_empty _))
    as (Hfailed & _ & _ & W' & rag & Hretry & Hid & _).
  split; [exact Hfailed|].
  exists W', rag. split; [exact Hretry|exact Hid].
Defined.

Lemma other_workspaces_untouched_witness :
  let rag := lightrag_server_auth.mkLightRAG 0 "./rag_storage/tenantB" "tenantB" in
  let W := lightrag_server_auth.mkWorld {["tenantB" := rag]} [rag]
             ["./rag_storage/tenantB"] in
  (fixtures.run (lightrag_server_auth.overlapped 3)
     (W, replicate 3 (lightrag_server_auth.Pending (Some "tenantA")))).1
    .(lightrag_server_auth.rag_instances) !! "tenantB"
  = Some rag.
Proof.
  cbv zeta.
  rewrite (other_workspaces_untouched "./rag_storage" fixtures.join "tenantA"
             (lightrag_server_auth.overlapped 3) _
             (replicate 3 (lightrag_server_auth.Pending (Some "tenantA")))).
  - apply lookup_singleton_eq.
  - by apply Forall_replicate.
  - discriminate.
Defined.

Lemma cache_stays_consistent_witness :
  lightrag_server_auth.cache_consistent
    (fixtures.run (lightrag_server_auth.overlapped 3)
       (fixtures.empty_world,
        [lightrag_server_auth.Pending (Some "tenantA");
         lightrag_server_auth.Pending None;
         lightrag_server_auth.Pending (Some "tenantA")])).1.
Proof.
  assert (lightrag_server_auth.cache_consistent fixtures.empty_world) as Hempty.
  { intros key rag Hget. simpl in Hget. by rewrite lookup_empty in Hget. }
  destruct (cache_stays_consistent "./rag_storage" fixtures.join
              fixtures.empty_world Hempty) as [Hrun _].
  apply Hrun. by repeat constructor.
Defined.

(** ** The command-line tool *)

Example add_user_defaults_email :
  (manage_users.add_user fixtures.digest
     (option (gmap string user_manager.User)) fixtures.save_ok "5f3a" 1000
     "carol" "" "pw" "pw" fixtures.alice_store None).(manage_users.printed)
  = [manage_users.Add_new_user_heading; manage_users.Dashes;
     manage_users.Using_default_email "carol@bosch.com";
     manage_users.User_created "carol"; manage_users.Workspace_is "user_carol"].
Proof. vm_compute. reflexivity. Qed.

Example delete_needs_yes :
  manage_users.delete_user (option (gmap string user_manager.User))
    fixtures.save_ok "alice" "y" fixtures.alice_store None
  = manage_users.mkRun [manage_users.Cancelled] None fixtures.alice_store None ∧
  (manage_users.delete_user (option (gmap string user_manager.User))
     fixtures.save_ok "alice" "YES" fixtures.alice_store None)
    .(manage_users.printed)
  = [manage_users.User_deleted "alice"].
Proof. split; vm_compute; reflexivity. Qed.

Lemma toggle_twice_restores_witness :
  let once :=
    manage_users.toggle_user_status fixtures.digest
      (option (gmap string user_manager.User)) fixtures.save_ok "alice"
      fixtures.alice_store None in
  (user_manager.authenticate fixtures.digest 3000 "alice" "secret1"
     once.(manage_users.store)).1 = None ∧
  (manage_users.toggle_user_status fixtures.digest
     (option (gmap string user_manager.User)) fixtures.save_ok "alice"
     once.(manage_users.store) once.(manage_users.disk)).(manage_users.store)
  = fixtures.alice_store.
Proof.
  cbv zeta.
  destruct (toggle_twice_restores fixtures.digest
              (option (gmap string user_manager.User)) fixtures.save_ok "alice"
              _ fixtures.alice_store None (λ _ _, eq_refl)
              ltac:(discriminate) alice_lookup)
    as (_ & _ & Hblocked & Hback & _).
  split; [|exact Hback].
  by rewrite (Hblocked eq_refl 3000%Z "secret1").
Defined.

Lemma cli_reset_password_takes_effect_witness :
  ∃ logged_in users',
    user_manager.authenticate fixtures.digest 3000 "alice" "fresh"
      (manage_users.reset_password fixtures.digest
         (option (gmap string user_manager.User)) fixtures.save_fails "77aa"
         "alice" "fresh" "fresh" fixtures.alice_store None)
        .(manage_users.store)
    = (Some logged_in, users').
Proof.
  destruct (cli_reset_password_takes_effect fixtures.digest
              (option (gmap string user_manager.User)) fixtures.save_fails
              "77aa" 3000 "alice" "fresh" _ fixtures.alice_store None
              ltac:(discriminate) alice_lookup) as [_ Hlogin].
  exact (Hlogin eq_refl).
Defined.
